(** * Time series decomposition core of ml-cpp: a shallow embedding

    This development embeds the parts of
    [lib/maths/time_series/CTimeSeriesDecompositionDetail.cc] which the
    design specification talks about and checks the specification's
    statements against them.

    Conventions.
    - [core_t::TTime] (signed 64 bit seconds) and [std::size_t] values are
      integers of [Z] and [nat].  Signed overflow is undefined behaviour in
      C++; the sentinel times of the source are [min()/2] so every sum the
      embedded functions form stays far inside the 64 bit range.
    - [double] is an interface, [Double], with three implementations: IEEE
      binary64 ([float], the kernel's primitive floats: what the compiled
      C++ computes), exact rationals ([Q]) and real numbers ([R]).  Statements
      which hold whatever the arithmetic are proved once for every
      implementation; bounds which need the laws of an ordered field are
      proved over [R].  An equality between values which the source
      computes in doubles is stated for every implementation, never over
      [R] alone.
    - Classes of the repository which are not part of this file's source
      (trend, seasonal and calendar components, accumulators of
      [CBasicStatistics], the inner calendar test, ...) are interfaces too:
      type classes which list the member functions the source calls. *)

From Stdlib Require Import ZArith QArith Qround Qminmax Reals Lra Lia Bool List String.
From Stdlib Require Import Floats Sorted.
From stdpp Require Import base list.
Import ListNotations.

#[local] Open Scope Z_scope.

(** ** [core_t::TTime] and the constants of [core/Constants.h] *)

Definition TTime := Z.

Definition HOUR : TTime := 3600.
Definition DAY : TTime := 86400.
Definition WEEK : TTime := 604800.
Definition MONTH : TTime := 4 * WEEK.
Definition MAXIMUM_COMPONENTS : nat := 8.

(** Modelled from the spec: [common::CIntegerTools::floor] and
    [common::CIntegerTools::ceil] are declared in [CIntegerTools.h], which is
    not part of the source.  "Floor both endpoints to the reference step":
    the largest multiple of [multiple] which is not above [value], and,
    symmetrically, the smallest multiple which is not below it. *)
Definition ifloor (value multiple : TTime) : TTime :=
  multiple * (value / multiple).

Definition iceil (value multiple : TTime) : TTime :=
  multiple * - ((- value) / multiple).

(** ** The arithmetic of [double] *)

Declare Scope double_scope.
Delimit Scope double_scope with D.

(** The operations on [double] which the source uses.  [of_TTime] is
    [static_cast<double>] of an integer and [to_TTime] is
    [static_cast<core_t::TTime>] of a double: truncation towards zero. *)
Class Double (D : Type) : Type := {
  of_TTime : Z -> D;
  to_TTime : D -> Z;
  dadd : D -> D -> D;
  dsub : D -> D -> D;
  dmul : D -> D -> D;
  ddiv : D -> D -> D;
  dopp : D -> D;
  dltb : D -> D -> bool;
  dleb : D -> D -> bool;
  deqb : D -> D -> bool;
}.

Infix "+" := dadd : double_scope.
Infix "-" := dsub : double_scope.
Infix "*" := dmul : double_scope.
Infix "/" := ddiv : double_scope.
Notation "- x" := (dopp x) : double_scope.
Infix "<?" := dltb : double_scope.
Infix "<=?" := dleb : double_scope.
Infix "=?" := deqb : double_scope.

(** The functions of [<cmath>] the source calls. *)
Class DoubleMath (D : Type) `{Double D} : Type := {
  dsqrt : D -> D;
  dexp : D -> D;
}.

Section DoubleOps.
Context {D : Type} `{Double D}.

(** A decimal literal of the source, such as [0.25] or [1.2]: the quotient of
    two integers, which IEEE division rounds to the double nearest to the
    decimal. *)
Definition lit (num den : Z) : D := (of_TTime num / of_TTime den)%D.

Definition of_size (n : nat) : D := of_TTime (Z.of_nat n).

(** [std::max(a, b)] is [(a < b) ? b : a] and [std::min(a, b)] is
    [(b < a) ? b : a]. *)
Definition dmax (a b : D) : D := if (a <? b)%D then b else a.
Definition dmin (a b : D) : D := if (b <? a)%D then b else a.

(** [a > b] and [a >= b] are [b < a] and [b <= a]. *)
Definition dgtb (a b : D) : bool := (b <? a)%D.
Definition dgeb (a b : D) : bool := (b <=? a)%D.

(** [std::fabs]. *)
Definition dfabs (a : D) : D := if (a <? of_TTime 0)%D then (- a)%D else a.

End DoubleOps.

Infix ">?" := dgtb : double_scope.
Infix ">=?" := dgeb : double_scope.

(** *** IEEE binary64 *)

Definition float_of_Z (z : Z) : float :=
  if z <? 0 then PrimFloat.opp (PrimFloat.of_uint63 (Uint63.of_Z (- z)))
  else PrimFloat.of_uint63 (Uint63.of_Z z).

Definition float_to_Z (f : float) : Z :=
  match Prim2SF f with
  | S754_finite s m e =>
      let v := if 0 <=? e then Z.pos m * 2 ^ e else Z.pos m / 2 ^ (- e) in
      if s then - v else v
  | _ => 0
  end.

#[export] Instance Double_float : Double float := {
  of_TTime := float_of_Z;
  to_TTime := float_to_Z;
  dadd := PrimFloat.add;
  dsub := PrimFloat.sub;
  dmul := PrimFloat.mul;
  ddiv := PrimFloat.div;
  dopp := PrimFloat.opp;
  dltb := PrimFloat.ltb;
  dleb := PrimFloat.leb;
  deqb := PrimFloat.eqb;
}.

(** *** Exact rationals *)

Definition Q_to_Z (q : Q) : Z := Z.quot (Qnum q) (Z.pos (Qden q)).

Definition Qltb (a b : Q) : bool :=
  (Qnum a * Z.pos (Qden b) <? Qnum b * Z.pos (Qden a))%Z.

(** The results are kept in lowest terms, so that equal rationals are equal
    terms and long computations stay small. *)
#[export] Instance Double_Q : Double Q := {
  of_TTime := inject_Z;
  to_TTime := Q_to_Z;
  dadd := fun a b => Qred (a + b);
  dsub := fun a b => Qred (a - b);
  dmul := fun a b => Qred (a * b);
  ddiv := fun a b => Qred (a / b);
  dopp := Qopp;
  dltb := Qltb;
  dleb := Qle_bool;
  deqb := Qeq_bool;
}.

(** *** Real numbers *)

Definition Rltb (a b : R) : bool := if Rlt_dec a b then true else false.
Definition Rleb (a b : R) : bool := if Rle_dec a b then true else false.
Definition Reqb (a b : R) : bool := if Req_dec_T a b then true else false.

Definition R_to_Z (x : R) : Z :=
  if Rle_dec 0 x then Int_part x else - Int_part (- x).

#[export] Instance Double_R : Double R := {
  of_TTime := IZR;
  to_TTime := R_to_Z;
  dadd := Rplus;
  dsub := Rminus;
  dmul := Rmult;
  ddiv := Rdiv;
  dopp := Ropp;
  dltb := Rltb;
  dleb := Rleb;
  deqb := Reqb;
}.

#[export] Instance DoubleMath_R : DoubleMath R := {
  dsqrt := R_sqrt.sqrt;
  dexp := Rtrigo_def.exp;
}.

(** ** Collaborators outside this source file *)

(** The accumulators of [maths/common/CBasicStatistics.h] and the online
    regression, by the member functions the source calls on them.  A default
    constructed accumulator is [..._new]. *)
Class CBasicStatistics (D : Type) : Type := {
  (** [SSampleMean<double>::TAccumulator]: [add(x, weight)], [count], [mean],
      [age(factor)]. *)
  TMeanAccumulator : Type;
  mean_new : TMeanAccumulator;
  mean_add : D -> D -> TMeanAccumulator -> TMeanAccumulator;
  mean_count : TMeanAccumulator -> D;
  mean_mean : TMeanAccumulator -> D;
  mean_age : D -> TMeanAccumulator -> TMeanAccumulator;
  (** Replaces [moment<0>(acc)], the mean, as [moment<0>(acc) += x] and
      [moment<0>(acc) -= x] do. *)
  mean_set_moment0 : D -> TMeanAccumulator -> TMeanAccumulator;
  (** [SSampleMeanVar<double>::TAccumulator]. *)
  TMeanVarAccumulator : Type;
  meanvar_new : TMeanVarAccumulator;
  meanvar_add : D -> D -> TMeanVarAccumulator -> TMeanVarAccumulator;
  meanvar_count : TMeanVarAccumulator -> D;
  meanvar_variance : TMeanVarAccumulator -> D;
  meanvar_age : D -> TMeanVarAccumulator -> TMeanVarAccumulator;
  (** [SSampleMean<CVectorNx1<CFloatStorage, 3>>::TAccumulator]: the mean of
      three coordinates under one count. *)
  TVectorMeanAccumulator : Type;
  vmean_new : TVectorMeanAccumulator;
  vmean_add : D * D * D -> D -> TVectorMeanAccumulator -> TVectorMeanAccumulator;
  vmean_count : TVectorMeanAccumulator -> D;
  vmean_mean : TVectorMeanAccumulator -> D * D * D;
  vmean_age : D -> TVectorMeanAccumulator -> TVectorMeanAccumulator;
  (** [COrderStatisticsStack<double, 1, std::greater<>>]: the largest value
      added, read with [operator[](0)]. *)
  TMaxAccumulator : Type;
  max_new : TMaxAccumulator;
  max_add : D -> TMaxAccumulator -> TMaxAccumulator;
  max_get0 : TMaxAccumulator -> D;
  max_age : D -> TMaxAccumulator -> TMaxAccumulator;
  (** [CBasicStatistics::CMinMax<double>]: [add(x)] and [signMargin()]. *)
  TMinMaxAccumulator : Type;
  minmax_new : TMinMaxAccumulator;
  minmax_add : D -> TMinMaxAccumulator -> TMinMaxAccumulator;
  minmax_signMargin : TMinMaxAccumulator -> D;
  (** [CLeastSquaresOnlineRegression<1, double>]; [parameters(params)]
      followed by [params[1]] is [regression_slope]. *)
  TRegression : Type;
  regression_new : TRegression;
  regression_count : TRegression -> D;
  regression_slope : TRegression -> D;
  regression_add : D -> D -> D -> TRegression -> TRegression;
  regression_age : D -> TRegression -> TRegression;
  regression_shiftAbscissa : D -> TRegression -> TRegression;
  (** [CSampling::normalSample(rng, 0.0, variance)] on a default constructed
      [CPRNG::CXorOShiro128Plus]: the sample of the call number [i]. *)
  normalSample : D -> nat -> D;
}.

(** [CTrendComponent], [CSeasonalComponent] (with its [CSeasonalTime]),
    [CCalendarComponent] and [CCalendarFeature], by the member functions the
    source calls.  Member functions which modify the object return the
    modified object. *)
Class CComponentTypes (D : Type) : Type := {
  CTrendComponent : Type;
  trend_new : D -> CTrendComponent;
  trend_clear : CTrendComponent -> CTrendComponent;
  trend_defaultDecayRate : CTrendComponent -> D;
  trend_add : TTime -> D -> D -> CTrendComponent -> CTrendComponent;
  trend_propagateForwardsByTime : TTime -> CTrendComponent -> CTrendComponent;
  trend_value_mean : CTrendComponent -> TTime -> D;
  trend_shiftOrigin : TTime -> CTrendComponent -> CTrendComponent;
  trend_shiftLevel : D -> CTrendComponent -> CTrendComponent;
  trend_shiftSlope : TTime -> D -> CTrendComponent -> CTrendComponent;

  CSeasonalComponent : Type;
  (** [time().period()], [time().window()], [time().windowed()],
      [time().inWindow(t)] and [lhs.time() < rhs.time()]. *)
  sc_period : CSeasonalComponent -> TTime;
  sc_window : CSeasonalComponent -> TTime * TTime;
  sc_windowed : CSeasonalComponent -> bool;
  sc_inWindow : CSeasonalComponent -> TTime -> bool;
  sc_time_ltb : CSeasonalComponent -> CSeasonalComponent -> bool;
  (** [value(time, 0.0).mean()] and [meanValue()]. *)
  sc_value_mean : CSeasonalComponent -> TTime -> D;
  sc_meanValue : CSeasonalComponent -> D;
  sc_delta : CSeasonalComponent -> TTime -> TTime -> D -> D;
  sc_slope : CSeasonalComponent -> D;
  sc_slopeAccurate : CSeasonalComponent -> TTime -> bool;
  sc_shiftOrigin : TTime -> CSeasonalComponent -> CSeasonalComponent;
  sc_shiftLevel : D -> CSeasonalComponent -> CSeasonalComponent;
  sc_shiftSlope : TTime -> D -> CSeasonalComponent -> CSeasonalComponent;
  sc_size : CSeasonalComponent -> nat;
  sc_dynamicSize : CSeasonalComponent -> Z;
  sc_isBad : CSeasonalComponent -> bool;
  sc_initialized : CSeasonalComponent -> bool;
  sc_shouldInterpolate : CSeasonalComponent -> TTime -> bool;
  sc_interpolate : TTime -> bool -> CSeasonalComponent -> CSeasonalComponent;
  (** [decayRate()] and [propagateForwardsByTime(time, meanRevertFactor)]. *)
  sc_decayRate : CSeasonalComponent -> D;
  sc_propagateForwardsByTime : D -> D -> CSeasonalComponent -> CSeasonalComponent;

  CCalendarFeature : Type;
  feature_eqb : CCalendarFeature -> CCalendarFeature -> bool;
  feature_window : CCalendarFeature -> TTime;
  feature_inWindow : CCalendarFeature -> TTime -> bool;
  feature_print : CCalendarFeature -> string;

  CCalendarComponent : Type;
  (** The constructor [CCalendarComponent(feature, timeZoneOffset, size,
      decayRate, bucketLength, E_Natural)] followed by [initialize()]. *)
  cc_make : CCalendarFeature -> TTime -> nat -> D -> D -> CCalendarComponent;
  cc_feature : CCalendarComponent -> CCalendarFeature;
  cc_value_mean : CCalendarComponent -> TTime -> D;
  cc_meanValue : CCalendarComponent -> D;
  cc_size : CCalendarComponent -> nat;
  cc_isBad : CCalendarComponent -> bool;
  cc_initialized : CCalendarComponent -> bool;
  cc_shouldInterpolate : CCalendarComponent -> TTime -> bool;
  cc_interpolate : TTime -> bool -> CCalendarComponent -> CCalendarComponent;
}.

(** ** Loops *)

(** [for (std::size_t i = lo; i < lo + n; ++i) body(i)] over a state. *)
Fixpoint for_loop {S : Type} (lo n : nat) (body : nat -> S -> S) (s : S) : S :=
  match n with
  | O => s
  | S n' => for_loop (Datatypes.S lo) n' body (body lo s)
  end.

(** [v[i]] of a [TDoubleVec]; the source never indexes out of range, where
    C++ leaves the behaviour undefined and this reads zero. *)
Definition vget {D : Type} `{Double D} (v : list D) (i : nat) : D :=
  default (of_TTime 0) (v !! i).

(** [v[i] = x]: [<[i:=x]> v], which leaves [v] alone out of range. *)
Definition vset {D : Type} (v : list D) (i : nat) (x : D) : list D :=
  <[i:=x]> v.

(** ** [decompose] (source lines 154-211) *)

Section Decompose.
Context {D : Type} `{Double D} `{CComponentTypes D}.

(** What [decompose] leaves in its in/out and out parameters. *)
Record SDecomposition : Type := {
  d_decomposition : list D;
  d_predictions : list D;
  d_referenceError : D;
  d_error : D;
  d_scale : D;
}.

Definition decompose (trend : D) (seasonal : list CSeasonalComponent)
    (calendar : list CCalendarComponent) (time : TTime) (deltas : list D)
    (gain : D) (decomposition predictions : list D) : SDecomposition :=
  let m := length seasonal in
  let n := length calendar in
  let x0 := trend in
  let x := replicate (m + n) (of_TTime 0) in
  let xhat := x0 in
  let '(x, xhat) :=
    for_loop 0 m (fun i '(x, xhat) =>
      match seasonal !! i with
      | Some c => let x := vset x i (sc_value_mean c time) in
                  (x, (xhat + vget x i)%D)
      | None => (x, xhat)
      end) (x, xhat) in
  let '(x, xhat) :=
    for_loop m n (fun i '(x, xhat) =>
      match calendar !! (i - m)%nat with
      | Some c => let x := vset x i (cc_value_mean c time) in
                  (x, (xhat + vget x i)%D)
      | None => (x, xhat)
      end) (x, xhat) in
  let Z := dmax (of_size (m + n + 1) / gain)%D (of_TTime 1) in
  let error := (vget decomposition 0 - xhat)%D in
  let referenceError := (vget decomposition 0 - x0)%D in
  let decomposition :=
    vset decomposition 0 (x0 + (vget decomposition 0 - xhat) / Z)%D in
  let '(predictions, decomposition) :=
    for_loop 0 m (fun i '(predictions, decomposition) =>
      match seasonal !! i with
      | Some c =>
          let predictions := vset predictions i (vget x i - sc_meanValue c)%D in
          let decomposition :=
            vset decomposition (i + 1)
              (vget x i + (vget decomposition (i + 1) - xhat) / Z
               + vget deltas i)%D in
          (predictions, decomposition)
      | None => (predictions, decomposition)
      end) (predictions, decomposition) in
  let '(predictions, decomposition) :=
    for_loop m n (fun i '(predictions, decomposition) =>
      match calendar !! (i - m)%nat with
      | Some c =>
          let predictions := vset predictions i (vget x i - cc_meanValue c)%D in
          let decomposition :=
            vset decomposition (i + 1)
              (vget x i + (vget decomposition (i + 1) - xhat) / Z)%D in
          (predictions, decomposition)
      | None => (predictions, decomposition)
      end) (predictions, decomposition) in
  let scale := (Z / of_size (m + n + 1))%D in
  {| d_decomposition := decomposition;
     d_predictions := predictions;
     d_referenceError := referenceError;
     d_error := error;
     d_scale := scale |}.

End Decompose.

(** ** [CComponents::CComponentErrors] (source lines 2496-2563) *)

Section ComponentErrors.
Context {D : Type} `{Double D} `{CBasicStatistics D}.

Record CComponentErrors : Type := {
  m_MeanErrors : TVectorMeanAccumulator;
  m_MaxVarianceIncrease : TMaxAccumulator;
}.

Definition pow2 (x : D) : D := (x * x)%D.

(** Coordinates [(0)], [(1)] and [(2)] of a [TVector]. *)
Definition vec0 (v : D * D * D) : D := fst (fst v).
Definition vec1 (v : D * D * D) : D := snd (fst v).
Definition vec2 (v : D * D * D) : D := snd v.

(** [min(squareError, 36 * mean)] on vectors is the minimum by coordinate. *)
Definition vec_min (a b : D * D * D) : D * D * D :=
  (dmin (vec0 a) (vec0 b), dmin (vec1 a) (vec1 b), dmin (vec2 a) (vec2 b)).

Definition vec_scale (k : D) (a : D * D * D) : D * D * D :=
  ((k * vec0 a)%D, (k * vec1 a)%D, (k * vec2 a)%D).

Definition winsorise (e : CComponentErrors) (squareError : D * D * D)
    : D * D * D :=
  if (vmean_count (m_MeanErrors e) >? of_TTime 10)%D
  then vec_min squareError (vec_scale (of_TTime 36) (vmean_mean (m_MeanErrors e)))
  else squareError.

Definition CComponentErrors_add (referenceError error prediction
    varianceIncrease weight : D) (e : CComponentErrors) : CComponentErrors :=
  let errors := (pow2 referenceError, pow2 error, pow2 (error + prediction)%D) in
  {| m_MeanErrors := vmean_add (winsorise e errors) weight (m_MeanErrors e);
     m_MaxVarianceIncrease :=
       max_add varianceIncrease (m_MaxVarianceIncrease e) |}.

Definition CComponentErrors_clear (e : CComponentErrors) : CComponentErrors :=
  {| m_MeanErrors := vmean_new; m_MaxVarianceIncrease := max_new |}.

(** A default constructed [CComponentErrors]. *)
Definition CComponentErrors_new : CComponentErrors :=
  {| m_MeanErrors := vmean_new; m_MaxVarianceIncrease := max_new |}.

Definition CComponentErrors_remove (bucketLength period : TTime)
    (e : CComponentErrors) : bool :=
  let history := (vmean_count (m_MeanErrors e) * of_TTime bucketLength)%D in
  let errorWithNoComponents := vec0 (vmean_mean (m_MeanErrors e)) in
  let errorWithComponent := vec1 (vmean_mean (m_MeanErrors e)) in
  let errorWithoutComponent := vec2 (vmean_mean (m_MeanErrors e)) in
  ((history >? of_TTime WEEK)%D
   && (errorWithComponent >? errorWithNoComponents)%D)
  || ((history >? of_TTime 5 * of_TTime period)%D
      && (max_get0 (m_MaxVarianceIncrease e) <? lit 12 10)%D
      && (errorWithoutComponent <=? errorWithComponent)%D).

Definition CComponentErrors_age (factor : D) (e : CComponentErrors)
    : CComponentErrors :=
  {| m_MeanErrors := vmean_age factor (m_MeanErrors e);
     m_MaxVarianceIncrease := max_age factor (m_MaxVarianceIncrease e) |}.

End ComponentErrors.

Arguments CComponentErrors D {_}.

(** ** Messages (source lines 374-447) *)

(** [SMessage]: the times and what [s_MemoryCircuitBreaker
    .areAllocationsAllowed()] answers. *)
Record SMessage : Type := {
  s_Time : TTime;
  s_LastTime : TTime;
  s_AllocationsAllowed : bool;
}.

(** [SAddValue]: the data members.  [s_Count] and [s_CountForUpdate] are
    [maths_t::count(s_Weights)] and [maths_t::countForUpdate(s_Weights)]; the
    predictor factories and the decomposition the message points to are
    arguments of the handlers which use them. *)
Record SAddValue (D : Type) : Type := {
  s_Message : SMessage;
  s_TimeShift : TTime;
  s_Value : D;
  s_Count : D;
  s_CountForUpdate : D;
  s_Occupancy : D;
  s_FirstValueTime : TTime;
  s_Trend : D;
  s_Seasonal : D;
  s_Calendar : D;
}.

Arguments s_Message {D}.
Arguments s_TimeShift {D}.
Arguments s_Value {D}.
Arguments s_Count {D}.
Arguments s_CountForUpdate {D}.
Arguments s_Occupancy {D}.
Arguments s_FirstValueTime {D}.
Arguments s_Trend {D}.
Arguments s_Seasonal {D}.
Arguments s_Calendar {D}.

(** ** Containers keyed by a time window

    [boost::container::flat_map<TTimeTimePr, T>]: an association list kept in
    the order of its keys, which is the order a range-for visits it in. *)

Definition TTimeTimePr : Type := TTime * TTime.

Definition window_eqb (a b : TTimeTimePr) : bool :=
  (a.1 =? b.1) && (a.2 =? b.2).

Definition window_ltb (a b : TTimeTimePr) : bool :=
  (a.1 <? b.1) || ((a.1 =? b.1) && (a.2 <? b.2)).

Fixpoint fm_find {T : Type} (k : TTimeTimePr) (m : list (TTimeTimePr * T))
    : option T :=
  match m with
  | [] => None
  | (k', v) :: m' => if window_eqb k k' then Some v else fm_find k m'
  end.

(** [f(m[k])], where [operator[]] first inserts the value [init] for a key
    which is missing. *)
Fixpoint fm_update {T : Type} (k : TTimeTimePr) (f : T -> T) (init : T)
    (m : list (TTimeTimePr * T)) : list (TTimeTimePr * T) :=
  match m with
  | [] => [(k, f init)]
  | (k', v) :: m' =>
      if window_eqb k k' then (k', f v) :: m'
      else if window_ltb k k' then (k, f init) :: (k', v) :: m'
      else (k', v) :: fm_update k f init m'
  end.

(** [common::CSetTools::simultaneousRemoveIf]: drops the positions whose
    flag is set. *)
Fixpoint remove_flagged {A : Type} (flags : list bool) (l : list A) : list A :=
  match flags, l with
  | f :: flags', a :: l' =>
      if f then remove_flagged flags' l' else a :: remove_flagged flags' l'
  | _, _ => l
  end.

(** [std::swap(v[i], v[j])]. *)
Definition vswap {A : Type} (v : list A) (i j : nat) : list A :=
  match v !! i, v !! j with
  | Some a, Some b => <[i:=b]> (<[j:=a]> v)
  | _, _ => v
  end.

(** Applies [f] to the first element which satisfies [p] and reports whether
    there was one: a range-for whose body ends in [break]. *)
Fixpoint update_first {A : Type} (p : A -> bool) (f : A -> A) (l : list A)
    : list A * bool :=
  match l with
  | [] => ([], false)
  | a :: l' =>
      if p a then (f a :: l', true)
      else let '(l'', found) := update_first p f l' in (a :: l'', found)
  end.

(** ** [CSeasonalDecomposition]: what the seasonality test proposes

    The class is declared in [CTimeSeriesTestForSeasonality.h]; the record
    lists what [addSeasonalComponents] and [estimateSizeChange] read from it. *)

Section Proposal.
Context {D : Type} `{CBasicStatistics D} `{CComponentTypes D}.

(** One element of [components.seasonal()]. *)
Record CNewSeasonalComponent : Type := {
  createSeasonalComponent : D -> D -> CSeasonalComponent;
  annotationText : string;
}.

Record CSeasonalDecomposition : Type := {
  seasonalToRemoveMask : list bool;
  seasonal : list CNewSeasonalComponent;
  (** [trend()->initialValuesStartTime()] and the like. *)
  initialValuesStartTime : TTime;
  initialValuesEndTime : TTime;
  trendBucketLength : TTime;
  initialValues : list TMeanAccumulator;
  withinBucketVariance : D;
}.

End Proposal.

Arguments CNewSeasonalComponent D {_}.
Arguments CSeasonalDecomposition D {_ _}.

(** ** [CComponents::CSeasonal] (source lines 2565-2905) *)

Section Seasonal.
Context {D : Type} `{Double D} `{CBasicStatistics D} `{CComponentTypes D}.

Record CSeasonal : Type := {
  m_Components : list CSeasonalComponent;
  m_PredictionErrors : list (CComponentErrors D);
}.

(** [std::make_unique<CSeasonal>()]. *)
Definition CSeasonal_new : CSeasonal :=
  {| m_Components := []; m_PredictionErrors := [] |}.

Definition CSeasonal_removeComponentsWithBadValues (time : TTime)
    (s : CSeasonal) : CSeasonal * bool :=
  let remove := map sc_isBad (m_Components s) in
  let anyBadComponentsFound := existsb (fun remove_ => remove_) remove in
  if anyBadComponentsFound
  then ({| m_Components := remove_flagged remove (m_Components s);
           m_PredictionErrors := remove_flagged remove (m_PredictionErrors s) |},
        true)
  else (s, false).

Definition CSeasonal_clearPredictionErrors (s : CSeasonal) : CSeasonal :=
  {| m_Components := m_Components s;
     m_PredictionErrors := map CComponentErrors_clear (m_PredictionErrors s) |}.

Definition CSeasonal_size (s : CSeasonal) : nat :=
  fold_left (fun result component => (result + sc_size component)%nat)
            (m_Components s) O.

Definition CSeasonal_estimateSizeChange (components : CSeasonalDecomposition D)
    (decayRate bucketLength : D) (s : CSeasonal) : Z :=
  let removeComponentsMask := seasonalToRemoveMask components in
  if negb (length removeComponentsMask =? length (m_Components s))%nat
  then 0
  else
    let removeComponentsSize :=
      for_loop 0 (length removeComponentsMask) (fun i size =>
        match removeComponentsMask !! i, m_Components s !! i with
        | Some true, Some c => size + sc_dynamicSize c
        | _, _ => size
        end) 0 in
    let addComponentsSize :=
      fold_left (fun size component =>
        size + sc_dynamicSize (createSeasonalComponent component decayRate bucketLength))
        (seasonal components) 0 in
    addComponentsSize - removeComponentsSize.

(** The longest shorter period which divides [period], searched from
    position [j] (counted from one above) downwards. *)
Fixpoint find_subharmonic (components : list CSeasonalComponent)
    (period : TTime) (j : nat) : option (nat * CSeasonalComponent) :=
  match j with
  | O => None
  | S j' =>
      match components !! j' with
      | Some c =>
          if Z.rem period (sc_period c) =? 0 then Some (j', c)
          else find_subharmonic components period j'
      | None => find_subharmonic components period j'
      end
  end.

(** The positions of [m_Components] which are in their window at [time];
    [components] and [errors] of the source point to these positions. *)
Definition CSeasonal_active (time : TTime) (s : CSeasonal) : list nat :=
  List.filter (fun i => match m_Components s !! i with
                        | Some c => sc_inWindow c time
                        | None => false
                        end) (seq 0 (length (m_Components s))).

Definition CSeasonal_componentsErrorsAndDeltas (time : TTime) (s : CSeasonal)
    : list CSeasonalComponent * list (CComponentErrors D) * list D :=
  let active := CSeasonal_active time s in
  let components := omap (fun i => m_Components s !! i) active in
  let errors := omap (fun i => m_PredictionErrors s !! i) active in
  let deltas := replicate (length components) (of_TTime 0) in
  let deltas :=
    for_loop 1 (length components - 1) (fun i deltas =>
      match components !! i with
      | Some ci =>
          match find_subharmonic components (sc_period ci) i with
          | Some (j, cj) =>
              let value := (sc_value_mean cj time - sc_meanValue cj)%D in
              let delta := (lit 1 10 * sc_delta ci time (sc_period cj) value)%D in
              let deltas := vset deltas j (vget deltas j + delta)%D in
              vset deltas i (vget deltas i - delta)%D
          | None => deltas
          end
      | None => deltas
      end) deltas in
  (components, errors, deltas).

Definition CSeasonal_appendPredictions (time : TTime) (predictions : list D)
    (s : CSeasonal) : list D :=
  fold_left (fun predictions component =>
    if sc_inWindow component time
    then predictions ++ [(sc_value_mean component time - sc_meanValue component)%D]
    else predictions) (m_Components s) predictions.

Definition CSeasonal_shouldInterpolate (time : TTime) (s : CSeasonal) : bool :=
  existsb (fun component => sc_shouldInterpolate component time) (m_Components s).

Definition CSeasonal_interpolate (time : TTime) (refine : bool) (s : CSeasonal)
    : CSeasonal :=
  {| m_Components :=
       map (fun component =>
              if sc_shouldInterpolate component time
              then sc_interpolate time refine component else component)
           (m_Components s);
     m_PredictionErrors := m_PredictionErrors s |}.

Definition CSeasonal_initialized (s : CSeasonal) : bool :=
  existsb sc_initialized (m_Components s).

Definition CSeasonal_add (component : CSeasonalComponent) (s : CSeasonal)
    : CSeasonal :=
  {| m_Components := m_Components s ++ [component];
     m_PredictionErrors := m_PredictionErrors s ++ [CComponentErrors_new] |}.

(** [COrderings::simultaneousSortWith] on the components' times: the
    prediction errors follow their components.  The source does not say what
    happens to components of equal time; insertion keeps their order. *)
Fixpoint insert_by_time (x : CSeasonalComponent * CComponentErrors D)
    (l : list (CSeasonalComponent * CComponentErrors D))
    : list (CSeasonalComponent * CComponentErrors D) :=
  match l with
  | [] => [x]
  | y :: l' =>
      if sc_time_ltb x.1 y.1 then x :: y :: l' else y :: insert_by_time x l'
  end.

Definition CSeasonal_refreshForNewComponents (s : CSeasonal) : CSeasonal :=
  let sorted :=
    foldr insert_by_time [] (zip (m_Components s) (m_PredictionErrors s)) in
  {| m_Components := sorted.*1; m_PredictionErrors := sorted.*2 |}.

(** [CSeasonal::remove] (source lines 2788-2806): the kept components are
    swapped to the front, then the tail is erased. *)
Definition CSeasonal_remove (removeComponentsMask : list bool) (s : CSeasonal)
    : CSeasonal * bool :=
  if negb (length removeComponentsMask =? length (m_Components s))%nat
  then (s, false)
  else
    let '(components, errors, end_) :=
      for_loop 0 (length removeComponentsMask)
        (fun i '(components, errors, end_) =>
           let '(components, errors) :=
             if negb (i =? end_)%nat
             then (vswap components end_ i, vswap errors end_ i)
             else (components, errors) in
           (components, errors,
            (end_ + if default false (removeComponentsMask !! i) then 0 else 1)%nat))
        (m_Components s, m_PredictionErrors s, O) in
    ({| m_Components := take end_ components;
        m_PredictionErrors := take end_ errors |}, true).

Definition CSeasonal_shiftOrigin (time : TTime) (s : CSeasonal) : CSeasonal :=
  {| m_Components := map (sc_shiftOrigin time) (m_Components s);
     m_PredictionErrors := m_PredictionErrors s |}.

(** [CSeasonal::prune] (source lines 2808-2881).  The counter [--j->second]
    is decremented only where the window was found: the source dereferences
    [windowed.end()] otherwise, which has no defined effect. *)
Definition CSeasonal_prune (time bucketLength : TTime) (s : CSeasonal)
    : CSeasonal * bool :=
  let n := length (m_Components s) in
  let s :=
    if (1 <? n)%nat then
      let windowed :=
        fold_left (fun windowed component =>
          if sc_windowed component
          then fm_update (sc_window component) Nat.succ O windowed
          else windowed) (m_Components s) [] in
      let '(remove, shifts, windowed) :=
        for_loop 0 n (fun i '(remove, shifts, windowed) =>
          match m_Components s !! i, m_PredictionErrors s !! i with
          | Some c, Some e =>
              let j := fm_find (sc_window c) windowed in
              if match j with None => true | Some count => (1 <? count)%nat end
              then
                if CComponentErrors_remove bucketLength (sc_period c) e
                then (<[i:=true]> remove,
                      fm_update (sc_window c)
                        (fun shift => (shift + sc_meanValue c)%D) (of_TTime 0) shifts,
                      match j with
                      | Some _ => fm_update (sc_window c) Nat.pred O windowed
                      | None => windowed
                      end)
                else (remove, shifts, windowed)
              else (remove, shifts, windowed)
          | _, _ => (remove, shifts, windowed)
          end) (replicate n false, [], windowed) in
      let components := remove_flagged remove (m_Components s) in
      let errors := remove_flagged remove (m_PredictionErrors s) in
      let components :=
        fold_left (fun components '(window, shift) =>
          match fm_find window windowed with
          | Some _ =>
              (update_first (fun c => window_eqb window (sc_window c))
                            (sc_shiftLevel shift) components).1
          | None =>
              let '(components', found) :=
                update_first (fun c => negb (sc_windowed c))
                             (sc_shiftLevel shift) components in
              if found then components'
              else
                (* [shifted] stays empty, so [find_if] finds nothing and
                   every component is shifted *)
                map (sc_shiftLevel shift) components
          end) shifts components in
      {| m_Components := components; m_PredictionErrors := errors |}
    else s in
  (s, match m_Components s with [] => true | _ => false end).

End Seasonal.

Arguments CSeasonal D {_ _}.

(** ** [CComponents::CCalendar] (source lines 2907-3104) *)

Section Calendar.
Context {D : Type} `{Double D} `{CBasicStatistics D} `{CComponentTypes D}.

Record CCalendar : Type := {
  m_CalendarComponents : list CCalendarComponent;
  m_CalendarPredictionErrors : list (CComponentErrors D);
}.

Definition CCalendar_new : CCalendar :=
  {| m_CalendarComponents := []; m_CalendarPredictionErrors := [] |}.

Definition CCalendar_clearPredictionErrors (c : CCalendar) : CCalendar :=
  {| m_CalendarComponents := m_CalendarComponents c;
     m_CalendarPredictionErrors :=
       map CComponentErrors_clear (m_CalendarPredictionErrors c) |}.

Definition CCalendar_size (c : CCalendar) : nat :=
  fold_left (fun result component => (result + cc_size component)%nat)
            (m_CalendarComponents c) O.

Definition CCalendar_haveComponent (feature : CCalendarFeature) (c : CCalendar)
    : bool :=
  existsb (fun component => feature_eqb (cc_feature component) feature)
          (m_CalendarComponents c).

Definition CCalendar_componentsAndErrors (time : TTime) (c : CCalendar)
    : list CCalendarComponent * list (CComponentErrors D) :=
  let active :=
    List.filter (fun i => match m_CalendarComponents c !! i with
                          | Some component =>
                              feature_inWindow (cc_feature component) time
                          | None => false
                          end) (seq 0 (length (m_CalendarComponents c))) in
  (omap (fun i => m_CalendarComponents c !! i) active,
   omap (fun i => m_CalendarPredictionErrors c !! i) active).

Definition CCalendar_appendPredictions (time : TTime) (predictions : list D)
    (c : CCalendar) : list D :=
  fold_left (fun predictions component =>
    if feature_inWindow (cc_feature component) time
    then predictions ++ [(cc_value_mean component time - cc_meanValue component)%D]
    else predictions) (m_CalendarComponents c) predictions.

Definition CCalendar_shouldInterpolate (time : TTime) (c : CCalendar) : bool :=
  existsb (fun component => cc_shouldInterpolate component time)
          (m_CalendarComponents c).

Definition CCalendar_interpolate (time : TTime) (refine : bool) (c : CCalendar)
    : CCalendar :=
  {| m_CalendarComponents :=
       map (fun component =>
              if cc_shouldInterpolate component time
              then cc_interpolate time refine component else component)
           (m_CalendarComponents c);
     m_CalendarPredictionErrors := m_CalendarPredictionErrors c |}.

Definition CCalendar_initialized (c : CCalendar) : bool :=
  existsb cc_initialized (m_CalendarComponents c).

(** [m_PredictionErrors.resize(m_Components.size())]: cut, or filled up with
    default constructed errors. *)
Definition resize_errors (n : nat) (errors : list (CComponentErrors D))
    : list (CComponentErrors D) :=
  take n errors ++ replicate (n - length errors) CComponentErrors_new.

Definition CCalendar_add (feature : CCalendarFeature) (timeZoneOffset : TTime)
    (size : nat) (decayRate bucketLength : D) (c : CCalendar) : CCalendar :=
  let components :=
    m_CalendarComponents c
      ++ [cc_make feature timeZoneOffset size decayRate bucketLength] in
  {| m_CalendarComponents := components;
     m_CalendarPredictionErrors :=
       resize_errors (length components) (m_CalendarPredictionErrors c) |}.

Definition CCalendar_prune (time bucketLength : TTime) (c : CCalendar)
    : CCalendar * bool :=
  let remove :=
    for_loop 0 (length (m_CalendarComponents c)) (fun i remove =>
      match m_CalendarComponents c !! i, m_CalendarPredictionErrors c !! i with
      | Some component, Some e =>
          if CComponentErrors_remove bucketLength
               (feature_window (cc_feature component)) e
          then <[i:=true]> remove else remove
      | _, _ => remove
      end) (replicate (length (m_CalendarComponents c)) false) in
  let c :=
    {| m_CalendarComponents := remove_flagged remove (m_CalendarComponents c);
       m_CalendarPredictionErrors :=
         remove_flagged remove (m_CalendarPredictionErrors c) |} in
  (c, match m_CalendarComponents c with [] => true | _ => false end).

Definition CCalendar_removeComponentsWithBadValues (time : TTime)
    (c : CCalendar) : CCalendar * bool :=
  let remove := map cc_isBad (m_CalendarComponents c) in
  let anyBadComponentsFound := existsb (fun remove_ => remove_) remove in
  if anyBadComponentsFound
  then ({| m_CalendarComponents := remove_flagged remove (m_CalendarComponents c);
           m_CalendarPredictionErrors :=
             remove_flagged remove (m_CalendarPredictionErrors c) |}, true)
  else (c, false).

End Calendar.

Arguments CCalendar D {_ _}.

(** ** [CComponents::CGainController] (source lines 2411-2494) *)

Section GainController.
Context {D : Type} `{Double D} `{CBasicStatistics D}.

Record CGainController : Type := {
  m_RegressionOrigin : TTime;
  m_MeanSumAmplitudes : TMeanAccumulator;
  m_MeanSumAmplitudesTrend : TRegression;
}.

(** A default constructed controller, which is also what [clear] leaves. *)
Definition CGainController_new : CGainController :=
  {| m_RegressionOrigin := 0;
     m_MeanSumAmplitudes := mean_new;
     m_MeanSumAmplitudesTrend := regression_new |}.

Definition CGainController_clear (g : CGainController) : CGainController :=
  CGainController_new.

(** [scaleTime] (source lines 96-98). *)
Definition scaleTime (time origin : TTime) : D :=
  (of_TTime (time - origin) / of_TTime WEEK)%D.

Definition gain (g : CGainController) : D :=
  if (regression_count (m_MeanSumAmplitudesTrend g) >? of_TTime 0)%D
     && (regression_slope (m_MeanSumAmplitudesTrend g)
         >? lit 1 100 * mean_mean (m_MeanSumAmplitudes g))%D
  then lit 8 10
  else of_TTime 3.

(** [std::accumulate] of the absolute predictions from [0.0]. *)
Definition sumAmplitudes (predictions : list D) : D :=
  fold_left (fun sum prediction => (sum + dfabs prediction)%D)
            predictions (of_TTime 0).

Definition CGainController_seed (predictions : list D) (g : CGainController)
    : CGainController :=
  {| m_RegressionOrigin := m_RegressionOrigin g;
     m_MeanSumAmplitudes :=
       mean_add (sumAmplitudes predictions) (of_TTime 1) (m_MeanSumAmplitudes g);
     m_MeanSumAmplitudesTrend := m_MeanSumAmplitudesTrend g |}.

Definition CGainController_add (time : TTime) (predictions : list D)
    (g : CGainController) : CGainController :=
  match predictions with
  | [] => g
  | _ =>
      let amplitudes :=
        mean_add (sumAmplitudes predictions) (of_TTime 1) (m_MeanSumAmplitudes g) in
      {| m_RegressionOrigin := m_RegressionOrigin g;
         m_MeanSumAmplitudes := amplitudes;
         m_MeanSumAmplitudesTrend :=
           regression_add (scaleTime time (m_RegressionOrigin g))
                          (mean_mean amplitudes) (mean_count amplitudes)
                          (m_MeanSumAmplitudesTrend g) |}
  end.

Definition CGainController_age (factor : D) (g : CGainController)
    : CGainController :=
  {| m_RegressionOrigin := m_RegressionOrigin g;
     m_MeanSumAmplitudes := mean_age factor (m_MeanSumAmplitudes g);
     m_MeanSumAmplitudesTrend := regression_age factor (m_MeanSumAmplitudesTrend g) |}.

Definition CGainController_shiftOrigin (time : TTime) (g : CGainController)
    : CGainController :=
  let time := ifloor time WEEK in
  if m_RegressionOrigin g <? time
  then {| m_RegressionOrigin := time;
          m_MeanSumAmplitudes := m_MeanSumAmplitudes g;
          m_MeanSumAmplitudesTrend :=
            regression_shiftAbscissa (- scaleTime time (m_RegressionOrigin g))%D
                                     (m_MeanSumAmplitudesTrend g) |}
  else g.

End GainController.

Arguments CGainController D {_}.

(** ** Free functions of the source's anonymous namespace *)

Section Helpers.
Context {D : Type} `{DoubleMath D} `{CBasicStatistics D}.

(** [ageFactor] (source lines 101-103); [scale] defaults to [DAY]. *)
Definition ageFactor (decayRate : D) (dt scale : TTime) : D :=
  dexp (- decayRate * of_TTime dt / of_TTime scale)%D.

(** [stepwisePropagateForwards] (source lines 215-226); the callback
    modifies the object it captures, here [target]. *)
Definition stepwisePropagateForwards {A : Type} (start end_ step : TTime)
    (propagateForwardsByTime : D -> A -> A) (target : A) : A :=
  let start := ifloor start step in
  let end_ := ifloor end_ step in
  if start <? end_
  then propagateForwardsByTime (of_TTime (end_ - start) / of_TTime step)%D target
  else target.

(** [addMeanZeroNormalNoise] (source lines 229-237). *)
Definition addMeanZeroNormalNoise (variance : D)
    (values : list TMeanAccumulator) : list TMeanAccumulator :=
  if (variance >? of_TTime 0)%D
  then imap (fun i value =>
               mean_set_moment0 (mean_mean value + normalSample variance i)%D value)
            values
  else values.

(** How often the body of [for (t = start; t < end; t += step)] runs, for a
    positive [step] (the bucket length of the job).  The source's loop does
    not end for another [step] when [start < end]. *)
Definition loop_count (start end_ step : TTime) : nat :=
  Z.to_nat ((end_ - start + step - 1) / step).

End Helpers.

(** ** Propagation of the seasonal components *)

Section SeasonalPropagation.
Context {D : Type} `{DoubleMath D} `{CBasicStatistics D} `{CComponentTypes D}.

(** [CSeasonal::propagateForwards] (source lines 2627-2636): each
    component, and the prediction errors at its index, in steps of the
    component's period.  The errors are aged with the decay rate which the
    component has after it was propagated. *)
Definition CSeasonal_propagateForwards (start end_ : TTime) (s : CSeasonal D)
    : CSeasonal D :=
  for_loop 0 (length (m_Components s)) (fun i s =>
    match m_Components s !! i with
    | Some component =>
        let period := sc_period component in
        stepwisePropagateForwards start end_ period (fun time s =>
          let components :=
            alter (sc_propagateForwardsByTime (time / of_TTime 6)%D (lit 1 4))
                  i (m_Components s) in
          let decayRate :=
            match components !! i with
            | Some component => sc_decayRate component
            | None => of_TTime 0
            end in
          {| m_Components := components;
             m_PredictionErrors :=
               alter (CComponentErrors_age (dexp (- decayRate * time)%D))
                     i (m_PredictionErrors s) |}) s
    | None => s
    end) s.

End SeasonalPropagation.

(** ** The state machine of the components (source lines 284-300) *)

Inductive SC_State : Type :=
  | SC_NEW_COMPONENTS
  | SC_NORMAL
  | SC_DISABLED
  | SC_ERROR.

Inductive SC_Symbol : Type :=
  | SC_ADDED_COMPONENTS
  | SC_INTERPOLATED
  | SC_RESET.

(** [SC_TRANSITION_FUNCTION[symbol][state]]: one row for each symbol, one
    column for each state in the order [SC_NEW_COMPONENTS], [SC_NORMAL],
    [SC_DISABLED], [SC_ERROR]. *)
Definition SC_TRANSITION_FUNCTION (symbol : SC_Symbol) (state : SC_State)
    : SC_State :=
  match symbol, state with
  | SC_ADDED_COMPONENTS, SC_NEW_COMPONENTS => SC_NEW_COMPONENTS
  | SC_ADDED_COMPONENTS, SC_NORMAL => SC_NEW_COMPONENTS
  | SC_ADDED_COMPONENTS, SC_DISABLED => SC_DISABLED
  | SC_ADDED_COMPONENTS, SC_ERROR => SC_ERROR
  | SC_INTERPOLATED, SC_NEW_COMPONENTS => SC_NORMAL
  | SC_INTERPOLATED, SC_NORMAL => SC_NORMAL
  | SC_INTERPOLATED, SC_DISABLED => SC_DISABLED
  | SC_INTERPOLATED, SC_ERROR => SC_ERROR
  | SC_RESET, _ => SC_NORMAL
  end.

Definition SC_State_eqb (a b : SC_State) : bool :=
  match a, b with
  | SC_NEW_COMPONENTS, SC_NEW_COMPONENTS | SC_NORMAL, SC_NORMAL
  | SC_DISABLED, SC_DISABLED | SC_ERROR, SC_ERROR => true
  | _, _ => false
  end.

(** ** [CComponents] (source lines 1628-2395) *)

Section Components.
Context {D : Type} `{DoubleMath D} `{CBasicStatistics D} `{CComponentTypes D}.

(** What the store sends out: calls of [m_ComponentChangeCallback] and
    [m_ModelAnnotationCallback], and the [SDetectedTrend] messages it forwards
    to the mediator. *)
Inductive COutput : Type :=
  | ComponentChange (residuals : list TMeanAccumulator)
  | ModelAnnotation (text : string)
  | ForwardDetectedTrend.

Record CComponents : Type := {
  m_Machine : SC_State;
  m_DecayRate : D;
  m_BucketLength : TTime;
  m_GainController : CGainController D;
  m_SeasonalComponentSize : nat;
  m_CalendarComponentSize : nat;
  m_Trend : CTrendComponent;
  m_Seasonal : option (CSeasonal D);
  m_Calendar : option (CCalendar D);
  m_MeanVarianceScale : TMeanAccumulator;
  m_PredictionErrorWithoutTrend : TMeanVarAccumulator;
  m_PredictionErrorWithTrend : TMeanVarAccumulator;
  m_UsingTrendForPrediction : bool;
  (** The calls made so far, oldest first. *)
  m_Output : list COutput;
}.

Definition set_Machine (state : SC_State) (c : CComponents) : CComponents :=
  {| m_Machine := state; m_DecayRate := m_DecayRate c;
     m_BucketLength := m_BucketLength c; m_GainController := m_GainController c;
     m_SeasonalComponentSize := m_SeasonalComponentSize c;
     m_CalendarComponentSize := m_CalendarComponentSize c;
     m_Trend := m_Trend c; m_Seasonal := m_Seasonal c; m_Calendar := m_Calendar c;
     m_MeanVarianceScale := m_MeanVarianceScale c;
     m_PredictionErrorWithoutTrend := m_PredictionErrorWithoutTrend c;
     m_PredictionErrorWithTrend := m_PredictionErrorWithTrend c;
     m_UsingTrendForPrediction := m_UsingTrendForPrediction c;
     m_Output := m_Output c |}.

Definition set_GainController (g : CGainController D) (c : CComponents)
    : CComponents :=
  {| m_Machine := m_Machine c; m_DecayRate := m_DecayRate c;
     m_BucketLength := m_BucketLength c; m_GainController := g;
     m_SeasonalComponentSize := m_SeasonalComponentSize c;
     m_CalendarComponentSize := m_CalendarComponentSize c;
     m_Trend := m_Trend c; m_Seasonal := m_Seasonal c; m_Calendar := m_Calendar c;
     m_MeanVarianceScale := m_MeanVarianceScale c;
     m_PredictionErrorWithoutTrend := m_PredictionErrorWithoutTrend c;
     m_PredictionErrorWithTrend := m_PredictionErrorWithTrend c;
     m_UsingTrendForPrediction := m_UsingTrendForPrediction c;
     m_Output := m_Output c |}.

Definition set_Trend (t : CTrendComponent) (c : CComponents) : CComponents :=
  {| m_Machine := m_Machine c; m_DecayRate := m_DecayRate c;
     m_BucketLength := m_BucketLength c; m_GainController := m_GainController c;
     m_SeasonalComponentSize := m_SeasonalComponentSize c;
     m_CalendarComponentSize := m_CalendarComponentSize c;
     m_Trend := t; m_Seasonal := m_Seasonal c; m_Calendar := m_Calendar c;
     m_MeanVarianceScale := m_MeanVarianceScale c;
     m_PredictionErrorWithoutTrend := m_PredictionErrorWithoutTrend c;
     m_PredictionErrorWithTrend := m_PredictionErrorWithTrend c;
     m_UsingTrendForPrediction := m_UsingTrendForPrediction c;
     m_Output := m_Output c |}.

Definition set_Seasonal (s : option (CSeasonal D)) (c : CComponents)
    : CComponents :=
  {| m_Machine := m_Machine c; m_DecayRate := m_DecayRate c;
     m_BucketLength := m_BucketLength c; m_GainController := m_GainController c;
     m_SeasonalComponentSize := m_SeasonalComponentSize c;
     m_CalendarComponentSize := m_CalendarComponentSize c;
     m_Trend := m_Trend c; m_Seasonal := s; m_Calendar := m_Calendar c;
     m_MeanVarianceScale := m_MeanVarianceScale c;
     m_PredictionErrorWithoutTrend := m_PredictionErrorWithoutTrend c;
     m_PredictionErrorWithTrend := m_PredictionErrorWithTrend c;
     m_UsingTrendForPrediction := m_UsingTrendForPrediction c;
     m_Output := m_Output c |}.

Definition set_Calendar (k : option (CCalendar D)) (c : CComponents)
    : CComponents :=
  {| m_Machine := m_Machine c; m_DecayRate := m_DecayRate c;
     m_BucketLength := m_BucketLength c; m_GainController := m_GainController c;
     m_SeasonalComponentSize := m_SeasonalComponentSize c;
     m_CalendarComponentSize := m_CalendarComponentSize c;
     m_Trend := m_Trend c; m_Seasonal := m_Seasonal c; m_Calendar := k;
     m_MeanVarianceScale := m_MeanVarianceScale c;
     m_PredictionErrorWithoutTrend := m_PredictionErrorWithoutTrend c;
     m_PredictionErrorWithTrend := m_PredictionErrorWithTrend c;
     m_UsingTrendForPrediction := m_UsingTrendForPrediction c;
     m_Output := m_Output c |}.

Definition set_UsingTrendForPrediction (b : bool) (c : CComponents)
    : CComponents :=
  {| m_Machine := m_Machine c; m_DecayRate := m_DecayRate c;
     m_BucketLength := m_BucketLength c; m_GainController := m_GainController c;
     m_SeasonalComponentSize := m_SeasonalComponentSize c;
     m_CalendarComponentSize := m_CalendarComponentSize c;
     m_Trend := m_Trend c; m_Seasonal := m_Seasonal c; m_Calendar := m_Calendar c;
     m_MeanVarianceScale := m_MeanVarianceScale c;
     m_PredictionErrorWithoutTrend := m_PredictionErrorWithoutTrend c;
     m_PredictionErrorWithTrend := m_PredictionErrorWithTrend c;
     m_UsingTrendForPrediction := b;
     m_Output := m_Output c |}.

(** One more call of a callback. *)
Definition emit (o : COutput) (c : CComponents) : CComponents :=
  {| m_Machine := m_Machine c; m_DecayRate := m_DecayRate c;
     m_BucketLength := m_BucketLength c; m_GainController := m_GainController c;
     m_SeasonalComponentSize := m_SeasonalComponentSize c;
     m_CalendarComponentSize := m_CalendarComponentSize c;
     m_Trend := m_Trend c; m_Seasonal := m_Seasonal c; m_Calendar := m_Calendar c;
     m_MeanVarianceScale := m_MeanVarianceScale c;
     m_PredictionErrorWithoutTrend := m_PredictionErrorWithoutTrend c;
     m_PredictionErrorWithTrend := m_PredictionErrorWithTrend c;
     m_UsingTrendForPrediction := m_UsingTrendForPrediction c;
     m_Output := m_Output c ++ [o] |}.

(** The constructor (source lines 1630-1637). *)
Definition CComponents_new (decayRate : D) (bucketLength : TTime)
    (seasonalComponentSize : nat) : CComponents :=
  {| m_Machine := SC_NORMAL;
     m_DecayRate := decayRate;
     m_BucketLength := bucketLength;
     m_GainController := CGainController_new;
     m_SeasonalComponentSize := seasonalComponentSize;
     m_CalendarComponentSize := seasonalComponentSize / 3;
     m_Trend := trend_new decayRate;
     m_Seasonal := None;
     m_Calendar := None;
     m_MeanVarianceScale := mean_new;
     m_PredictionErrorWithoutTrend := meanvar_new;
     m_PredictionErrorWithTrend := meanvar_new;
     m_UsingTrendForPrediction := false;
     m_Output := [] |}.

(** [seasonal()] and [calendar()]: the components, none where the pointer
    is null. *)
Definition seasonalComponents (c : CComponents) : list CSeasonalComponent :=
  match m_Seasonal c with Some s => m_Components s | None => [] end.

Definition calendarComponents (c : CComponents) : list CCalendarComponent :=
  match m_Calendar c with Some k => m_CalendarComponents k | None => [] end.

Definition size (c : CComponents) : nat :=
  (match m_Seasonal c with Some s => CSeasonal_size s | None => O end
   + match m_Calendar c with Some k => CCalendar_size k | None => O end)%nat.

Definition maxSize (c : CComponents) : nat :=
  (MAXIMUM_COMPONENTS * m_SeasonalComponentSize c)%nat.

Definition clearComponentErrors (c : CComponents) : CComponents :=
  let c := set_Seasonal (CSeasonal_clearPredictionErrors <$> m_Seasonal c) c in
  set_Calendar (CCalendar_clearPredictionErrors <$> m_Calendar c) c.

Definition fitTrend (startTime dt : TTime) (values : list TMeanAccumulator)
    (trend : CTrendComponent) : CTrendComponent :=
  (fold_left (fun '(trend, time) value =>
     (if (mean_count value >? of_TTime 0)%D
      then trend_propagateForwardsByTime dt
             (trend_add time (mean_mean value) (mean_count value) trend)
      else trend, time + dt)) values (trend, startTime)).1.

Definition shiftOrigin (time : TTime) (c : CComponents) : CComponents :=
  let time := time - to_TTime (of_TTime DAY / m_DecayRate c / of_TTime 2)%D in
  let c := set_Trend (trend_shiftOrigin time (m_Trend c)) c in
  let c := set_Seasonal (CSeasonal_shiftOrigin time <$> m_Seasonal c) c in
  set_GainController (CGainController_shiftOrigin time (m_GainController c)) c.

Definition shouldInterpolate (time : TTime) (c : CComponents) : bool :=
  SC_State_eqb (m_Machine c) SC_NEW_COMPONENTS
  || match m_Seasonal c with
     | Some s => CSeasonal_shouldInterpolate time s | None => false end
  || match m_Calendar c with
     | Some k => CCalendar_shouldInterpolate time k | None => false end.

(** The window a component's level and slope are summed under in
    [canonicalize]. *)
Definition canonicalWindow (component : CSeasonalComponent) : TTimeTimePr :=
  if sc_windowed component then sc_window component else (0, 0).

Definition fm_get (k : TTimeTimePr) (m : list (TTimeTimePr * D)) : D :=
  default (of_TTime 0) (fm_find k m).

Definition canonicalize (time : TTime) (c : CComponents) : CComponents :=
  let c := shiftOrigin time c in
  let c :=
    match m_Seasonal c with
    | Some s =>
        let '(s, empty) := CSeasonal_prune time (m_BucketLength c) s in
        set_Seasonal (if empty then None else Some s) c
    | None => c
    end in
  let c :=
    match m_Calendar c with
    | Some k =>
        let '(k, empty) := CCalendar_prune time (m_BucketLength c) k in
        set_Calendar (if empty then None else Some k) c
    | None => c
    end in
  match m_Seasonal c with
  | None => c
  | Some s =>
      let '(levels, slopes, numberLevels, numberSlopes) :=
        fold_left (fun '(levels, slopes, numberLevels, numberSlopes) component =>
          let window := canonicalWindow component in
          let levels :=
            fm_update window (fun l => (l + sc_meanValue component)%D)
                      (of_TTime 0) levels in
          let numberLevels :=
            fm_update window (fun l => (l + of_TTime 1)%D) (of_TTime 0)
                      numberLevels in
          if sc_slopeAccurate component time
          then (levels,
                fm_update window (fun l => (l + sc_slope component)%D)
                          (of_TTime 0) slopes,
                numberLevels,
                fm_update window (fun l => (l + of_TTime 1)%D) (of_TTime 0)
                          numberSlopes)
          else (levels, slopes, numberLevels, numberSlopes))
          (m_Components s) ([], [], [], []) in
      let commonLevel :=
        minmax_signMargin
          (fold_left (fun acc level => minmax_add level.2 acc) levels minmax_new) in
      let '(components, trend) :=
        if negb (commonLevel =? of_TTime 0)%D
        then (map (fun component =>
                     let window := canonicalWindow component in
                     sc_shiftLevel
                       ((fm_get window levels - commonLevel)
                        / fm_get window numberLevels
                        - sc_meanValue component)%D component)
                  (m_Components s),
              trend_shiftLevel commonLevel (m_Trend c))
        else (m_Components s, m_Trend c) in
      let commonSlope :=
        minmax_signMargin
          (fold_left (fun acc slope => minmax_add slope.2 acc) slopes minmax_new) in
      let '(components, trend) :=
        if negb (commonSlope =? of_TTime 0)%D
        then (map (fun component =>
                     if sc_slopeAccurate component time
                     then
                       let window := canonicalWindow component in
                       sc_shiftSlope time
                         ((fm_get window slopes - commonSlope)
                          / fm_get window numberSlopes
                          - sc_slope component)%D component
                     else component)
                  components,
              trend_shiftSlope time commonSlope trend)
        else (components, trend) in
      set_Trend trend
        (set_Seasonal
           (Some {| m_Components := components;
                    m_PredictionErrors := m_PredictionErrors s |}) c)
  end.

(** [interpolate] (source lines 2275-2313) and [apply] (source lines
    2216-2248) call each other.  [interpolate_with] is [interpolate] with the
    calls of [apply] left open; [apply_fuel] closes the recursion, counting
    the nested calls of [apply].  Three nested calls are the most the
    transition function allows ([apply_fuel_enough] below), so [apply] and
    [interpolate] below are total. *)
Definition interpolate_with
    (apply : SC_Symbol -> SMessage -> CComponents -> option CComponents)
    (message : SMessage) (c : CComponents) : option CComponents :=
  let time := s_Time message in
  match m_Machine c with
  | SC_NORMAL | SC_NEW_COMPONENTS =>
      let c := canonicalize time c in
      if shouldInterpolate time c then
        let c :=
          match m_Seasonal c with
          | Some s =>
              let '(s, removed) := CSeasonal_removeComponentsWithBadValues time s in
              let c := if removed then emit (ComponentChange []) c else c in
              set_Seasonal (Some (CSeasonal_interpolate time true s)) c
          | None => c
          end in
        let c :=
          match m_Calendar c with
          | Some k =>
              let '(k, removed) := CCalendar_removeComponentsWithBadValues time k in
              let c := if removed then emit (ComponentChange []) c else c in
              set_Calendar (Some (CCalendar_interpolate time true k)) c
          | None => c
          end in
        apply SC_INTERPOLATED message c
      else Some c
  | SC_DISABLED => Some c
  | SC_ERROR => apply SC_RESET message c
  end.

(** [m_Trend.clear(); m_Seasonal.reset(); m_Calendar.reset();] *)
Definition clearComponents (c : CComponents) : CComponents :=
  set_Calendar None (set_Seasonal None (set_Trend (trend_clear (m_Trend c)) c)).

Fixpoint apply_fuel (fuel : nat) (symbol : SC_Symbol) (message : SMessage)
    (c : CComponents) : option CComponents :=
  match fuel with
  | O => None
  | S fuel =>
      let c := match symbol with SC_RESET => clearComponents c | _ => c end in
      let old := m_Machine c in
      let c := set_Machine (SC_TRANSITION_FUNCTION symbol old) c in
      let state := m_Machine c in
      if negb (SC_State_eqb state old) then
        match state with
        | SC_NORMAL | SC_NEW_COMPONENTS =>
            interpolate_with (apply_fuel fuel) message c
        | SC_DISABLED => Some (clearComponents c)
        | SC_ERROR => apply_fuel fuel SC_RESET message c
        end
      else Some c
  end.

Definition apply (symbol : SC_Symbol) (message : SMessage) (c : CComponents)
    : CComponents :=
  default c (apply_fuel 4 symbol message c).

Definition interpolate (message : SMessage) (c : CComponents) : CComponents :=
  default c (interpolate_with (apply_fuel 4) message c).

(** [addSeasonalComponents] (source lines 2097-2175).  [handle] makes
    [m_Seasonal] non-null before it calls; on a null pointer, where the source
    would fault, the store is returned as it is. *)
Definition addSeasonalComponents (components : CSeasonalDecomposition D)
    (allocationsAllowed : bool) (c : CComponents) : CComponents :=
  match m_Seasonal c with
  | None => c
  | Some s =>
      if negb allocationsAllowed
         && (0 <? CSeasonal_estimateSizeChange components (m_DecayRate c)
                    (of_TTime (m_BucketLength c)) s)
      then c
      else
        let '(s, removed) := CSeasonal_remove (seasonalToRemoveMask components) s in
        if negb removed then c
        else
          let c := set_Seasonal (Some s) c in
          let c :=
            match seasonal components with
            | [] => emit (ModelAnnotation "removed all seasonality") c
            | _ => c
            end in
          let '(s, c) :=
            fold_left (fun '(s, c) component =>
              (CSeasonal_add
                 (createSeasonalComponent component (m_DecayRate c)
                    (of_TTime (m_BucketLength c))) s,
               emit (ModelAnnotation (annotationText component)) c))
              (seasonal components) (s, c) in
          let s := CSeasonal_refreshForNewComponents s in
          let c := set_Seasonal (Some s) c in
          let c := clearComponentErrors c in
          let startTime := initialValuesStartTime components in
          let endTime := initialValuesEndTime components in
          let dt := trendBucketLength components in
          let initialValues := initialValues components in
          (* Reinitialize the gain controller. *)
          let g := CGainController_clear (m_GainController c) in
          let g :=
            for_loop 0 (loop_count startTime endTime (m_BucketLength c))
              (fun i g =>
                 let time := startTime + Z.of_nat i * m_BucketLength c in
                 let predictions : list D := [] in
                 let predictions :=
                   match m_Seasonal c with
                   | Some s => CSeasonal_appendPredictions time predictions s
                   | None => predictions
                   end in
                 let predictions :=
                   match m_Calendar c with
                   | Some k => CCalendar_appendPredictions time predictions k
                   | None => predictions
                   end in
                 CGainController_age
                   (ageFactor (m_DecayRate c) (m_BucketLength c) DAY)
                   (CGainController_seed predictions g)) g in
          let c := set_GainController g c in
          (* Fit a trend model. *)
          let newTrend := trend_new (trend_defaultDecayRate (m_Trend c)) in
          let newTrend := fitTrend startTime dt initialValues newTrend in
          let c := set_Trend newTrend c in
          let c := set_UsingTrendForPrediction true c in
          (* Pass the residuals to the component changed callback. *)
          let initialValues :=
            imap (fun i value =>
                    if (mean_count value >? of_TTime 0)%D
                    then mean_set_moment0
                           (mean_mean value
                            - trend_value_mean (m_Trend c)
                                (startTime + Z.of_nat i * dt)%Z)%D value
                    else value) initialValues in
          let initialValues :=
            addMeanZeroNormalNoise (withinBucketVariance components) initialValues in
          emit (ComponentChange initialValues) c
  end.

(** [addCalendarComponent] (source lines 2177-2190). *)
Definition addCalendarComponent (feature : CCalendarFeature)
    (allocationsAllowed : bool) (timeZoneOffset : TTime) (c : CComponents)
    : CComponents :=
  if negb allocationsAllowed then c
  else
    let bucketLength := of_TTime (m_BucketLength c) in
    match m_Calendar c with
    | None => c
    | Some k =>
        let c :=
          set_Calendar
            (Some (CCalendar_add feature timeZoneOffset
                     (m_CalendarComponentSize c) (m_DecayRate c) bucketLength k)) c in
        emit (ModelAnnotation
                (String.append "Detected calendar feature: " (feature_print feature))) c
    end.

(** [handle(const SDetectedSeasonal&)] (source lines 1842-1869). *)
Definition handle_SDetectedSeasonal (message : SMessage)
    (components : CSeasonalDecomposition D) (c : CComponents) : CComponents :=
  if (maxSize c <? size c + m_SeasonalComponentSize c)%nat then c
  else
    match m_Machine c with
    | SC_NORMAL | SC_NEW_COMPONENTS =>
        let c :=
          match m_Seasonal c with
          | None => set_Seasonal (Some CSeasonal_new) c
          | Some _ => c
          end in
        let c := addSeasonalComponents components (s_AllocationsAllowed message) c in
        apply SC_ADDED_COMPONENTS message c
    | SC_DISABLED => c
    | SC_ERROR => apply SC_RESET message c
    end.

(** [handle(const SDetectedCalendar&)] (source lines 1871-1903). *)
Definition handle_SDetectedCalendar (message : SMessage)
    (feature : CCalendarFeature) (timeZoneOffset : TTime) (c : CComponents)
    : CComponents :=
  if (maxSize c <? size c + m_CalendarComponentSize c)%nat then c
  else
    match m_Machine c with
    | SC_NORMAL | SC_NEW_COMPONENTS =>
        let c :=
          match m_Calendar c with
          | None => set_Calendar (Some CCalendar_new) c
          | Some _ => c
          end in
        if match m_Calendar c with
           | Some k => CCalendar_haveComponent feature k
           | None => false
           end
        then c
        else
          let c :=
            addCalendarComponent feature (s_AllocationsAllowed message)
                                 timeZoneOffset c in
          apply SC_ADDED_COMPONENTS message c
    | SC_DISABLED => c
    | SC_ERROR => apply SC_RESET message c
    end.

(** [handle(const SAddValue&)], source lines 1753-1785: the decomposition of
    the value among the trend and the components which are active at the
    time of the message.  It runs on the store [interpolate] has left. *)
Definition handle_SAddValue_decompose (message : SAddValue D) (c : CComponents)
    : SDecomposition :=
  let time := s_Time (s_Message message) in
  let value := s_Value message in
  let trend := s_Trend message in
  let '(seasonalComponents, seasonalErrors, deltas) :=
    match m_Seasonal c with
    | Some s => CSeasonal_componentsErrorsAndDeltas time s
    | None => ([], [], [])
    end in
  let '(calendarComponents, calendarErrors) :=
    match m_Calendar c with
    | Some k => CCalendar_componentsAndErrors time k
    | None => ([], [])
    end in
  let m := length seasonalComponents in
  let n := length calendarComponents in
  let values := replicate (m + n + 1) value in
  let predictions := replicate (m + n) (of_TTime 0) in
  decompose trend seasonalComponents calendarComponents time deltas
            (gain (m_GainController c)) values predictions.

End Components.

Arguments CComponents D {_ _}.
Arguments COutput D {_}.

(** ** [CChangePointTest] (source lines 499-962) *)

(** The state machine of the change detector (source lines 239-251). *)
Inductive CD_State : Type :=
  | CD_TEST
  | CD_NOT_TESTING
  | CD_ERROR.

Inductive CD_Symbol : Type :=
  | CD_DISABLE
  | CD_RESET.

Definition CD_TRANSITION_FUNCTION (symbol : CD_Symbol) (state : CD_State)
    : CD_State :=
  match symbol, state with
  | CD_DISABLE, CD_TEST => CD_NOT_TESTING
  | CD_DISABLE, CD_NOT_TESTING => CD_NOT_TESTING
  | CD_DISABLE, CD_ERROR => CD_ERROR
  | CD_RESET, CD_TEST => CD_TEST
  | CD_RESET, CD_NOT_TESTING => CD_NOT_TESTING
  | CD_RESET, CD_ERROR => CD_TEST
  end.

Definition CD_State_eqb (a b : CD_State) : bool :=
  match a, b with
  | CD_TEST, CD_TEST | CD_NOT_TESTING, CD_NOT_TESTING | CD_ERROR, CD_ERROR => true
  | _, _ => false
  end.

(** What [CTimeSeriesDecompositionDetail.h], [CTimeSeriesTestForChange.h] and
    [CChangePoint] declare and the source uses: the two constants of the
    class, the test for a change with the arguments the source constructs it
    from, and the member functions of a change.  None of them is part of the
    source; the specification gives [CHANGE_COUNT_WEIGHT] as about [0.1]. *)
Class CChangePointTypes (D : Type) `{CBasicStatistics D} : Type := {
  MINIMUM_WINDOW_BUCKET_LENGTH : TTime;
  CHANGE_COUNT_WEIGHT : D;
  OUTLIER_FRACTION : D;
  CChangePoint : Type;
  (** [CTimeSeriesTestForChange(testFor, valuesStartTime, bucketsStartTime,
      windowBucketLength, bucketLength, predictor, values, 0.0,
      outlierFraction).test()]; [testFor] is [E_All] when [true] and
      [E_LevelShift] when [false]; a null pointer is [None]. *)
  testForChange_test :
    bool -> TTime -> TTime -> TTime -> TTime -> (TTime -> D)
    -> list TMeanAccumulator -> D -> option CChangePoint;
  cp_largeEnough : CChangePoint -> D -> bool;
  cp_longEnough : CChangePoint -> TTime -> TTime -> bool;
  cp_time : CChangePoint -> TTime;
  cp_undoable : CChangePoint -> option CChangePoint;
  (** [add(time, lastTime, value, weight, predictor)] *)
  cp_add : TTime -> TTime -> D -> D -> (TTime -> D) -> CChangePoint -> CChangePoint;
  cp_shouldUndo : CChangePoint -> bool;
  (** [residuals()] after [addMeanZeroNormalNoise(variance, residuals())] *)
  cp_addNoise : D -> CChangePoint -> CChangePoint;
  TOutlierWeightDerate : Type;
  derate_new : TOutlierWeightDerate;
  derate_value : TOutlierWeightDerate -> D -> D;
  cp_outlierWeightDerate :
    CChangePoint -> TTime -> TTime -> (TTime -> D) -> TOutlierWeightDerate;
}.

Section ChangePointTest.
Context {D : Type} `{DoubleMath D} `{CBasicStatistics D} `{!CChangePointTypes D}.

(** What the test does to the outside: it applies a change to the
    decomposition the message points to, and forwards [SDetectedChangePoint]
    to the mediator. *)
Inductive CDOutput : Type :=
  | ApplyChange (change : CChangePoint)
  | ForwardDetectedChangePoint (time lastTime : TTime) (change : CChangePoint).

Record CChangePointTest : Type := {
  cd_Machine : CD_State;
  cd_DecayRate : D;
  cd_BucketLength : TTime;
  (** A [boost::circular_buffer] which is always full. *)
  m_Window : list TMeanAccumulator;
  m_MeanOffset : TMeanAccumulator;
  m_ResidualMoments : TMeanVarAccumulator;
  m_LargeErrorFraction : D;
  m_TotalCountWeightAdjustment : D;
  m_MinimumTotalCountWeightAdjustment : D;
  m_LastTestTime : TTime;
  m_LastChangePointTime : TTime;
  m_LastCandidateChangePointTime : TTime;
  m_UndoableLastChange : option CChangePoint;
  m_LastChangeOutlierWeightDerate : TOutlierWeightDerate;
  cd_Output : list CDOutput;
}.

Definition windowBucketLength (t : CChangePointTest) : TTime :=
  Z.max MINIMUM_WINDOW_BUCKET_LENGTH (cd_BucketLength t).

Definition windowSize (t : CChangePointTest) : nat :=
  Nat.max (Z.to_nat (Z.quot (4 * DAY) (windowBucketLength t))) 32.

(** [std::numeric_limits<core_t::TTime>::min() / 2] *)
Definition TTime_min_half : TTime := - 2 ^ 62.

(** The constructor (source lines 501-509).  The members which its
    initialiser list leaves out take the values of their declarations in the
    header: the default constructed accumulators, and zero, which is also
    what [reset] gives these members. *)
Definition CChangePointTest_new (decayRate : D) (bucketLength : TTime)
    : CChangePointTest :=
  let t :=
    {| cd_Machine := CD_TEST; cd_DecayRate := decayRate;
       cd_BucketLength := bucketLength; m_Window := [];
       m_MeanOffset := mean_new; m_ResidualMoments := meanvar_new;
       m_LargeErrorFraction := of_TTime 0;
       m_TotalCountWeightAdjustment := of_TTime 0;
       m_MinimumTotalCountWeightAdjustment := of_TTime 0;
       m_LastTestTime := TTime_min_half;
       m_LastChangePointTime := TTime_min_half;
       m_LastCandidateChangePointTime := TTime_min_half;
       m_UndoableLastChange := None;
       m_LastChangeOutlierWeightDerate := derate_new;
       cd_Output := [] |} in
  {| cd_Machine := cd_Machine t; cd_DecayRate := cd_DecayRate t;
     cd_BucketLength := cd_BucketLength t;
     m_Window := replicate (windowSize t) mean_new;
     m_MeanOffset := m_MeanOffset t; m_ResidualMoments := m_ResidualMoments t;
     m_LargeErrorFraction := m_LargeErrorFraction t;
     m_TotalCountWeightAdjustment := m_TotalCountWeightAdjustment t;
     m_MinimumTotalCountWeightAdjustment := m_MinimumTotalCountWeightAdjustment t;
     m_LastTestTime := m_LastTestTime t;
     m_LastChangePointTime := m_LastChangePointTime t;
     m_LastCandidateChangePointTime := m_LastCandidateChangePointTime t;
     m_UndoableLastChange := m_UndoableLastChange t;
     m_LastChangeOutlierWeightDerate := m_LastChangeOutlierWeightDerate t;
     cd_Output := cd_Output t |}.

Definition startOfWindowBucket (time : TTime) (t : CChangePointTest) : TTime :=
  ifloor time (windowBucketLength t).

Definition windowLength (t : CChangePointTest) : TTime :=
  Z.of_nat (length (m_Window t)) * windowBucketLength t.

(** [minimumChangeLength] (source lines 908-921). *)
Definition minimumChangeLength (occupancy : D) (t : CChangePointTest) : TTime :=
  let length := Z.max (30 * HOUR) (5 * windowBucketLength t) in
  let length :=
    to_TTime (dmin (of_TTime 1 / occupancy) (of_TTime 2) * of_TTime length
              + lit 1 2)%D in
  iceil length (windowBucketLength t).

(** [maximumIntervalToDetectChange] (source lines 923-926); the division is
    the one of integers. *)
Definition maximumIntervalToDetectChange (occupancy : D) (t : CChangePointTest)
    : TTime :=
  Z.quot (5 * minimumChangeLength occupancy t) 3.

(** [shouldTest] (source lines 899-906). *)
Definition shouldTest (time : TTime) (occupancy : D) (t : CChangePointTest)
    : bool :=
  match m_UndoableLastChange t with None => true | Some _ => false end
  && ((m_LastTestTime t + minimumChangeLength occupancy t <? time)
      || ((m_LastTestTime t + 3 * windowBucketLength t <? time)
          && (time <? m_LastCandidateChangePointTime t
                      + maximumIntervalToDetectChange occupancy t)
          && (m_LastCandidateChangePointTime t
              + minimumChangeLength occupancy t <? time))).

(** [countWeight] (source lines 660-670). *)
Definition countWeight (time : TTime) (t : CChangePointTest) : D :=
  if (m_TotalCountWeightAdjustment t >? m_MinimumTotalCountWeightAdjustment t)%D
     && (m_LargeErrorFraction t >? lit 1 4)%D
  then CHANGE_COUNT_WEIGHT
  else (of_TTime 1 + dmin (of_TTime 1) (- m_TotalCountWeightAdjustment t))%D.

Definition outlierWeightDerate (time : TTime) (error : D) (t : CChangePointTest)
    : D :=
  (dmax (of_TTime 1 - of_TTime (time - m_LastChangePointTime t)
                      / of_TTime (3 * DAY)) (of_TTime 0)
   * derate_value (m_LastChangeOutlierWeightDerate t) error)%D.

Definition mayHaveChanged (t : CChangePointTest) : bool :=
  (m_LargeErrorFraction t >? lit 1 2)%D.

Definition largeError (t : CChangePointTest) : D :=
  (of_TTime 3 * dsqrt (meanvar_variance (m_ResidualMoments t)))%D.

Definition bucketsStartTime (time bucketsLength : TTime) (t : CChangePointTest)
    : TTime :=
  startOfWindowBucket time t - (bucketsLength - 1) * windowBucketLength t.

Definition valuesStartTime (bucketsStartTime : TTime) (t : CChangePointTest)
    : TTime :=
  let bucketEndTime := bucketsStartTime + windowBucketLength t - 1 in
  let firstSampleInBucket := iceil bucketsStartTime (cd_BucketLength t) in
  let lastSampleInBucket := ifloor bucketEndTime (cd_BucketLength t) in
  firstSampleInBucket + Z.quot (lastSampleInBucket - firstSampleInBucket) 2
  + to_TTime (mean_mean (m_MeanOffset t) + lit 1 2)%D.

End ChangePointTest.

Arguments CChangePointTest D {_ _}.
Arguments CDOutput D {_ _}.

Section ChangePointTestUpdate.
Context {D : Type} `{DoubleMath D} `{CBasicStatistics D} `{!CChangePointTypes D}.

(** Assignments to one member. *)
Definition set_cd_Machine (x : CD_State) (t : CChangePointTest D)
    : CChangePointTest D :=
  {| cd_Machine := x; cd_DecayRate := cd_DecayRate t;
     cd_BucketLength := cd_BucketLength t; m_Window := m_Window t;
     m_MeanOffset := m_MeanOffset t;
     m_ResidualMoments := m_ResidualMoments t;
     m_LargeErrorFraction := m_LargeErrorFraction t;
     m_TotalCountWeightAdjustment := m_TotalCountWeightAdjustment t;
     m_MinimumTotalCountWeightAdjustment := m_MinimumTotalCountWeightAdjustment t;
     m_LastTestTime := m_LastTestTime t;
     m_LastChangePointTime := m_LastChangePointTime t;
     m_LastCandidateChangePointTime := m_LastCandidateChangePointTime t;
     m_UndoableLastChange := m_UndoableLastChange t;
     m_LastChangeOutlierWeightDerate := m_LastChangeOutlierWeightDerate t;
     cd_Output := cd_Output t |}.

Definition set_m_Window (x : list TMeanAccumulator) (t : CChangePointTest D)
    : CChangePointTest D :=
  {| cd_Machine := cd_Machine t; cd_DecayRate := cd_DecayRate t;
     cd_BucketLength := cd_BucketLength t; m_Window := x;
     m_MeanOffset := m_MeanOffset t;
     m_ResidualMoments := m_ResidualMoments t;
     m_LargeErrorFraction := m_LargeErrorFraction t;
     m_TotalCountWeightAdjustment := m_TotalCountWeightAdjustment t;
     m_MinimumTotalCountWeightAdjustment := m_MinimumTotalCountWeightAdjustment t;
     m_LastTestTime := m_LastTestTime t;
     m_LastChangePointTime := m_LastChangePointTime t;
     m_LastCandidateChangePointTime := m_LastCandidateChangePointTime t;
     m_UndoableLastChange := m_UndoableLastChange t;
     m_LastChangeOutlierWeightDerate := m_LastChangeOutlierWeightDerate t;
     cd_Output := cd_Output t |}.

Definition set_m_MeanOffset (x : TMeanAccumulator) (t : CChangePointTest D)
    : CChangePointTest D :=
  {| cd_Machine := cd_Machine t; cd_DecayRate := cd_DecayRate t;
     cd_BucketLength := cd_BucketLength t; m_Window := m_Window t;
     m_MeanOffset := x; m_ResidualMoments := m_ResidualMoments t;
     m_LargeErrorFraction := m_LargeErrorFraction t;
     m_TotalCountWeightAdjustment := m_TotalCountWeightAdjustment t;
     m_MinimumTotalCountWeightAdjustment := m_MinimumTotalCountWeightAdjustment t;
     m_LastTestTime := m_LastTestTime t;
     m_LastChangePointTime := m_LastChangePointTime t;
     m_LastCandidateChangePointTime := m_LastCandidateChangePointTime t;
     m_UndoableLastChange := m_UndoableLastChange t;
     m_LastChangeOutlierWeightDerate := m_LastChangeOutlierWeightDerate t;
     cd_Output := cd_Output t |}.

Definition set_m_ResidualMoments (x : TMeanVarAccumulator) (t : CChangePointTest D)
    : CChangePointTest D :=
  {| cd_Machine := cd_Machine t; cd_DecayRate := cd_DecayRate t;
     cd_BucketLength := cd_BucketLength t; m_Window := m_Window t;
     m_MeanOffset := m_MeanOffset t; m_ResidualMoments := x;
     m_LargeErrorFraction := m_LargeErrorFraction t;
     m_TotalCountWeightAdjustment := m_TotalCountWeightAdjustment t;
     m_MinimumTotalCountWeightAdjustment := m_MinimumTotalCountWeightAdjustment t;
     m_LastTestTime := m_LastTestTime t;
     m_LastChangePointTime := m_LastChangePointTime t;
     m_LastCandidateChangePointTime := m_LastCandidateChangePointTime t;
     m_UndoableLastChange := m_UndoableLastChange t;
     m_LastChangeOutlierWeightDerate := m_LastChangeOutlierWeightDerate t;
     cd_Output := cd_Output t |}.

Definition set_m_LargeErrorFraction (x : D) (t : CChangePointTest D)
    : CChangePointTest D :=
  {| cd_Machine := cd_Machine t; cd_DecayRate := cd_DecayRate t;
     cd_BucketLength := cd_BucketLength t; m_Window := m_Window t;
     m_MeanOffset := m_MeanOffset t;
     m_ResidualMoments := m_ResidualMoments t; m_LargeErrorFraction := x;
     m_TotalCountWeightAdjustment := m_TotalCountWeightAdjustment t;
     m_MinimumTotalCountWeightAdjustment := m_MinimumTotalCountWeightAdjustment t;
     m_LastTestTime := m_LastTestTime t;
     m_LastChangePointTime := m_LastChangePointTime t;
     m_LastCandidateChangePointTime := m_LastCandidateChangePointTime t;
     m_UndoableLastChange := m_UndoableLastChange t;
     m_LastChangeOutlierWeightDerate := m_LastChangeOutlierWeightDerate t;
     cd_Output := cd_Output t |}.

Definition set_m_TotalCountWeightAdjustment (x : D) (t : CChangePointTest D)
    : CChangePointTest D :=
  {| cd_Machine := cd_Machine t; cd_DecayRate := cd_DecayRate t;
     cd_BucketLength := cd_BucketLength t; m_Window := m_Window t;
     m_MeanOffset := m_MeanOffset t;
     m_ResidualMoments := m_ResidualMoments t;
     m_LargeErrorFraction := m_LargeErrorFraction t;
     m_TotalCountWeightAdjustment := x;
     m_MinimumTotalCountWeightAdjustment := m_MinimumTotalCountWeightAdjustment t;
     m_LastTestTime := m_LastTestTime t;
     m_LastChangePointTime := m_LastChangePointTime t;
     m_LastCandidateChangePointTime := m_LastCandidateChangePointTime t;
     m_UndoableLastChange := m_UndoableLastChange t;
     m_LastChangeOutlierWeightDerate := m_LastChangeOutlierWeightDerate t;
     cd_Output := cd_Output t |}.

Definition set_m_MinimumTotalCountWeightAdjustment (x : D) (t : CChangePointTest D)
    : CChangePointTest D :=
  {| cd_Machine := cd_Machine t; cd_DecayRate := cd_DecayRate t;
     cd_BucketLength := cd_BucketLength t; m_Window := m_Window t;
     m_MeanOffset := m_MeanOffset t;
     m_ResidualMoments := m_ResidualMoments t;
     m_LargeErrorFraction := m_LargeErrorFraction t;
     m_TotalCountWeightAdjustment := m_TotalCountWeightAdjustment t;
     m_MinimumTotalCountWeightAdjustment := x;
     m_LastTestTime := m_LastTestTime t;
     m_LastChangePointTime := m_LastChangePointTime t;
     m_LastCandidateChangePointTime := m_LastCandidateChangePointTime t;
     m_UndoableLastChange := m_UndoableLastChange t;
     m_LastChangeOutlierWeightDerate := m_LastChangeOutlierWeightDerate t;
     cd_Output := cd_Output t |}.

Definition set_m_LastTestTime (x : TTime) (t : CChangePointTest D)
    : CChangePointTest D :=
  {| cd_Machine := cd_Machine t; cd_DecayRate := cd_DecayRate t;
     cd_BucketLength := cd_BucketLength t; m_Window := m_Window t;
     m_MeanOffset := m_MeanOffset t;
     m_ResidualMoments := m_ResidualMoments t;
     m_LargeErrorFraction := m_LargeErrorFraction t;
     m_TotalCountWeightAdjustment := m_TotalCountWeightAdjustment t;
     m_MinimumTotalCountWeightAdjustment := m_MinimumTotalCountWeightAdjustment t;
     m_LastTestTime := x; m_LastChangePointTime := m_LastChangePointTime t;
     m_LastCandidateChangePointTime := m_LastCandidateChangePointTime t;
     m_UndoableLastChange := m_UndoableLastChange t;
     m_LastChangeOutlierWeightDerate := m_LastChangeOutlierWeightDerate t;
     cd_Output := cd_Output t |}.

Definition set_m_LastChangePointTime (x : TTime) (t : CChangePointTest D)
    : CChangePointTest D :=
  {| cd_Machine := cd_Machine t; cd_DecayRate := cd_DecayRate t;
     cd_BucketLength := cd_BucketLength t; m_Window := m_Window t;
     m_MeanOffset := m_MeanOffset t;
     m_ResidualMoments := m_ResidualMoments t;
     m_LargeErrorFraction := m_LargeErrorFraction t;
     m_TotalCountWeightAdjustment := m_TotalCountWeightAdjustment t;
     m_MinimumTotalCountWeightAdjustment := m_MinimumTotalCountWeightAdjustment t;
     m_LastTestTime := m_LastTestTime t; m_LastChangePointTime := x;
     m_LastCandidateChangePointTime := m_LastCandidateChangePointTime t;
     m_UndoableLastChange := m_UndoableLastChange t;
     m_LastChangeOutlierWeightDerate := m_LastChangeOutlierWeightDerate t;
     cd_Output := cd_Output t |}.

Definition set_m_LastCandidateChangePointTime (x : TTime) (t : CChangePointTest D)
    : CChangePointTest D :=
  {| cd_Machine := cd_Machine t; cd_DecayRate := cd_DecayRate t;
     cd_BucketLength := cd_BucketLength t; m_Window := m_Window t;
     m_MeanOffset := m_MeanOffset t;
     m_ResidualMoments := m_ResidualMoments t;
     m_LargeErrorFraction := m_LargeErrorFraction t;
     m_TotalCountWeightAdjustment := m_TotalCountWeightAdjustment t;
     m_MinimumTotalCountWeightAdjustment := m_MinimumTotalCountWeightAdjustment t;
     m_LastTestTime := m_LastTestTime t;
     m_LastChangePointTime := m_LastChangePointTime t;
     m_LastCandidateChangePointTime := x;
     m_UndoableLastChange := m_UndoableLastChange t;
     m_LastChangeOutlierWeightDerate := m_LastChangeOutlierWeightDerate t;
     cd_Output := cd_Output t |}.

Definition set_m_UndoableLastChange (x : option CChangePoint) (t : CChangePointTest D)
    : CChangePointTest D :=
  {| cd_Machine := cd_Machine t; cd_DecayRate := cd_DecayRate t;
     cd_BucketLength := cd_BucketLength t; m_Window := m_Window t;
     m_MeanOffset := m_MeanOffset t;
     m_ResidualMoments := m_ResidualMoments t;
     m_LargeErrorFraction := m_LargeErrorFraction t;
     m_TotalCountWeightAdjustment := m_TotalCountWeightAdjustment t;
     m_MinimumTotalCountWeightAdjustment := m_MinimumTotalCountWeightAdjustment t;
     m_LastTestTime := m_LastTestTime t;
     m_LastChangePointTime := m_LastChangePointTime t;
     m_LastCandidateChangePointTime := m_LastCandidateChangePointTime t;
     m_UndoableLastChange := x;
     m_LastChangeOutlierWeightDerate := m_LastChangeOutlierWeightDerate t;
     cd_Output := cd_Output t |}.

Definition set_m_LastChangeOutlierWeightDerate (x : TOutlierWeightDerate) (t : CChangePointTest D)
    : CChangePointTest D :=
  {| cd_Machine := cd_Machine t; cd_DecayRate := cd_DecayRate t;
     cd_BucketLength := cd_BucketLength t; m_Window := m_Window t;
     m_MeanOffset := m_MeanOffset t;
     m_ResidualMoments := m_ResidualMoments t;
     m_LargeErrorFraction := m_LargeErrorFraction t;
     m_TotalCountWeightAdjustment := m_TotalCountWeightAdjustment t;
     m_MinimumTotalCountWeightAdjustment := m_MinimumTotalCountWeightAdjustment t;
     m_LastTestTime := m_LastTestTime t;
     m_LastChangePointTime := m_LastChangePointTime t;
     m_LastCandidateChangePointTime := m_LastCandidateChangePointTime t;
     m_UndoableLastChange := m_UndoableLastChange t;
     m_LastChangeOutlierWeightDerate := x; cd_Output := cd_Output t |}.

Definition set_cd_Output (x : list (CDOutput D)) (t : CChangePointTest D)
    : CChangePointTest D :=
  {| cd_Machine := cd_Machine t; cd_DecayRate := cd_DecayRate t;
     cd_BucketLength := cd_BucketLength t; m_Window := m_Window t;
     m_MeanOffset := m_MeanOffset t;
     m_ResidualMoments := m_ResidualMoments t;
     m_LargeErrorFraction := m_LargeErrorFraction t;
     m_TotalCountWeightAdjustment := m_TotalCountWeightAdjustment t;
     m_MinimumTotalCountWeightAdjustment := m_MinimumTotalCountWeightAdjustment t;
     m_LastTestTime := m_LastTestTime t;
     m_LastChangePointTime := m_LastChangePointTime t;
     m_LastCandidateChangePointTime := m_LastCandidateChangePointTime t;
     m_UndoableLastChange := m_UndoableLastChange t;
     m_LastChangeOutlierWeightDerate := m_LastChangeOutlierWeightDerate t;
     cd_Output := x |}.
(** [reset] (source lines 649-658). *)
Definition CChangePointTest_reset (time : TTime) (t : CChangePointTest D)
    : CChangePointTest D :=
  let t := set_m_Window (replicate (length (m_Window t)) mean_new) t in
  let t := set_m_ResidualMoments meanvar_new t in
  let t := set_m_LargeErrorFraction (of_TTime 0) t in
  let t := set_m_TotalCountWeightAdjustment (of_TTime 0) t in
  let t := set_m_MinimumTotalCountWeightAdjustment (of_TTime 0) t in
  set_m_LastCandidateChangePointTime
    (time - 4 * maximumIntervalToDetectChange (of_TTime 1) t) t.

(** [handle(const SDetectedSeasonal&)] (source lines 645-647). *)
Definition CChangePointTest_handle_SDetectedSeasonal (message : SMessage)
    (t : CChangePointTest D) : CChangePointTest D :=
  CChangePointTest_reset (s_Time message) t.

(** [propagateForwards] (source lines 680-685). *)
Definition CChangePointTest_propagateForwards (start end_ : TTime)
    (t : CChangePointTest D) : CChangePointTest D :=
  stepwisePropagateForwards start end_ DAY
    (fun time t =>
       set_m_ResidualMoments
         (meanvar_age (dexp (- cd_DecayRate t * time / of_TTime 8)%D)
                      (m_ResidualMoments t)) t) t.

(** [apply] (source lines 716-743).  The call of itself in the [default]
    branch is counted by [fuel]; the transition function never leads there
    ([CChangePointTest_apply_fuel_enough] below). *)
Fixpoint CChangePointTest_apply_fuel (fuel : nat) (symbol : CD_Symbol)
    (t : CChangePointTest D) : option (CChangePointTest D) :=
  match fuel with
  | O => None
  | S fuel =>
      let old := cd_Machine t in
      let t := set_cd_Machine (CD_TRANSITION_FUNCTION symbol old) t in
      let state := cd_Machine t in
      if negb (CD_State_eqb state old) then
        match state with
        | CD_TEST =>
            Some (set_m_LargeErrorFraction (of_TTime 0)
                    (set_m_MeanOffset mean_new
                       (set_m_Window (replicate (windowSize t) mean_new) t)))
        | CD_NOT_TESTING =>
            Some (set_m_LargeErrorFraction (of_TTime 0)
                    (set_m_MeanOffset mean_new (set_m_Window [] t)))
        | CD_ERROR => CChangePointTest_apply_fuel fuel CD_RESET t
        end
      else Some t
  end.

Definition CChangePointTest_apply (symbol : CD_Symbol) (t : CChangePointTest D)
    : CChangePointTest D :=
  default t (CChangePointTest_apply_fuel 2 symbol t).

(** [updateTotalCountWeights] (source lines 745-762). *)
Definition updateTotalCountWeights (message : SAddValue D)
    (t : CChangePointTest D) : CChangePointTest D :=
  let lastTime := s_LastTime (s_Message message) in
  let time := s_Time (s_Message message) in
  let occupancy := s_Occupancy message in
  let t :=
    set_m_TotalCountWeightAdjustment
      (m_TotalCountWeightAdjustment t
       + of_TTime (time - lastTime) / of_TTime (cd_BucketLength t)
         * (countWeight time t - of_TTime 1))%D t in
  let t :=
    set_m_TotalCountWeightAdjustment
      (dmin (m_TotalCountWeightAdjustment t) (of_TTime 0)) t in
  let t :=
    if (m_TotalCountWeightAdjustment t =? of_TTime 0)%D
    then set_m_MinimumTotalCountWeightAdjustment
           ((CHANGE_COUNT_WEIGHT - of_TTime 1)
            * of_TTime (maximumIntervalToDetectChange occupancy t)
            / of_TTime (cd_BucketLength t))%D t
    else t in
  if (m_TotalCountWeightAdjustment t <? m_MinimumTotalCountWeightAdjustment t)%D
  then set_m_MinimumTotalCountWeightAdjustment (of_TTime 0) t
  else t.

(** [testForCandidateChange] (source lines 764-794). *)
Definition testForCandidateChange (message : SAddValue D)
    (t : CChangePointTest D) : CChangePointTest D :=
  let firstValueTime := s_FirstValueTime message in
  let time := s_Time (s_Message message) in
  if time <? firstValueTime + 3 * DAY then t
  else
    let occupancy := s_Occupancy message in
    let value := s_Value message in
    let prediction := (s_Trend message + s_Seasonal message + s_Calendar message)%D in
    let error := dfabs (value - prediction)%D in
    let beta :=
      (of_TTime (cd_BucketLength t)
       / (of_TTime 4 * of_TTime (windowBucketLength t)))%D in
    let alpha := (of_TTime 1 - beta)%D in
    let mayHaveChangedBefore := mayHaveChanged t in
    let t :=
      set_m_LargeErrorFraction
        (alpha * m_LargeErrorFraction t
         + beta * (if (error >? largeError t)%D then of_TTime 1 else of_TTime 0))%D
        t in
    if mayHaveChanged t && negb mayHaveChangedBefore
       && (m_LastCandidateChangePointTime t
           + 2 * maximumIntervalToDetectChange occupancy t <? time)
    then set_m_LastCandidateChangePointTime time t
    else t.

(** One more effect on the outside. *)
Definition cd_emit (o : CDOutput D) (t : CChangePointTest D)
    : CChangePointTest D :=
  set_cd_Output (cd_Output t ++ [o]) t.

(** [testUndoLastChange] (source lines 860-889).  [makePredictor] is the
    message's [s_MakePredictor]: the predictor of the decomposition after the
    changes applied to it so far. *)
Definition testUndoLastChange (message : SAddValue D)
    (makePredictor : list (CDOutput D) -> TTime -> D) (t : CChangePointTest D)
    : CChangePointTest D :=
  match m_UndoableLastChange t with
  | None => t
  | Some change =>
      let time := s_Time (s_Message message) in
      let timeShift := s_TimeShift message in
      let lastTime := s_LastTime (s_Message message) in
      let occupancy := s_Occupancy message in
      let value := s_Value message in
      let weight := s_Count message in
      let change :=
        cp_add (time - timeShift) (lastTime - timeShift) value weight
               (makePredictor (cd_Output t)) change in
      let t := set_m_UndoableLastChange (Some change) t in
      if (Z.quot (minimumChangeLength occupancy t) 10
          <? time - m_LastChangePointTime t)
         && cp_shouldUndo change
      then
        let t := cd_emit (ApplyChange change) t in
        let t := cd_emit (ForwardDetectedChangePoint time lastTime change) t in
        set_m_UndoableLastChange None t
      else if maximumIntervalToDetectChange occupancy t
              <? time - m_LastChangePointTime t
      then set_m_UndoableLastChange None t
      else t
  end.

(** The buckets of the window from the first one which holds a value on:
    [std::find_if] for a positive count, up to [m_Window.end()]. *)
Fixpoint populated_suffix (window : list TMeanAccumulator)
    : list TMeanAccumulator :=
  match window with
  | [] => []
  | bucket :: window' =>
      if (mean_count bucket >? of_TTime 0)%D then window
      else populated_suffix window'
  end.

(** [testForChange] (source lines 796-858); [seasonal] says whether the
    decomposition has a seasonal component. *)
Definition testForChange (message : SAddValue D) (seasonal : bool)
    (makePredictor : list (CDOutput D) -> TTime -> D) (t : CChangePointTest D)
    : CChangePointTest D :=
  let time := s_Time (s_Message message) in
  let occupancy := s_Occupancy message in
  if negb (shouldTest time occupancy t) then t
  else
    let lastTime := s_LastTime (s_Message message) in
    let timeShift := s_TimeShift message in
    let values := populated_suffix (m_Window t) in
    let length := Z.of_nat (length values) in
    if windowBucketLength t * length <=? minimumChangeLength occupancy t then t
    else
      let predictor := makePredictor (cd_Output t) in
      let bucketsStartTime := bucketsStartTime time length t in
      let valuesStartTime := valuesStartTime bucketsStartTime t in
      let change :=
        testForChange_test seasonal (valuesStartTime - timeShift)
          (bucketsStartTime - timeShift) (windowBucketLength t)
          (cd_BucketLength t) predictor values
          (OUTLIER_FRACTION * occupancy)%D in
      let t := set_m_LastTestTime time t in
      match change with
      | Some change =>
          if cp_largeEnough change (largeError t)
             && cp_longEnough change time (minimumChangeLength occupancy t)
          then
            let change :=
              cp_addNoise (meanvar_variance (m_ResidualMoments t)) change in
            let t := cd_emit (ApplyChange change) t in
            let t := set_m_LargeErrorFraction (of_TTime 0) t in
            let t := set_m_LastChangePointTime time t in
            let t :=
              set_m_LastCandidateChangePointTime
                (Z.min (m_LastCandidateChangePointTime t)
                       (time - maximumIntervalToDetectChange occupancy t)) t in
            let t := set_m_UndoableLastChange (cp_undoable change) t in
            let t :=
              set_m_LastChangeOutlierWeightDerate
                (cp_outlierWeightDerate change bucketsStartTime time predictor) t in
            cd_emit (ForwardDetectedChangePoint time lastTime change) t
          else set_m_LastCandidateChangePointTime (cp_time change) t
      | None => t
      end.

(** [push_back] on a full circular buffer drops the oldest bucket. *)
Definition window_push_back (x : TMeanAccumulator)
    (window : list TMeanAccumulator) : list TMeanAccumulator :=
  match window with
  | [] => []
  | _ :: window' => window' ++ [x]
  end.

(** [m_Window.back().add(value, weight)] *)
Definition window_add_back (value weight : D) (window : list TMeanAccumulator)
    : list TMeanAccumulator :=
  match window with
  | [] => []
  | _ => alter (mean_add value weight) (length window - 1)%nat window
  end.

(** [handle(const SAddValue&)] (source lines 609-643). *)
Definition CChangePointTest_handle_SAddValue (message : SAddValue D)
    (seasonal : bool) (makePredictor : list (CDOutput D) -> TTime -> D)
    (t : CChangePointTest D) : CChangePointTest D :=
  let lastTime := s_LastTime (s_Message message) in
  let time := s_Time (s_Message message) in
  let value := s_Value message in
  let prediction := (s_Trend message + s_Seasonal message + s_Calendar message)%D in
  let weight := s_Count message in
  let weightForResidualMoments := s_CountForUpdate message in
  (* a negative quotient is a huge [std::size_t], above the window's size *)
  let buckets :=
    Z.quot (startOfWindowBucket time t - startOfWindowBucket lastTime t)
           (windowBucketLength t) in
  let steps :=
    if buckets <? 0 then length (m_Window t)
    else Nat.min (Z.to_nat buckets) (length (m_Window t)) in
  match cd_Machine t with
  | CD_TEST =>
      let t :=
        set_m_Window
          (for_loop 0 steps (fun _ => window_push_back mean_new) (m_Window t)) t in
      let t := set_m_Window (window_add_back value weight (m_Window t)) t in
      let t :=
        set_m_MeanOffset
          (mean_add (of_TTime (Z.rem time (cd_BucketLength t))) weight
                    (m_MeanOffset t)) t in
      let t :=
        set_m_ResidualMoments
          (meanvar_add (value - prediction)%D weightForResidualMoments
                       (m_ResidualMoments t)) t in
      let t := updateTotalCountWeights message t in
      let t := testForCandidateChange message t in
      let t := testUndoLastChange message makePredictor t in
      testForChange message seasonal makePredictor t
  | CD_NOT_TESTING => t
  | CD_ERROR => CChangePointTest_apply CD_RESET t
  end.

End ChangePointTestUpdate.

(** ** [CCalendarTest] (source lines 1400-1626) *)

(** The state machine of the calendar test (source lines 268-282). *)
Inductive CC_State : Type :=
  | CC_INITIAL
  | CC_TEST
  | CC_NOT_TESTING
  | CC_ERROR.

Inductive CC_Symbol : Type :=
  | CC_NEW_VALUE
  | CC_RESET.

Definition CC_TRANSITION_FUNCTION (symbol : CC_Symbol) (state : CC_State)
    : CC_State :=
  match symbol, state with
  | CC_NEW_VALUE, CC_INITIAL => CC_TEST
  | CC_NEW_VALUE, CC_TEST => CC_TEST
  | CC_NEW_VALUE, CC_NOT_TESTING => CC_NOT_TESTING
  | CC_NEW_VALUE, CC_ERROR => CC_ERROR
  | CC_RESET, CC_INITIAL => CC_INITIAL
  | CC_RESET, CC_TEST => CC_INITIAL
  | CC_RESET, CC_NOT_TESTING => CC_NOT_TESTING
  | CC_RESET, CC_ERROR => CC_INITIAL
  end.

Definition CC_State_eqb (a b : CC_State) : bool :=
  match a, b with
  | CC_INITIAL, CC_INITIAL | CC_TEST, CC_TEST
  | CC_NOT_TESTING, CC_NOT_TESTING | CC_ERROR, CC_ERROR => true
  | _, _ => false
  end.

(** [CCalendarCyclicTest], the inner test, and the month of
    [core::CTimezone::instance().dateFields], by what the source calls. *)
Class CCalendarTestTypes (D : Type) `{CComponentTypes D} : Type := {
  CCalendarCyclicTest : Type;
  cct_new : TTime -> D -> CCalendarCyclicTest;
  (** [add(time, value, error, weight)] *)
  cct_add : TTime -> D -> D -> D -> CCalendarCyclicTest -> CCalendarCyclicTest;
  (** [test()]: the features found, each with its time zone offset. *)
  cct_test : CCalendarCyclicTest -> list (CCalendarFeature * TTime);
  cct_forgetErrorDistribution : CCalendarCyclicTest -> CCalendarCyclicTest;
  (** The [month] which [dateFields(time, ...)] fills in. *)
  dateFields_month : TTime -> Z;
}.

Section CalendarTest.
Context {D : Type} `{Double D} `{CComponentTypes D} `{!CCalendarTestTypes D}.

(** What the test does to the outside: it runs the inner test, and it
    forwards [SDetectedCalendar] to the mediator. *)
Inductive CCOutput : Type :=
  | RunInnerTest
  | ForwardDetectedCalendar (time lastTime : TTime)
      (feature : CCalendarFeature) (timeZoneOffset : TTime).

Record CCalendarTest : Type := {
  cc_Machine : CC_State;
  cc_DecayRate : D;
  cc_BucketLength : TTime;
  m_LastMonth : Z;
  m_Test : option CCalendarCyclicTest;
  cc_Output : list CCOutput;
}.

Definition set_cc_Machine (x : CC_State) (t : CCalendarTest) : CCalendarTest :=
  {| cc_Machine := x; cc_DecayRate := cc_DecayRate t;
     cc_BucketLength := cc_BucketLength t; m_LastMonth := m_LastMonth t;
     m_Test := m_Test t; cc_Output := cc_Output t |}.

Definition set_m_LastMonth (x : Z) (t : CCalendarTest) : CCalendarTest :=
  {| cc_Machine := cc_Machine t; cc_DecayRate := cc_DecayRate t;
     cc_BucketLength := cc_BucketLength t; m_LastMonth := x;
     m_Test := m_Test t; cc_Output := cc_Output t |}.

Definition set_m_Test (x : option CCalendarCyclicTest) (t : CCalendarTest)
    : CCalendarTest :=
  {| cc_Machine := cc_Machine t; cc_DecayRate := cc_DecayRate t;
     cc_BucketLength := cc_BucketLength t; m_LastMonth := m_LastMonth t;
     m_Test := x; cc_Output := cc_Output t |}.

Definition cc_emit (o : list CCOutput) (t : CCalendarTest) : CCalendarTest :=
  {| cc_Machine := cc_Machine t; cc_DecayRate := cc_DecayRate t;
     cc_BucketLength := cc_BucketLength t; m_LastMonth := m_LastMonth t;
     m_Test := m_Test t; cc_Output := cc_Output t ++ o |}.

(** The constructor (source lines 1408-1415): [m_LastMonth] is [int{}] and
    [m_Test] is null. *)
Definition CCalendarTest_new (decayRate : D) (bucketLength : TTime)
    : CCalendarTest :=
  {| cc_Machine := if DAY <? bucketLength then CC_NOT_TESTING else CC_INITIAL;
     cc_DecayRate := decayRate;
     cc_BucketLength := bucketLength; m_LastMonth := 0; m_Test := None;
     cc_Output := [] |}.

(** [month] (source lines 1621-1626). *)
Definition month (time : TTime) : Z := dateFields_month time.

(** [shouldTest] (source lines 1612-1619): the answer and the test with
    [m_LastMonth] updated.  [%] of C++ is [Z.rem]. *)
Definition CCalendarTest_shouldTest (time : TTime) (t : CCalendarTest)
    : bool * CCalendarTest :=
  let month := month time in
  if month =? Z.rem (m_LastMonth t + 1) 12
  then (true, set_m_LastMonth month t)
  else (false, t).

(** [apply] (source lines 1580-1610), with the call of itself in the
    [default] branch counted by [fuel]. *)
Fixpoint CCalendarTest_apply_fuel (fuel : nat) (symbol : CC_Symbol)
    (message : SMessage) (t : CCalendarTest) : option CCalendarTest :=
  match fuel with
  | O => None
  | S fuel =>
      let time := s_Time message in
      let old := cc_Machine t in
      let t := set_cc_Machine (CC_TRANSITION_FUNCTION symbol old) t in
      let state := cc_Machine t in
      if negb (CC_State_eqb state old) then
        match state with
        | CC_TEST =>
            match m_Test t with
            | None =>
                Some (set_m_LastMonth (month time + 2)
                        (set_m_Test
                           (Some (cct_new (cc_BucketLength t) (cc_DecayRate t))) t))
            | Some _ => Some t
            end
        | CC_NOT_TESTING | CC_INITIAL =>
            Some (set_m_LastMonth 0 (set_m_Test None t))
        | CC_ERROR => CCalendarTest_apply_fuel fuel CC_RESET message t
        end
      else Some t
  end.

Definition CCalendarTest_apply (symbol : CC_Symbol) (message : SMessage)
    (t : CCalendarTest) : CCalendarTest :=
  default t (CCalendarTest_apply_fuel 2 symbol message t).

(** [test] (source lines 1513-1537). *)
Definition CCalendarTest_test (message : SMessage) (t : CCalendarTest)
    : CCalendarTest :=
  let time := s_Time message in
  let lastTime := s_LastTime message in
  let '(should, t) := CCalendarTest_shouldTest time t in
  if should then
    match cc_Machine t with
    | CC_TEST =>
        match m_Test t with
        | Some test =>
            let result := cct_test test in
            cc_emit
              (RunInnerTest
               :: map (fun component =>
                         ForwardDetectedCalendar time lastTime component.1 component.2)
                      result) t
        | None => t
        end
    | CC_NOT_TESTING | CC_INITIAL => t
    | CC_ERROR => CCalendarTest_apply CC_RESET message t
    end
  else t.

(** [handle(const SAddValue&)] (source lines 1467-1496).  In [CC_INITIAL] the
    function calls itself once the machine has moved on; [fuel] counts these
    calls, and two are enough ([CCalendarTest_handle_fuel_enough] below). *)
Fixpoint CCalendarTest_handle_fuel (fuel : nat) (message : SAddValue D)
    (t : CCalendarTest) : option CCalendarTest :=
  match fuel with
  | O => None
  | S fuel =>
      let time := s_Time (s_Message message) in
      let value := s_Value message in
      let error :=
        (s_Value message - s_Trend message - s_Seasonal message
         - s_Calendar message)%D in
      let t := CCalendarTest_test (s_Message message) t in
      match cc_Machine t with
      | CC_TEST =>
          if negb (s_AllocationsAllowed (s_Message message)) then Some t
          else
            Some (set_m_Test
                    (cct_add time value error (s_CountForUpdate message)
                     <$> m_Test t) t)
      | CC_NOT_TESTING => Some t
      | CC_INITIAL =>
          let t := CCalendarTest_apply CC_NEW_VALUE (s_Message message) t in
          CCalendarTest_handle_fuel fuel message t
      | CC_ERROR => Some (CCalendarTest_apply CC_RESET (s_Message message) t)
      end
  end.

Definition CCalendarTest_handle_SAddValue (message : SAddValue D)
    (t : CCalendarTest) : CCalendarTest :=
  default t (CCalendarTest_handle_fuel 2 message t).

(** [handle(const SDetectedSeasonal&)] (source lines 1498-1511). *)
Definition CCalendarTest_handle_SDetectedSeasonal (message : SMessage)
    (t : CCalendarTest) : CCalendarTest :=
  match cc_Machine t with
  | CC_TEST => set_m_Test (cct_forgetErrorDistribution <$> m_Test t) t
  | CC_NOT_TESTING | CC_INITIAL => t
  | CC_ERROR => CCalendarTest_apply CC_RESET message t
  end.

End CalendarTest.

Arguments CCalendarTest D {_ _}.
Arguments CCOutput D {_}.

(** ** [CSeasonalityTestParameters] (source lines 979-1098) *)

(** The two windows of the seasonality test.  The enumeration is declared
    in the header; the source indexes [WINDOW_PARAMETERS] and [m_Windows]
    with it, and labels the first table of parameters as the one of the
    short window. *)
Inductive ETest : Type :=
  | E_Short
  | E_Long.

Record SParameters : Type := {
  s_BucketLength : TTime;
  s_ShortestComponent : TTime;
  s_NumberBuckets : nat;
  s_MinimumResolution : nat;
  s_BucketLengths : list TTime;
  s_TestSchedule : list TTime;
}.

Definition SParameters_new (bucketLength shortestComponent : TTime)
    (numberBuckets minimumResolution : nat) (bucketLengths testSchedule : list TTime)
    : SParameters :=
  {| s_BucketLength := bucketLength; s_ShortestComponent := shortestComponent;
     s_NumberBuckets := numberBuckets; s_MinimumResolution := minimumResolution;
     s_BucketLengths := bucketLengths; s_TestSchedule := testSchedule |}.

Definition WINDOW_PARAMETERS (window : ETest) : list SParameters :=
  match window with
  | E_Short =>
      [SParameters_new 1 1 180 10 [1; 5; 10; 30; 60; 300; 600] [];
       SParameters_new 5 1 180 10 [5; 10; 30; 60; 300; 600] [];
       SParameters_new 10 1 180 10 [10; 30; 60; 300; 600] [];
       SParameters_new 30 1 180 10 [30; 60; 300; 600] [];
       SParameters_new 60 1 336 12 [60; 300; 900; 3600; 7200] [3 * 604800];
       SParameters_new 300 1 336 12 [300; 900; 3600; 7200] [3 * 604800];
       SParameters_new 600 1 336 12 [600; 3600; 7200] [3 * 604800];
       SParameters_new 900 1 336 12 [900; 3600; 7200] [3 * 604800];
       SParameters_new 1200 1 336 12 [1200; 3600; 7200] [3 * 86400; 3 * 604800];
       SParameters_new 1800 1 336 12 [1800; 3600; 7200] [3 * 86400; 3 * 604800];
       SParameters_new 3600 1 336 12 [3600; 7200] [3 * 86400; 604800; 3 * 604800];
       SParameters_new 7200 1 336 12 [7200; 14400] [3 * 86400; 604800; 3 * 604800];
       SParameters_new 14400 1 336 6 [14400] [604800; 3 * 604800];
       SParameters_new 21600 1 224 6 [21600] [604800; 3 * 604800];
       SParameters_new 28800 1 168 6 [28800] [3 * 604800];
       SParameters_new 43200 1 112 6 [43200] [4 * 604800];
       SParameters_new 86400 1 56 6 [86400] []]
  | E_Long =>
      [SParameters_new 1 30601 336 12 [900; 3600; 7200] [3 * 604800];
       SParameters_new 5 30601 336 12 [900; 3600; 7200] [3 * 604800];
       SParameters_new 10 30601 336 12 [900; 3600; 7200] [3 * 604800];
       SParameters_new 30 30601 336 12 [900; 3600; 7200] [3 * 604800];
       SParameters_new 60 648001 156 6 [43200; 86400; 604800] [104 * 604800];
       SParameters_new 300 648001 156 6 [43200; 86400; 604800] [104 * 604800];
       SParameters_new 600 648001 156 6 [43200; 86400; 604800] [104 * 604800];
       SParameters_new 900 648001 156 6 [43200; 86400; 604800] [104 * 604800];
       SParameters_new 1200 648001 156 6 [43200; 86400; 604800] [104 * 604800];
       SParameters_new 1800 648001 156 6 [43200; 86400; 604800] [104 * 604800];
       SParameters_new 3600 648001 156 6 [43200; 86400; 604800] [104 * 604800];
       SParameters_new 7200 648001 156 6 [43200; 86400; 604800] [104 * 604800];
       SParameters_new 14400 648001 156 6 [43200; 86400; 604800] [104 * 604800];
       SParameters_new 86400 648001 156 6 [43200; 86400; 604800] [104 * 604800];
       SParameters_new 604800 648001 156 6 [43200; 86400; 604800] [104 * 604800]]
  end.

(** [std::lower_bound] with [operator<(SParameters, TTime)]: the first
    row whose bucket length is not less than [bucketLength], on rows which
    are in the order of their bucket lengths; [None] is [nullptr]. *)
Definition windowParameters (window : ETest) (bucketLength : TTime)
    : option SParameters :=
  List.find (fun params => negb (s_BucketLength params <? bucketLength))
            (WINDOW_PARAMETERS window).

Definition CSeasonalityTestParameters_test (bucketLength : TTime) : bool :=
  bucketLength <=? 604800.

Definition numberBuckets (window : ETest) (bucketLength : TTime) : nat :=
  match windowParameters window bucketLength with
  | Some params => s_NumberBuckets params
  | None => O
  end.

Definition bucketLengths (window : ETest) (bucketLength : TTime)
    : option (list TTime) :=
  s_BucketLengths <$> windowParameters window bucketLength.

(** [bucketLengths_->back()], which has no defined value on an empty
    vector; zero stands for it. *)
Definition maxBucketLength (window : ETest) (bucketLength : TTime) : TTime :=
  match bucketLengths window bucketLength with
  | Some bucketLengths_ => List.last bucketLengths_ 0
  | None => 0
  end.

Definition testSchedule (window : ETest) (bucketLength : TTime) : list TTime :=
  match windowParameters window bucketLength with
  | Some params => s_TestSchedule params
  | None => []
  end.

Definition shortestComponent (window : ETest) (bucketLength : TTime) : TTime :=
  match windowParameters window bucketLength with
  | Some params => s_ShortestComponent params
  | None => 0
  end.

Definition minimumResolutionToTestModelledComponent (window : ETest)
    (bucketLength : TTime) (shorterWindowAvailable : bool) : nat :=
  match windowParameters window bucketLength with
  | Some params =>
      if shorterWindowAvailable then s_MinimumResolution params else 2%nat
  | None => 2%nat
  end.

(** ** [CSeasonalityTest] (source lines 1101-1405) *)

(** The state machine of the seasonality test (source lines 252-266). *)
Inductive PT_State : Type :=
  | PT_INITIAL
  | PT_TEST
  | PT_NOT_TESTING
  | PT_ERROR.

Inductive PT_Symbol : Type :=
  | PT_NEW_VALUE
  | PT_RESET.

Definition PT_TRANSITION_FUNCTION (symbol : PT_Symbol) (state : PT_State)
    : PT_State :=
  match symbol, state with
  | PT_NEW_VALUE, PT_INITIAL => PT_TEST
  | PT_NEW_VALUE, PT_TEST => PT_TEST
  | PT_NEW_VALUE, PT_NOT_TESTING => PT_NOT_TESTING
  | PT_NEW_VALUE, PT_ERROR => PT_ERROR
  | PT_RESET, PT_INITIAL => PT_INITIAL
  | PT_RESET, PT_TEST => PT_INITIAL
  | PT_RESET, PT_NOT_TESTING => PT_NOT_TESTING
  | PT_RESET, PT_ERROR => PT_INITIAL
  end.

Definition PT_State_eqb (a b : PT_State) : bool :=
  match a, b with
  | PT_INITIAL, PT_INITIAL | PT_TEST, PT_TEST
  | PT_NOT_TESTING, PT_NOT_TESTING | PT_ERROR, PT_ERROR => true
  | _, _ => false
  end.

(** [CExpandingWindow] and what a [CTimeSeriesTestForSeasonality] returns,
    by the member functions the source calls. *)
Class CExpandingWindowTypes (D : Type) `{CBasicStatistics D}
    `{!CComponentTypes D} : Type := {
  CExpandingWindow : Type;
  (** [CExpandingWindow(bucketLength, TTimeCRng{bucketLengths, 0,
      bucketLengths.size()}, numberBuckets, decayRate, deflate)] *)
  ew_new : TTime -> list TTime -> nat -> D -> bool -> CExpandingWindow;
  ew_initialize : TTime -> CExpandingWindow -> CExpandingWindow;
  (** [add(time, value, prediction, weight)] *)
  ew_add : TTime -> D -> D -> D -> CExpandingWindow -> CExpandingWindow;
  ew_needToCompress : CExpandingWindow -> TTime -> bool;
  ew_beginValuesTime : CExpandingWindow -> TTime;
  ew_haveShorterWindows : CExpandingWindow -> bool;
  ew_shiftTime : TTime -> TTime -> CExpandingWindow -> CExpandingWindow;
  ew_propagateForwardsByTime : D -> CExpandingWindow -> CExpandingWindow;
  ew_valuesMinusPrediction :
    (TTime -> D) -> CExpandingWindow -> list TMeanAccumulator;
  ew_withinBucketVariance : CExpandingWindow -> D;
  (** [decomposition.componentsChanged()] *)
  componentsChanged : CSeasonalDecomposition D -> bool;
}.

Section SeasonalityTest.
Context {D : Type} `{DoubleMath D} `{CBasicStatistics D} `{!CComponentTypes D}
  `{!CExpandingWindowTypes D}.

(** What the test does to the outside: it forwards [SDetectedSeasonal] to
    the mediator, and it calls the component change callback of a detected
    trend. *)
Inductive PTOutput : Type :=
  | ForwardDetectedSeasonal (time lastTime : TTime)
      (decomposition : CSeasonalDecomposition D)
  | ComponentChangeCallback (residuals : list TMeanAccumulator).

(** [m_Windows] is the array of the two windows, indexed by [ETest]. *)
Record CSeasonalityTest : Type := {
  pt_Machine : PT_State;
  pt_DecayRate : D;
  pt_BucketLength : TTime;
  m_ShortWindow : option CExpandingWindow;
  m_LongWindow : option CExpandingWindow;
  pt_Output : list PTOutput;
}.

Definition m_Windows (test : ETest) (t : CSeasonalityTest)
    : option CExpandingWindow :=
  match test with
  | E_Short => m_ShortWindow t
  | E_Long => m_LongWindow t
  end.

Definition set_pt_Machine (x : PT_State) (t : CSeasonalityTest)
    : CSeasonalityTest :=
  {| pt_Machine := x; pt_DecayRate := pt_DecayRate t;
     pt_BucketLength := pt_BucketLength t; m_ShortWindow := m_ShortWindow t;
     m_LongWindow := m_LongWindow t; pt_Output := pt_Output t |}.

Definition set_m_Windows (test : ETest) (x : option CExpandingWindow)
    (t : CSeasonalityTest) : CSeasonalityTest :=
  {| pt_Machine := pt_Machine t; pt_DecayRate := pt_DecayRate t;
     pt_BucketLength := pt_BucketLength t;
     m_ShortWindow := match test with E_Short => x | E_Long => m_ShortWindow t end;
     m_LongWindow := match test with E_Short => m_LongWindow t | E_Long => x end;
     pt_Output := pt_Output t |}.

Definition pt_emit (o : PTOutput) (t : CSeasonalityTest) : CSeasonalityTest :=
  {| pt_Machine := pt_Machine t; pt_DecayRate := pt_DecayRate t;
     pt_BucketLength := pt_BucketLength t; m_ShortWindow := m_ShortWindow t;
     m_LongWindow := m_LongWindow t; pt_Output := pt_Output t ++ [o] |}.

(** The constructor (source lines 1101-1109): the windows are null. *)
Definition CSeasonalityTest_new (decayRate : D) (bucketLength : TTime)
    : CSeasonalityTest :=
  {| pt_Machine :=
       if CSeasonalityTestParameters_test bucketLength
       then PT_INITIAL else PT_NOT_TESTING;
     pt_DecayRate := decayRate; pt_BucketLength := bucketLength;
     m_ShortWindow := None; m_LongWindow := None; pt_Output := [] |}.

(** [newWindow] (source lines 1372-1387).  [initialize] calls it with the
    default of [deflate], which the header declares; [true] stands for it. *)
Definition newWindow (test : ETest) (deflate : bool) (t : CSeasonalityTest)
    : option CExpandingWindow :=
  let numberBuckets := numberBuckets test (pt_BucketLength t) in
  match bucketLengths test (pt_BucketLength t) with
  | Some bucketLengths =>
      Some (ew_new (pt_BucketLength t) bucketLengths numberBuckets
                   (pt_DecayRate t) deflate)
  | None => None
  end.

(** [shouldTest] (source lines 1389-1405). *)
Definition CSeasonalityTest_shouldTest (test : ETest) (time : TTime)
    (t : CSeasonalityTest) : bool :=
  match m_Windows test t with
  | Some window =>
      let scheduledTest :=
        let length := time - ew_beginValuesTime window in
        existsb (fun schedule =>
                   (schedule <=? length) && (length <? schedule + pt_BucketLength t))
                (testSchedule test (pt_BucketLength t)) in
      ew_needToCompress window time || scheduledTest
  | None => false
  end.

(** The lambda [initialize] of [apply]. *)
Definition initialize (time : TTime) (t : CSeasonalityTest) : CSeasonalityTest :=
  fold_left (fun t i =>
    let t := set_m_Windows i (newWindow i true t) t in
    match m_Windows i t with
    | Some window =>
        set_m_Windows i
          (Some (ew_initialize
                   (ifloor time (maxBucketLength i (pt_BucketLength t))) window)) t
    | None => t
    end) [E_Short; E_Long] t.

(** [apply] (source lines 1328-1370), with the call of itself in the
    [default] branch counted by [fuel]. *)
Fixpoint CSeasonalityTest_apply_fuel (fuel : nat) (symbol : PT_Symbol)
    (message : SMessage) (t : CSeasonalityTest) : option CSeasonalityTest :=
  match fuel with
  | O => None
  | S fuel =>
      let time := s_Time message in
      let old := pt_Machine t in
      let t := set_pt_Machine (PT_TRANSITION_FUNCTION symbol old) t in
      let state := pt_Machine t in
      if negb (PT_State_eqb state old) then
        match state with
        | PT_TEST =>
            match m_ShortWindow t, m_LongWindow t with
            | None, None => Some (initialize time t)
            | _, _ => Some t
            end
        | PT_INITIAL => Some (initialize time t)
        | PT_NOT_TESTING =>
            Some (set_m_Windows E_Long None (set_m_Windows E_Short None t))
        | PT_ERROR => CSeasonalityTest_apply_fuel fuel PT_RESET message t
        end
      else Some t
  end.

Definition CSeasonalityTest_apply (symbol : PT_Symbol) (message : SMessage)
    (t : CSeasonalityTest) : CSeasonalityTest :=
  default t (CSeasonalityTest_apply_fuel 2 symbol message t).

(** [test] (source lines 1216-1254).  [makeTest] is the message's
    [s_MakeTestForSeasonality] applied to the window, the minimum period,
    the minimum resolution, the preconditioner of the message and the
    occupancy, followed by [decompose()]. *)
Definition CSeasonalityTest_test (message : SAddValue D)
    (makeTest : CExpandingWindow -> TTime -> nat -> D -> CSeasonalDecomposition D)
    (t : CSeasonalityTest) : CSeasonalityTest :=
  let time := s_Time (s_Message message) in
  let lastTime := s_LastTime (s_Message message) in
  let occupancy := s_Occupancy message in
  match pt_Machine t with
  | PT_TEST =>
      fold_left (fun t i =>
        if CSeasonalityTest_shouldTest i time t then
          match m_Windows i t with
          | Some window =>
              let minimumPeriod := shortestComponent i (pt_BucketLength t) in
              let minimumResolution :=
                minimumResolutionToTestModelledComponent i (pt_BucketLength t)
                  (ew_haveShorterWindows window) in
              let decomposition :=
                makeTest window minimumPeriod minimumResolution occupancy in
              if componentsChanged decomposition
              then pt_emit (ForwardDetectedSeasonal time lastTime decomposition) t
              else t
          | None => t
          end
        else t) [E_Short; E_Long] t
  | PT_NOT_TESTING | PT_INITIAL => t
  | PT_ERROR => CSeasonalityTest_apply PT_RESET (s_Message message) t
  end.

(** [handle(const SAddValue&)] (source lines 1173-1208).  In [PT_INITIAL] the
    function calls itself once the machine has moved on; [fuel] counts these
    calls. *)
Fixpoint CSeasonalityTest_handle_fuel (fuel : nat) (message : SAddValue D)
    (makeTest : CExpandingWindow -> TTime -> nat -> D -> CSeasonalDecomposition D)
    (t : CSeasonalityTest) : option CSeasonalityTest :=
  match fuel with
  | O => None
  | S fuel =>
      let time := s_Time (s_Message message) in
      let value := s_Value message in
      let prediction := (s_Seasonal message + s_Calendar message)%D in
      let weight := s_Count message in
      let t := CSeasonalityTest_test message makeTest t in
      match pt_Machine t with
      | PT_TEST =>
          if negb (s_AllocationsAllowed (s_Message message)) then Some t
          else
            Some (fold_left (fun t i =>
                    set_m_Windows i
                      (ew_add time value prediction weight <$> m_Windows i t) t)
                    [E_Short; E_Long] t)
      | PT_NOT_TESTING => Some t
      | PT_INITIAL =>
          let t := CSeasonalityTest_apply PT_NEW_VALUE (s_Message message) t in
          CSeasonalityTest_handle_fuel fuel message makeTest t
      | PT_ERROR => Some (CSeasonalityTest_apply PT_RESET (s_Message message) t)
      end
  end.

Definition CSeasonalityTest_handle_SAddValue (message : SAddValue D)
    (makeTest : CExpandingWindow -> TTime -> nat -> D -> CSeasonalDecomposition D)
    (t : CSeasonalityTest) : CSeasonalityTest :=
  default t (CSeasonalityTest_handle_fuel 2 message makeTest t).

(** [residuals] (source lines 1279-1291): from the first window there is. *)
Definition CSeasonalityTest_residuals (predictor : TTime -> D)
    (t : CSeasonalityTest) : list TMeanAccumulator :=
  match m_ShortWindow t, m_LongWindow t with
  | Some window, _ | None, Some window =>
      addMeanZeroNormalNoise (ew_withinBucketVariance window)
                             (ew_valuesMinusPrediction predictor window)
  | None, None => []
  end.

(** [handle(const SDetectedTrend&)] (source lines 1210-1214). *)
Definition CSeasonalityTest_handle_SDetectedTrend (predictor : TTime -> D)
    (t : CSeasonalityTest) : CSeasonalityTest :=
  pt_emit (ComponentChangeCallback (CSeasonalityTest_residuals predictor t)) t.

(** [shiftTime] (source lines 1256-1263). *)
Definition CSeasonalityTest_shiftTime (time shift : TTime)
    (t : CSeasonalityTest) : CSeasonalityTest :=
  fold_left (fun t i =>
    set_m_Windows i (ew_shiftTime time shift <$> m_Windows i t) t)
    [E_Short; E_Long] t.

(** [propagateForwards] (source lines 1265-1277). *)
Definition CSeasonalityTest_propagateForwards (start end_ : TTime)
    (t : CSeasonalityTest) : CSeasonalityTest :=
  let t :=
    match m_ShortWindow t with
    | Some _ =>
        stepwisePropagateForwards start end_ DAY
          (fun time t =>
             set_m_Windows E_Short
               (ew_propagateForwardsByTime (time / of_TTime 8)%D
                <$> m_ShortWindow t) t) t
    | None => t
    end in
  match m_LongWindow t with
  | Some _ =>
      stepwisePropagateForwards start end_ WEEK
        (fun time t =>
           set_m_Windows E_Long
             (ew_propagateForwardsByTime (time / of_TTime 8)%D
              <$> m_LongWindow t) t) t
  | None => t
  end.

End SeasonalityTest.

Arguments CSeasonalityTest D {_ _ _}.
Arguments PTOutput D {_ _}.

(** ** Reference implementations of the collaborators

    Simple implementations of the interfaces above, on which the embedded
    functions can be run.  They are generic in the arithmetic, so that the
    same run can be made with IEEE doubles and with exact rationals. *)

(** [std::numeric_limits<double>::lowest()] *)
Class DoubleLimits (D : Type) : Type := { dlowest : D }.

#[export] Instance DoubleLimits_float : DoubleLimits float :=
  {| dlowest := PrimFloat.opp (PrimFloat.sub (Z.ldexp 1%float 1024%Z)
                                 (Z.ldexp 1%float 971%Z)) |}.

#[export] Instance DoubleLimits_Q : DoubleLimits Q :=
  {| dlowest := inject_Z (- (2 ^ 1024 - 2 ^ 971)) |}.

#[export] Instance DoubleLimits_R : DoubleLimits R :=
  {| dlowest := IZR (- (2 ^ 1024 - 2 ^ 971)) |}.

(** A software exponential for IEEE doubles, by scaling and squaring of a
    Taylor polynomial; [<cmath>] leaves the last bits of [std::exp] open as
    well. *)
Definition float_exp (x : float) : float :=
  let y := PrimFloat.div x 1024%float in
  let taylor :=
    fold_right (fun k acc =>
                  PrimFloat.add 1%float
                    (PrimFloat.mul (PrimFloat.div y (float_of_Z k)) acc))
               1%float [1; 2; 3; 4; 5; 6; 7; 8; 9; 10; 11; 12] in
  Nat.iter 10 (fun t => PrimFloat.mul t t) taylor.

#[export] Instance DoubleMath_float : DoubleMath float := {
  dsqrt := PrimFloat.sqrt;
  dexp := float_exp;
}.

Module Reference.
Section Statistics.
Context {D : Type} `{Double D} `{DoubleLimits D}.

(** A weighted mean: the count and the mean. *)
Definition mean_add_ (x w : D) (acc : D * D) : D * D :=
  if (w =? of_TTime 0)%D then acc
  else let count := (acc.1 + w)%D in
       (count, (acc.2 + w * (x - acc.2) / count)%D).

(** A weighted mean and variance: the count, the mean and the sum of the
    weighted squares of the deviations. *)
Definition meanvar_add_ (x w : D) (acc : D * D * D) : D * D * D :=
  if (w =? of_TTime 0)%D then acc
  else let '(count, mean, m2) := acc in
       let count' := (count + w)%D in
       let mean' := (mean + w * (x - mean) / count')%D in
       (count', mean', (m2 + w * (x - mean) * (x - mean'))%D).

Definition meanvar_variance_ (acc : D * D * D) : D :=
  let '(count, mean, m2) := acc in
  if (of_TTime 1 <? count)%D then (m2 / (count - of_TTime 1))%D else of_TTime 0.

Definition vmean_add_ (x : D * D * D) (w : D) (acc : D * (D * D * D))
    : D * (D * D * D) :=
  if (w =? of_TTime 0)%D then acc
  else let count := (acc.1 + w)%D in
       let step (xi mi : D) := (mi + w * (xi - mi) / count)%D in
       (count, (step x.1.1 acc.2.1.1, step x.1.2 acc.2.1.2, step x.2 acc.2.2)).

(** The smallest and the largest value added, if any; the margin by which
    all values have one sign. *)
Definition minmax_add_ (x : D) (acc : option (D * D)) : option (D * D) :=
  match acc with
  | None => Some (x, x)
  | Some (lo, hi) => Some (dmin lo x, dmax hi x)
  end.

Definition minmax_signMargin_ (acc : option (D * D)) : D :=
  match acc with
  | None => of_TTime 0
  | Some (lo, hi) =>
      if (of_TTime 0 <? lo)%D then lo
      else if (hi <? of_TTime 0)%D then hi
      else of_TTime 0
  end.

(** A weighted least squares line through the points [(x, y, w)]. *)
Definition regression_slope_ (points : list (D * D * D)) : D :=
  let sum (f : D * D * D -> D) :=
    fold_left (fun acc p => (acc + f p)%D) points (of_TTime 0) in
  let sw := sum (fun p => p.2) in
  let swx := sum (fun p => (p.2 * p.1.1)%D) in
  let swy := sum (fun p => (p.2 * p.1.2)%D) in
  let swxx := sum (fun p => (p.2 * p.1.1 * p.1.1)%D) in
  let swxy := sum (fun p => (p.2 * p.1.1 * p.1.2)%D) in
  let den := (sw * swxx - swx * swx)%D in
  if (den =? of_TTime 0)%D then of_TTime 0
  else ((sw * swxy - swx * swy) / den)%D.

#[export] Instance statistics : CBasicStatistics D := {
  TMeanAccumulator := D * D;
  mean_new := (of_TTime 0, of_TTime 0);
  mean_add := mean_add_;
  mean_count := fst;
  mean_mean := snd;
  mean_age := fun factor acc => ((acc.1 * factor)%D, acc.2);
  mean_set_moment0 := fun x acc => (acc.1, x);
  TMeanVarAccumulator := D * D * D;
  meanvar_new := (of_TTime 0, of_TTime 0, of_TTime 0);
  meanvar_add := meanvar_add_;
  meanvar_count := fun acc => acc.1.1;
  meanvar_variance := meanvar_variance_;
  meanvar_age := fun factor acc => ((acc.1.1 * factor)%D, acc.1.2, (acc.2 * factor)%D);
  TVectorMeanAccumulator := D * (D * D * D);
  vmean_new := (of_TTime 0, (of_TTime 0, of_TTime 0, of_TTime 0));
  vmean_add := vmean_add_;
  vmean_count := fst;
  vmean_mean := snd;
  vmean_age := fun factor acc => ((acc.1 * factor)%D, acc.2);
  TMaxAccumulator := D;
  max_new := dlowest;
  max_add := fun x acc => dmax acc x;
  max_get0 := fun acc => acc;
  max_age := fun factor acc => (acc * factor)%D;
  TMinMaxAccumulator := option (D * D);
  minmax_new := None;
  minmax_add := minmax_add_;
  minmax_signMargin := minmax_signMargin_;
  TRegression := list (D * D * D);
  regression_new := [];
  regression_count :=
    fun points => fold_left (fun acc p => (acc + p.2)%D) points (of_TTime 0);
  regression_slope := regression_slope_;
  regression_add := fun x y w points => points ++ [(x, y, w)];
  regression_age :=
    fun factor points => map (fun p => (p.1, (p.2 * factor)%D)) points;
  regression_shiftAbscissa :=
    fun dx points => map (fun p => ((p.1.1 + dx)%D, p.1.2, p.2)) points;
  normalSample := fun variance i => of_TTime 0;
}.

End Statistics.

Section ComponentTypes.
Context {D : Type} `{Double D}.

(** A trend which is a level: the weighted mean of the values added. *)
Record Trend : Type := {
  t_decayRate : D;
  t_count : D;
  t_level : D;
}.

(** A seasonal component: its time (the period, and the window inside the
    repeat), its decay rate, the number of its buckets, one level and one
    slope for all of them, whether a value of it is not finite, and the time
    it was last interpolated at.  It keeps no counts, so there is nothing
    which propagating it forwards would age. *)
Record Seasonal : Type := {
  r_period : TTime;
  r_windowStart : TTime;
  r_windowEnd : TTime;
  r_windowRepeat : TTime;
  r_decayRate : D;
  r_size : nat;
  r_level : D;
  r_slope : D;
  r_bad : bool;
  r_initialized : bool;
  r_interpolated : TTime;
}.

Definition r_shiftLevel (shift : D) (c : Seasonal) : Seasonal :=
  {| r_period := r_period c; r_windowStart := r_windowStart c;
     r_windowEnd := r_windowEnd c; r_windowRepeat := r_windowRepeat c;
     r_decayRate := r_decayRate c; r_size := r_size c; r_level := (r_level c + shift)%D;
     r_slope := r_slope c; r_bad := r_bad c;
     r_initialized := r_initialized c; r_interpolated := r_interpolated c |}.

Definition r_shiftSlope (shift : D) (c : Seasonal) : Seasonal :=
  {| r_period := r_period c; r_windowStart := r_windowStart c;
     r_windowEnd := r_windowEnd c; r_windowRepeat := r_windowRepeat c;
     r_decayRate := r_decayRate c; r_size := r_size c; r_level := r_level c;
     r_slope := (r_slope c + shift)%D; r_bad := r_bad c;
     r_initialized := r_initialized c; r_interpolated := r_interpolated c |}.

Definition r_interpolate (time : TTime) (c : Seasonal) : Seasonal :=
  {| r_period := r_period c; r_windowStart := r_windowStart c;
     r_windowEnd := r_windowEnd c; r_windowRepeat := r_windowRepeat c;
     r_decayRate := r_decayRate c; r_size := r_size c; r_level := r_level c;
     r_slope := r_slope c; r_bad := r_bad c;
     r_initialized := true; r_interpolated := ifloor time (r_period c) |}.

Definition r_time_ltb (a b : Seasonal) : bool :=
  (r_period a <? r_period b)
  || ((r_period a =? r_period b)
      && window_ltb (r_windowStart a, r_windowEnd a)
                    (r_windowStart b, r_windowEnd b)).

(** A calendar feature: the day of the month, counted from zero in months
    of thirty days. *)
Definition Feature : Type := Z.

Definition feature_inWindow_ (feature : Feature) (time : TTime) : bool :=
  (time / DAY) mod 30 =? feature.

(** Modelled from the spec: [CCalendarComponent] is declared in
    [CCalendarComponent.h]; a component has a size, and a new calendar
    component is created with the default size of the store, a third of the
    size of a seasonal component.  A calendar component: its feature and time
    zone offset, the number of its buckets, and one level for all of them. *)
Record Calendar : Type := {
  k_feature : Feature;
  k_timeZoneOffset : TTime;
  k_size : nat;
  k_level : D;
  k_bad : bool;
  k_interpolated : TTime;
}.

#[export] Instance components : CComponentTypes D := {
  CTrendComponent := Trend;
  trend_new := fun decayRate =>
    {| t_decayRate := decayRate; t_count := of_TTime 0; t_level := of_TTime 0 |};
  trend_clear := fun t =>
    {| t_decayRate := t_decayRate t; t_count := of_TTime 0; t_level := of_TTime 0 |};
  trend_defaultDecayRate := t_decayRate;
  trend_add := fun time value weight t =>
    let acc := mean_add_ value weight (t_count t, t_level t) in
    {| t_decayRate := t_decayRate t; t_count := acc.1; t_level := acc.2 |};
  trend_propagateForwardsByTime := fun dt t => t;
  trend_value_mean := fun t time => t_level t;
  trend_shiftOrigin := fun time t => t;
  trend_shiftLevel := fun shift t =>
    {| t_decayRate := t_decayRate t; t_count := t_count t;
       t_level := (t_level t + shift)%D |};
  trend_shiftSlope := fun time shift t => t;

  CSeasonalComponent := Seasonal;
  sc_period := r_period;
  sc_window := fun c => (r_windowStart c, r_windowEnd c);
  sc_windowed := fun c => r_windowEnd c - r_windowStart c <? r_windowRepeat c;
  sc_inWindow := fun c time =>
    let offset := time mod r_windowRepeat c in
    (r_windowStart c <=? offset) && (offset <? r_windowEnd c);
  sc_time_ltb := r_time_ltb;
  sc_value_mean := fun c time => r_level c;
  sc_meanValue := r_level;
  sc_delta := fun c time period value => of_TTime 0;
  sc_slope := r_slope;
  sc_slopeAccurate := fun c time => r_initialized c;
  sc_shiftOrigin := fun time c => c;
  sc_shiftLevel := r_shiftLevel;
  sc_shiftSlope := fun time shift c => r_shiftSlope shift c;
  sc_size := r_size;
  sc_dynamicSize := fun c => 16 * Z.of_nat (r_size c);
  sc_isBad := r_bad;
  sc_initialized := r_initialized;
  sc_shouldInterpolate := fun c time =>
    r_interpolated c <? ifloor time (r_period c);
  sc_interpolate := fun time refine c => r_interpolate time c;
  sc_decayRate := r_decayRate;
  sc_propagateForwardsByTime := fun time meanRevertFactor c => c;

  CCalendarFeature := Feature;
  feature_eqb := Z.eqb;
  feature_window := fun feature => DAY;
  feature_inWindow := feature_inWindow_;
  feature_print := fun feature => "day of month"%string;

  CCalendarComponent := Calendar;
  cc_make := fun feature timeZoneOffset size decayRate bucketLength =>
    {| k_feature := feature; k_timeZoneOffset := timeZoneOffset;
       k_size := size; k_level := of_TTime 0; k_bad := false;
       k_interpolated := 0 |};
  cc_feature := k_feature;
  cc_value_mean := fun c time => k_level c;
  cc_meanValue := k_level;
  cc_size := k_size;
  cc_isBad := k_bad;
  cc_initialized := fun c => true;
  cc_shouldInterpolate := fun c time => k_interpolated c <? ifloor time MONTH;
  cc_interpolate := fun time refine c =>
    {| k_feature := k_feature c; k_timeZoneOffset := k_timeZoneOffset c;
       k_size := k_size c; k_level := k_level c; k_bad := k_bad c;
       k_interpolated := ifloor time MONTH |};
}.

(** A calendar test which proposes the features it was built with at every
    test, and civil months of thirty days. *)
#[export] Instance calendarTest (found : list (Feature * TTime))
    : CCalendarTestTypes D := {
  CCalendarCyclicTest := list (Feature * TTime);
  cct_new := fun bucketLength decayRate => found;
  cct_add := fun time value error weight test => test;
  cct_test := fun test => test;
  cct_forgetErrorDistribution := fun test => test;
  dateFields_month := fun time => (time / (30 * DAY)) mod 12;
}.

End ComponentTypes.

Arguments Trend D : clear implicits.
Arguments Seasonal D : clear implicits.
Arguments Calendar D : clear implicits.

Section ChangePoints.
Context {D : Type} `{Double D} `{DoubleLimits D}.

(** A change is a level shift: its time and its size.  The test for a change
    proposes the first populated bucket's mean as a shift at the start of
    the values when that mean is not zero. *)
Record Change : Type := {
  g_time : TTime;
  g_shift : D;
}.

#[export] Instance changePoints : CChangePointTypes D := {
  MINIMUM_WINDOW_BUCKET_LENGTH := HOUR;
  CHANGE_COUNT_WEIGHT := lit 1 10;
  OUTLIER_FRACTION := lit 1 10;
  CChangePoint := Change;
  testForChange_test :=
    fun testFor valuesStartTime bucketsStartTime windowBucketLength bucketLength
        predictor values outlierFraction =>
      match values with
      | bucket :: _ =>
          if (bucket.2 =? of_TTime 0)%D then None
          else Some {| g_time := valuesStartTime; g_shift := bucket.2 |}
      | [] => None
      end;
  cp_largeEnough := fun change largeError => (largeError <? dfabs (g_shift change))%D;
  cp_longEnough := fun change time minimumLength =>
    g_time change + minimumLength <=? time;
  cp_time := g_time;
  cp_undoable := fun change =>
    Some {| g_time := g_time change; g_shift := (- g_shift change)%D |};
  cp_add := fun time lastTime value weight predictor change => change;
  cp_shouldUndo := fun change => false;
  cp_addNoise := fun variance change => change;
  TOutlierWeightDerate := D;
  derate_new := of_TTime 0;
  derate_value := fun derate error => derate;
  cp_outlierWeightDerate := fun change start end_ predictor => of_TTime 1;
}.

End ChangePoints.

Arguments Change D : clear implicits.

(** An expanding window which records the bucket lengths it cycles
    through, where its values begin and how many values it holds; it asks
    for compression when it holds as many values as it has buckets.  A
    decomposition has changed the components when it proposes a component
    or a removal. *)
Section ExpandingWindow.
Context {D : Type} `{Double D} `{DoubleLimits D}.

Record Window : Type := {
  w_bucketLengths : list TTime;
  w_numberBuckets : nat;
  w_begin : TTime;
  w_count : nat;
}.

#[export] Instance expandingWindow : CExpandingWindowTypes D := {
  CExpandingWindow := Window;
  ew_new := fun bucketLength bucketLengths numberBuckets decayRate deflate =>
    {| w_bucketLengths := bucketLengths; w_numberBuckets := numberBuckets;
       w_begin := 0; w_count := 0 |};
  ew_initialize := fun time window =>
    {| w_bucketLengths := w_bucketLengths window;
       w_numberBuckets := w_numberBuckets window;
       w_begin := time; w_count := 0 |};
  ew_add := fun time value prediction weight window =>
    {| w_bucketLengths := w_bucketLengths window;
       w_numberBuckets := w_numberBuckets window;
       w_begin := w_begin window; w_count := S (w_count window) |};
  ew_needToCompress := fun window time =>
    (w_numberBuckets window <=? w_count window)%nat;
  ew_beginValuesTime := w_begin;
  ew_haveShorterWindows := fun window => false;
  ew_shiftTime := fun time shift window =>
    {| w_bucketLengths := w_bucketLengths window;
       w_numberBuckets := w_numberBuckets window;
       w_begin := w_begin window + shift; w_count := w_count window |};
  ew_propagateForwardsByTime := fun time window => window;
  ew_valuesMinusPrediction := fun predictor window => [];
  ew_withinBucketVariance := fun window => of_TTime 0;
  componentsChanged := fun decomposition =>
    negb (match seasonal decomposition with [] => true | _ => false end)
    || existsb (fun remove => remove) (seasonalToRemoveMask decomposition);
}.

End ExpandingWindow.

End Reference.

(** * The statements of the specification *)

(** ** The decomposition of an observation in the specification's words *)

Section DecomposeSpec.
Context {D : Type} `{DoubleMath D} `{CBasicStatistics D} `{CComponentTypes D}.

(** [x_hat] is [trend_x] plus the sum of the component means at [t], added
    in the order of the components. *)
Definition spec_x_hat (trend_x : D) (xs : list D) : D :=
  fold_left dadd xs trend_x.

(** [Z = max((m+n+1)/gain, 1)] *)
Definition spec_Z (m n : nat) (gain : D) : D :=
  dmax (of_size (m + n + 1) / gain)%D (of_TTime 1).

(** [values[0] = trend_x + (value - x_hat)/Z], then
    [values[i+1] = x_i + (value - x_hat)/Z + deltas[i]] for the seasonal
    components, and the same without the delta for the calendar components. *)
Definition spec_values (value trend_x : D) (seasonal_x calendar_x deltas : list D)
    (gain : D) : list D :=
  let x_hat := spec_x_hat trend_x (seasonal_x ++ calendar_x) in
  let Z := spec_Z (length seasonal_x) (length calendar_x) gain in
  (trend_x + (value - x_hat) / Z)%D
  :: zip_with (fun x_i delta => (x_i + (value - x_hat) / Z + delta)%D)
              seasonal_x deltas
  ++ map (fun x_i => (x_i + (value - x_hat) / Z)%D) calendar_x.

(** The seasonal components which are active at [time], their deltas, and
    the active calendar components: what [handle] gathers for [decompose]. *)
Definition activeSeasonalComponents (time : TTime) (c : CComponents D)
    : list CSeasonalComponent :=
  match m_Seasonal c with
  | Some s => (CSeasonal_componentsErrorsAndDeltas time s).1.1
  | None => []
  end.

Definition seasonalDeltas (time : TTime) (c : CComponents D) : list D :=
  match m_Seasonal c with
  | Some s => (CSeasonal_componentsErrorsAndDeltas time s).2
  | None => []
  end.

Definition activeCalendarComponents (time : TTime) (c : CComponents D)
    : list CCalendarComponent :=
  match m_Calendar c with
  | Some k => (CCalendar_componentsAndErrors time k).1
  | None => []
  end.

End DecomposeSpec.

(** ** The removal test of the error statistics in the specification's words *)

Section RemoveSpec.
Context {D : Type} `{Double D} `{CBasicStatistics D}.

(** [a < b] and [a <= b] on [double] as propositions. *)
Definition dlt (a b : D) : Prop := (a <? b)%D = true.
Definition dle (a b : D) : Prop := (a <=? b)%D = true.

(** The accumulated history: the error count times the bucket length. *)
Definition history (bucket_len : TTime) (e : CComponentErrors D) : D :=
  (vmean_count (m_MeanErrors e) * of_TTime bucket_len)%D.

(** "History is at least one week and the mean squared error with the
    component exceeds the one with no components, or history is at least 5
    periods and the maximum variance increase is less than 1.2 and the error
    without the component is at most the one with it." *)
Definition spec_remove (bucket_len period : TTime) (e : CComponentErrors D)
    : bool :=
  let mse := vmean_mean (m_MeanErrors e) in
  ((history bucket_len e >=? of_TTime WEEK)%D && (vec1 mse >? vec0 mse)%D)
  || ((history bucket_len e >=? of_TTime 5 * of_TTime period)%D
      && (max_get0 (m_MaxVarianceIncrease e) <? lit 12 10)%D
      && (vec2 mse <=? vec1 mse)%D).

End RemoveSpec.

(** ** The trigger of the formal test in the specification's words *)

(** [ceil_to_window_bucket] of a real quantity: the smallest multiple of the
    window bucket length which is not below it. *)
Definition spec_ceil_to_window_bucket (x : Q) (window_bucket_len : Z) : Z :=
  window_bucket_len * Qceiling (x / inject_Z window_bucket_len).

(** [min(1/occupancy, 2) * max(30 HOUR, 5 window_bucket_len)] *)
Definition spec_scaled_length (occupancy : Q) (window_bucket_len : Z) : Q :=
  (Qmin (1 / occupancy) 2
   * inject_Z (Z.max (30 * HOUR) (5 * window_bucket_len)))%Q.

(** [minimum_change_length(occupancy)] with the product taken as the real
    number it is. *)
Definition spec_minimum_change_length (occupancy : Q) (window_bucket_len : Z)
    : Z :=
  spec_ceil_to_window_bucket (spec_scaled_length occupancy window_bucket_len)
                             window_bucket_len.

(** [minimum_change_length(occupancy)] with the product converted to whole
    seconds the way a cast does, by dropping its fraction. *)
Definition spec_minimum_change_length_cast (occupancy : Q)
    (window_bucket_len : Z) : Z :=
  iceil (Q_to_Z (spec_scaled_length occupancy window_bucket_len))
        window_bucket_len.

(** [should_test(t)] for a given [minimum_change_length]: no pending undo,
    and [t] is later than the last test by more than the minimum change
    length, or more than three window buckets after the last test and
    strictly between the minimum change length and the maximum interval to
    detect a change ([5 minimum/3]) after the last candidate. *)
Definition spec_should_test (undo_pending : bool)
    (last_test_time last_candidate_change_point_time window_bucket_len : Z)
    (minimum_change_length : Z) (t : Z) : bool :=
  let maximum_interval_to_detect_change := 5 * minimum_change_length / 3 in
  negb undo_pending
  && ((last_test_time + minimum_change_length <? t)
      || ((last_test_time + 3 * window_bucket_len <? t)
          && (last_candidate_change_point_time + minimum_change_length <? t)
          && (t <? last_candidate_change_point_time
                   + maximum_interval_to_detect_change))).

(** [static_cast<core_t::TTime>(x + 0.5)]: [x] rounded to the nearest whole
    second, halves upwards, where [x] is not negative. *)
Definition round_to_second {D : Type} `{Double D} (x : D) : TTime :=
  to_TTime (x + lit 1 2)%D.

(** ** Proposals which the component store drops *)

Section DroppedProposals.
Context {D : Type} `{DoubleMath D} `{CBasicStatistics D} `{CComponentTypes D}.

(** The proposal is dropped inside [addSeasonalComponents]: the mask does
    not fit the components, or the memory is at its hard limit and the
    proposal would grow the store. *)
Definition proposal_dropped (components : CSeasonalDecomposition D)
    (allocationsAllowed : bool) (c : CComponents D) : Prop :=
  length (seasonalToRemoveMask components) <> length (seasonalComponents c)
  \/ (allocationsAllowed = false
      /\ 0 < CSeasonal_estimateSizeChange components (m_DecayRate c)
               (of_TTime (m_BucketLength c))
               (default CSeasonal_new (m_Seasonal c))).

(** [m_Seasonal] made non-null, as [handle(const SDetectedSeasonal&)] does
    before it adds the components. *)
Definition with_seasonal (c : CComponents D) : CComponents D :=
  match m_Seasonal c with
  | None => set_Seasonal (Some CSeasonal_new) c
  | Some _ => c
  end.

End DroppedProposals.

(** ** The reachable states of the change point test

    The states which the constructor and the public operations that change
    the test give: [handle] of both messages, [propagateForwards], and the
    state machine's [apply]. *)

Section ReachableStates.
Context {D : Type} `{DoubleMath D} `{CBasicStatistics D} `{!CChangePointTypes D}.

Inductive reachable : CChangePointTest D -> Prop :=
  | reachable_new (decayRate : D) (bucketLength : TTime) :
      reachable (CChangePointTest_new decayRate bucketLength)
  | reachable_SAddValue (message : SAddValue D) (seasonal : bool)
      (makePredictor : list (CDOutput D) -> TTime -> D) (t : CChangePointTest D) :
      reachable t ->
      reachable (CChangePointTest_handle_SAddValue message seasonal makePredictor t)
  | reachable_SDetectedSeasonal (message : SMessage) (t : CChangePointTest D) :
      reachable t ->
      reachable (CChangePointTest_handle_SDetectedSeasonal message t)
  | reachable_apply (symbol : CD_Symbol) (t : CChangePointTest D) :
      reachable t -> reachable (CChangePointTest_apply symbol t)
  | reachable_propagateForwards (start end_ : TTime) (t : CChangePointTest D) :
      reachable t -> reachable (CChangePointTest_propagateForwards start end_ t).

End ReachableStates.

(** ** The state in which the formal test is due *)

Section FormalTest.
Context {D : Type} `{DoubleMath D} `{CBasicStatistics D} `{!CChangePointTypes D}.

(** The test as [testForChange] finds it when [handle(const SAddValue&)]
    calls it in [CD_TEST] (source lines 625-634): the window moved on by the
    buckets which have gone by, the value added to its last bucket, the mean
    offset and the residual moments updated, and [updateTotalCountWeights],
    [testForCandidateChange] and [testUndoLastChange] done. *)
Definition beforeTestForChange (message : SAddValue D)
    (makePredictor : list (CDOutput D) -> TTime -> D) (t : CChangePointTest D)
    : CChangePointTest D :=
  let lastTime := s_LastTime (s_Message message) in
  let time := s_Time (s_Message message) in
  let value := s_Value message in
  let prediction := (s_Trend message + s_Seasonal message + s_Calendar message)%D in
  let weight := s_Count message in
  let weightForResidualMoments := s_CountForUpdate message in
  let buckets :=
    Z.quot (startOfWindowBucket time t - startOfWindowBucket lastTime t)
           (windowBucketLength t) in
  let steps :=
    if buckets <? 0 then length (m_Window t)
    else Nat.min (Z.to_nat buckets) (length (m_Window t)) in
  let t :=
    set_m_Window
      (for_loop 0 steps (fun _ => window_push_back mean_new) (m_Window t)) t in
  let t := set_m_Window (window_add_back value weight (m_Window t)) t in
  let t :=
    set_m_MeanOffset
      (mean_add (of_TTime (Z.rem time (cd_BucketLength t))) weight
                (m_MeanOffset t)) t in
  let t :=
    set_m_ResidualMoments
      (meanvar_add (value - prediction)%D weightForResidualMoments
                   (m_ResidualMoments t)) t in
  let t := updateTotalCountWeights message t in
  let t := testForCandidateChange message t in
  testUndoLastChange message makePredictor t.

End FormalTest.

(** ** The messages of the calendar test *)

Section CalendarTestMessages.
Context {D : Type} `{Double D} `{CComponentTypes D} `{!CCalendarTestTypes D}.

(** One [SDetectedCalendar] for each tuple the inner test returns, in their
    order: the loop of [CCalendarTest::test]. *)
Definition forwardDetectedCalendar (message : SMessage)
    (result : list (CCalendarFeature * TTime)) : list (CCOutput D) :=
  map (fun component =>
         ForwardDetectedCalendar (s_Time message) (s_LastTime message)
                                 component.1 component.2) result.

(** The messages the calendar test handles. *)
Inductive CCMessage : Type :=
  | AddValue (message : SAddValue D)
  | DetectedSeasonal (message : SMessage).

Definition CCalendarTest_handle (t : CCalendarTest D) (message : CCMessage)
    : CCalendarTest D :=
  match message with
  | AddValue message => CCalendarTest_handle_SAddValue message t
  | DetectedSeasonal message => CCalendarTest_handle_SDetectedSeasonal message t
  end.

(** No observation among the messages falls into the civil month [month_]. *)
Definition no_observation_in (month_ : Z) (messages : list CCMessage) : Prop :=
  Forall (fun message =>
            match message with
            | AddValue message => month (s_Time (s_Message message)) <> month_
            | DetectedSeasonal _ => True
            end) messages.

(** What the constructor gives and every message keeps: the last month is
    not negative, the inner test exists exactly in the state [CC_TEST], and
    the machine is not in [CC_ERROR]. *)
Definition CCalendarTest_invariant (t : CCalendarTest D) : Prop :=
  0 <= m_LastMonth t
  /\ match cc_Machine t with
     | CC_TEST => is_Some (m_Test t)
     | CC_INITIAL | CC_NOT_TESTING => m_Test t = None
     | CC_ERROR => False
     end.

End CalendarTestMessages.

(** ** What the component store keeps

    [CSeasonal] and [CCalendar] read [m_PredictionErrors[i]] as the errors
    of [m_Components[i]]: the two vectors are indexed together, so they have
    to be of one length. *)

Section StoreInvariants.
Context {D : Type} `{DoubleMath D} `{CBasicStatistics D} `{CComponentTypes D}.

Definition CSeasonal_aligned (s : CSeasonal D) : Prop :=
  length (m_PredictionErrors s) = length (m_Components s).

Definition CCalendar_aligned (k : CCalendar D) : Prop :=
  length (m_CalendarPredictionErrors k) = length (m_CalendarComponents k).

Definition CComponents_aligned (c : CComponents D) : Prop :=
  match m_Seasonal c with Some s => CSeasonal_aligned s | None => True end
  /\ match m_Calendar c with Some k => CCalendar_aligned k | None => True end.

End StoreInvariants.

(** ** The features of the calendar components *)

Section FeatureDefs.
Context {D : Type} `{DoubleMath D} `{CBasicStatistics D} `{CComponentTypes D}.




End FeatureDefs.

(** ** What the change point test keeps *)

Section ChangePointTestInvariants.
Context {D : Type} `{DoubleMath D} `{CBasicStatistics D} `{!CChangePointTypes D}.

(** The window is a circular buffer of [windowSize()] buckets while the
    test runs, and empty once the test is disabled. *)
Definition CChangePointTest_window_invariant (t : CChangePointTest D) : Prop :=
  match cd_Machine t with
  | CD_TEST => length (m_Window t) = windowSize t
  | CD_NOT_TESTING => m_Window t = []
  | CD_ERROR => False
  end.

End ChangePointTestInvariants.

(** ** What the seasonality test keeps *)

(** The longest job bucket which a window has parameters for. *)
Definition longestBucket (window : ETest) : TTime :=
  match window with
  | E_Short => 86400
  | E_Long => 604800
  end.

Section SeasonalityTestInvariant.
Context {D : Type} `{DoubleMath D} `{CBasicStatistics D} `{!CComponentTypes D}
  `{!CExpandingWindowTypes D}.

(** The states which the constructor and the operations that change the
    test give. *)
Inductive PT_reachable : CSeasonalityTest D -> Prop :=
  | PT_reachable_new (decayRate : D) (bucketLength : TTime) :
      PT_reachable (CSeasonalityTest_new decayRate bucketLength)
  | PT_reachable_SAddValue (message : SAddValue D)
      (makeTest : CExpandingWindow -> TTime -> nat -> D -> CSeasonalDecomposition D)
      (t : CSeasonalityTest D) :
      PT_reachable t ->
      PT_reachable (CSeasonalityTest_handle_SAddValue message makeTest t)
  | PT_reachable_SDetectedTrend (predictor : TTime -> D) (t : CSeasonalityTest D) :
      PT_reachable t ->
      PT_reachable (CSeasonalityTest_handle_SDetectedTrend predictor t)
  | PT_reachable_apply (symbol : PT_Symbol) (message : SMessage)
      (t : CSeasonalityTest D) :
      PT_reachable t -> PT_reachable (CSeasonalityTest_apply symbol message t)
  | PT_reachable_shiftTime (time shift : TTime) (t : CSeasonalityTest D) :
      PT_reachable t -> PT_reachable (CSeasonalityTest_shiftTime time shift t)
  | PT_reachable_propagateForwards (start end_ : TTime) (t : CSeasonalityTest D) :
      PT_reachable t ->
      PT_reachable (CSeasonalityTest_propagateForwards start end_ t).

(** Whether a window is there. *)
Definition has_window (window : option CExpandingWindow) : bool :=
  match window with
  | Some _ => true
  | None => false
  end.

(** The windows are the ones [initialize] gives: the long one, and the
    short one for buckets of at most a day. *)
Definition windows_initialized (t : CSeasonalityTest D) : Prop :=
  has_window (m_LongWindow t) = true
  /\ has_window (m_ShortWindow t) = (pt_BucketLength t <=? 86400).

Definition CSeasonalityTest_invariant (t : CSeasonalityTest D) : Prop :=
  match pt_Machine t with
  | PT_INITIAL =>
      pt_BucketLength t <= 604800
      /\ ((has_window (m_ShortWindow t) = false
           /\ has_window (m_LongWindow t) = false)
          \/ windows_initialized t)
  | PT_TEST => pt_BucketLength t <= 604800 /\ windows_initialized t
  | PT_NOT_TESTING =>
      604800 < pt_BucketLength t
      /\ has_window (m_ShortWindow t) = false
      /\ has_window (m_LongWindow t) = false
  | PT_ERROR => False
  end.

(** The parts of a test which its invariant reads. *)
Definition shape (t : CSeasonalityTest D) : PT_State * TTime * bool * bool :=
  (pt_Machine t, pt_BucketLength t, has_window (m_ShortWindow t),
   has_window (m_LongWindow t)).

End SeasonalityTestInvariant.

(** The keys of a [flat_map] are in their strict order. *)
Definition fm_sorted {T : Type} (m : list (TTimeTimePr * T)) : Prop :=
  StronglySorted (fun a b => window_ltb a.1 b.1 = true) m.

Section PruneDefs.
Context {D : Type} `{DoubleMath D} `{CBasicStatistics D} `{CComponentTypes D}.

(** How many of the components which are not flagged are windowed
    components of the window [window]. *)
Definition in_window_count (window : TTimeTimePr) (flags : list bool)
    (components : list CSeasonalComponent) : nat :=
  length (List.filter
            (fun p : bool * CSeasonalComponent =>
               negb p.1 && sc_windowed p.2 && window_eqb (sc_window p.2) window)
            (zip flags components)).

End PruneDefs.

(** ** The sizes of the components *)

Section SizeDefs.
Context {D : Type} `{DoubleMath D} `{CBasicStatistics D} `{CComponentTypes D}.

(** The sizes of the seasonal and of the calendar components of the store
    add up to at most [seasonal] and [calendar], and the store makes its
    seasonal and calendar components with the sizes [seasonalSize] and
    [calendarSize]. *)
Definition sizes_within (seasonal calendar seasonalSize calendarSize : nat)
    (c : CComponents D) : Prop :=
  (sum_list_with sc_size (seasonalComponents c) <= seasonal)%nat
  /\ (sum_list_with cc_size (calendarComponents c) <= calendar)%nat
  /\ m_SeasonalComponentSize c = seasonalSize
  /\ m_CalendarComponentSize c = calendarSize.

End SizeDefs.

(** ** Concrete inputs

    States and messages on which the embedded functions are run below, built
    with the reference implementations of the collaborators. *)

Module Inputs.
Import Reference.

(** The error statistics of a component after 168 hourly observations of
    weight one: each with the error 1 against the trend alone, the error 2
    with the component, whose prediction was 1, and twice the expected share
    of the variance. *)
Definition errors_after_a_week {D : Type} `{Double D} `{DoubleLimits D}
    : CComponentErrors D :=
  Nat.iter 168
    (CComponentErrors_add (of_TTime 1) (of_TTime 2) (of_TTime 1) (of_TTime 2)
                          (of_TTime 1))
    CComponentErrors_new.

(** A change point test for hourly buckets which ran its last formal test
    at time 0, found no change, and has neither a candidate nor a change to
    undo. *)
Definition tested_at_0 {D : Type} `{Double D} `{DoubleLimits D}
    : CChangePointTest D :=
  set_m_LastTestTime 0 (CChangePointTest_new (lit 1 100) HOUR).

(** Two occupancies which are doubles: [15/16 - 2^-20] and [15/16 - 2^-17]. *)
Definition occupancy_a {D : Type} `{Double D} : D := lit 983039 1048576.
Definition occupancy_b {D : Type} `{Double D} : D := lit 122879 131072.

(** A message at [time], one hourly bucket after the last, with memory to
    allocate. *)
Definition message_at (time : TTime) : SMessage :=
  {| s_Time := time; s_LastTime := time - HOUR; s_AllocationsAllowed := true |}.

(** The observation of [value] at [time], with weight one and nothing
    predicted. *)
Definition observation {D : Type} `{Double D} (time : TTime) (value : D)
    : SAddValue D :=
  {| s_Message := message_at time; s_TimeShift := 0; s_Value := value;
     s_Count := of_TTime 1; s_CountForUpdate := of_TTime 1;
     s_Occupancy := of_TTime 1; s_FirstValueTime := 0;
     s_Trend := of_TTime 0; s_Seasonal := of_TTime 0;
     s_Calendar := of_TTime 0 |}.

(** A new store for hourly buckets, with 36 buckets to a seasonal component
    and 12 to a calendar component. *)
Definition hourly_store : CComponents float :=
  CComponents_new (lit 1 100) HOUR 36.

(** The store after the calendar test has detected the first [n] days of
    the month as features, one after the other. *)
Definition with_calendar_features (n : nat) : CComponents float :=
  fold_left (fun (c : CComponents float) feature =>
               handle_SDetectedCalendar (message_at 0) feature 0 c)
            (map Z.of_nat (seq 0 n)) hourly_store.

(** A daily component of 36 buckets, and the proposal to add it to a store
    with no seasonal component, with a day of hourly values 1. *)
Definition daily : CNewSeasonalComponent float :=
  {| createSeasonalComponent := fun decayRate bucketLength : float =>
       {| r_period := DAY; r_windowStart := 0; r_windowEnd := WEEK;
          r_windowRepeat := WEEK; r_decayRate := decayRate; r_size := 36;
          r_level := 1%float;
          r_slope := 0%float; r_bad := false; r_initialized := true;
          r_interpolated := 0 |};
     annotationText := "daily" |}.

Definition daily_proposal : CSeasonalDecomposition float :=
  {| seasonalToRemoveMask := []; seasonal := [daily];
     initialValuesStartTime := 0; initialValuesEndTime := DAY;
     trendBucketLength := HOUR;
     initialValues := replicate 24 (mean_add 1%float 1%float mean_new);
     withinBucketVariance := 0%float |}.

Definition daily_store : CComponents float :=
  handle_SDetectedSeasonal (message_at DAY) daily_proposal hourly_store.

(** A proposal made for a store with two seasonal components: it keeps the
    first, removes the second and adds a daily one. *)
Definition stale_proposal : CSeasonalDecomposition float :=
  {| seasonalToRemoveMask := [false; true]; seasonal := [daily];
     initialValuesStartTime := DAY; initialValuesEndTime := 2 * DAY;
     trendBucketLength := HOUR;
     initialValues := replicate 24 (mean_add 1%float 1%float mean_new);
     withinBucketVariance := 0%float |}.

(** A calendar test for hourly buckets whose inner test finds the first and
    the fifteenth day of the month. *)
Definition found_features : list (CCalendarFeature (D:=float) * TTime) :=
  [(0, 0); (14, HOUR)].

Definition new_calendar_test : CCalendarTest float :=
  CCalendarTest_new (CCalendarTestTypes0 := calendarTest found_features)
                    (lit 1 100) HOUR.

(** The calendar test after its first observation, at time 0. *)
Definition calendar_test_in_test : CCalendarTest float :=
  CCalendarTest_handle_SAddValue (observation 0 1%float) new_calendar_test.

(** A change point test over the real numbers after one observation. *)
Definition change_point_test_after_one : CChangePointTest R :=
  CChangePointTest_handle_SAddValue (observation HOUR 1%R) false
    (fun _ _ => 0%R) (CChangePointTest_new (1 / 100)%R HOUR).

(** The twenty-fifth day of the month. *)
Definition day_25 : CCalendarFeature (D:=float) := 24.

(** A seasonal component of the given period in the window of the whole
    week, and a store of three of them: a daily one with the errors of a
    week, one of two days with no errors yet, and a weekly one. *)
Definition component_of_period (period : TTime)
    : CSeasonalComponent (D:=float) :=
  {| r_period := period; r_windowStart := 0; r_windowEnd := WEEK;
     r_windowRepeat := WEEK; r_decayRate := lit 1 100; r_size := 36;
     r_level := 1%float; r_slope := 0%float; r_bad := false;
     r_initialized := true; r_interpolated := 0 |}.

Definition three_seasonal : CSeasonal float :=
  {| m_Components :=
       [component_of_period DAY; component_of_period (2 * DAY);
        component_of_period WEEK];
     m_PredictionErrors :=
       [errors_after_a_week; CComponentErrors_new; errors_after_a_week] |}.

(** A component of two days which has picked up a value that is not
    finite, and the store of three components with it in the middle. *)
Definition bad_component : CSeasonalComponent (D:=float) :=
  {| r_period := 2 * DAY; r_windowStart := 0; r_windowEnd := WEEK;
     r_windowRepeat := WEEK; r_decayRate := (lit 1 100 : float); r_size := 36;
     r_level := 1%float; r_slope := 0%float; r_bad := true;
     r_initialized := true; r_interpolated := 0 |}.

Definition seasonal_with_bad : CSeasonal float :=
  {| m_Components :=
       [component_of_period DAY; bad_component; component_of_period WEEK];
     m_PredictionErrors :=
       [errors_after_a_week; CComponentErrors_new; errors_after_a_week] |}.

(** Two calendar components, for the first and the fifteenth day of the
    month: the first with the errors of a week, the second with none. *)
Definition calendar_component (feature : CCalendarFeature (D:=float))
    : CCalendarComponent (D:=float) :=
  cc_make feature 0 12 (lit 1 100) (of_TTime HOUR).

Definition calendar_of_two : CCalendar float :=
  {| m_CalendarComponents := [calendar_component 0; calendar_component 14];
     m_CalendarPredictionErrors := [errors_after_a_week; CComponentErrors_new] |}.

(** A seasonality test for hourly buckets, and a test for seasonality
    which proposes the daily component whatever the window holds. *)
Definition new_seasonality_test : CSeasonalityTest float :=
  CSeasonalityTest_new (lit 1 100) HOUR.

Definition propose_daily (window : CExpandingWindow (D:=float))
    (minimumPeriod : TTime) (minimumResolution : nat) (occupancy : float)
    : CSeasonalDecomposition float :=
  daily_proposal.

(** The seasonality test after its first observation, at time 0. *)
Definition seasonality_test_after_one : CSeasonalityTest float :=
  CSeasonalityTest_handle_SAddValue (observation 0 1%float) propose_daily
                                    new_seasonality_test.

(** The hourly store with the three seasonal components, and a proposal
    for it which removes the second and adds a daily one. *)
Definition store_of_three : CComponents float :=
  set_Seasonal (Some three_seasonal) hourly_store.

Definition proposal_for_three : CSeasonalDecomposition float :=
  {| seasonalToRemoveMask := [false; true; false]; seasonal := [daily];
     initialValuesStartTime := DAY; initialValuesEndTime := 2 * DAY;
     trendBucketLength := HOUR;
     initialValues := replicate 24 (mean_add 1%float 1%float mean_new);
     withinBucketVariance := 0%float |}.

(** Daily components of the weekend and of the weekdays, each with the
    errors of a week, in one store. *)
Definition weekend_component : CSeasonalComponent (D:=float) :=
  {| r_period := DAY; r_windowStart := 0; r_windowEnd := 2 * DAY;
     r_windowRepeat := WEEK; r_decayRate := (lit 1 100 : float); r_size := 36;
     r_level := 1%float; r_slope := 0%float; r_bad := false;
     r_initialized := true; r_interpolated := 0 |}.

Definition weekday_component : CSeasonalComponent (D:=float) :=
  {| r_period := DAY; r_windowStart := 2 * DAY; r_windowEnd := WEEK;
     r_windowRepeat := WEEK; r_decayRate := (lit 1 100 : float); r_size := 36;
     r_level := 1%float; r_slope := 0%float; r_bad := false;
     r_initialized := true; r_interpolated := 0 |}.

Definition weekend_and_weekdays : CSeasonal float :=
  {| m_Components := [weekend_component; weekday_component];
     m_PredictionErrors := [errors_after_a_week; errors_after_a_week] |}.

(** The prediction errors of a week aged at the rate 1/100, in IEEE
    doubles: over the legs (0, 90000) and (90000, 200000), and over
    (0, 200000). *)
Definition age_errors (time : float)
    : CComponentErrors float -> CComponentErrors float :=
  CComponentErrors_age (dexp (- lit 1 100 * time)%D).

Definition aged_in_two_legs : CComponentErrors float :=
  stepwisePropagateForwards 90000 200000 DAY age_errors
    (stepwisePropagateForwards 0 90000 DAY age_errors errors_after_a_week).

Definition aged_in_one_leg : CComponentErrors float :=
  stepwisePropagateForwards 0 200000 DAY age_errors errors_after_a_week.

(** A change point test for hourly buckets, in IEEE doubles, after the
    hourly observations 1 up to the hour [n] after time 0, and a predictor
    of the value 0. *)
Definition predict_zero (changes : list (CDOutput float)) (time : TTime)
    : float := 0%float.

Definition change_point_test_after (n : nat) : CChangePointTest float :=
  fold_left (fun (t : CChangePointTest float) hour =>
               CChangePointTest_handle_SAddValue
                 (observation (Z.of_nat hour * HOUR) 1%float) false
                 predict_zero t)
            (seq 1 n) (CChangePointTest_new (lit 1 100) HOUR).

(** The proposal of nine daily components at once. *)
Definition nine_daily_proposal : CSeasonalDecomposition float :=
  {| seasonalToRemoveMask := []; seasonal := replicate 9 daily;
     initialValuesStartTime := 0; initialValuesEndTime := DAY;
     trendBucketLength := HOUR;
     initialValues := replicate 24 (mean_add 1%float 1%float mean_new);
     withinBucketVariance := 0%float |}.

End Inputs.

(** * Proofs *)

#[local] Arguments vset : simpl never.
#[local] Arguments vget : simpl never.

(** ** Loops *)

Lemma for_loop_S {S : Type} (lo n : nat) (body : nat -> S -> S) (s : S) :
  for_loop lo (Datatypes.S n) body s = for_loop (Datatypes.S lo) n body (body lo s).
Proof. reflexivity. Qed.

Lemma for_loop_invariant {S : Type} (P : S -> Prop) (body : nat -> S -> S)
    (n lo : nat) (s : S) :
  P s -> (forall i s, P s -> P (body i s)) -> P (for_loop lo n body s).
Proof.
  revert lo s. induction n as [|n IH]; intros lo s Hs Hbody; simpl; [exact Hs|].
  apply IH; [apply Hbody, Hs|exact Hbody].
Qed.

Section DecomposeProofs.
Context {D : Type} `{DoubleMath D} `{CBasicStatistics D} `{CComponentTypes D}.

Lemma for_loop_ext {S : Type} (body body' : nat -> S -> S) (n lo : nat) (s : S) :
  (forall i s, (lo <= i < lo + n)%nat -> body i s = body' i s) ->
  for_loop lo n body s = for_loop lo n body' s.
Proof.
  revert lo s. induction n as [|n IH]; intros lo s Hext; simpl; [reflexivity|].
  rewrite Hext by lia. apply IH. intros i s' Hi. apply Hext. lia.
Qed.

Lemma vget_middle (pre post : list D) (v : D) :
  vget (pre ++ v :: post) (length pre) = v.
Proof. unfold vget. by rewrite list_lookup_middle. Qed.

Lemma vset_middle (pre post : list D) (old v : D) :
  vset (pre ++ old :: post) (length pre) v = pre ++ v :: post.
Proof.
  unfold vset. rewrite insert_app_r_alt by lia.
  by rewrite Nat.sub_diag.
Qed.

(** The loops which read the components' values into [x] and sum them. *)
Lemma read_loop (look : nat -> option D) (vals pre post : list D) (xhat : D) :
  (forall j, look (length pre + j)%nat = vals !! j) ->
  for_loop (length pre) (length vals)
    (fun i '(x, xhat) =>
       match look i with
       | Some v => let x := vset x i v in (x, (xhat + vget x i)%D)
       | None => (x, xhat)
       end)
    (pre ++ replicate (length vals) (of_TTime 0) ++ post, xhat)
  = (pre ++ vals ++ post, fold_left dadd vals xhat).
Proof.
  revert pre xhat. induction vals as [|v vals IH]; intros pre xhat Hlook.
  - reflexivity.
  - simpl. specialize (Hlook 0%nat) as Hhead. rewrite Nat.add_0_r in Hhead.
    rewrite Hhead. simpl.
    rewrite vset_middle, vget_middle.
    specialize (IH (pre ++ [v]) (xhat + v)%D).
    rewrite length_app in IH. simpl in IH. rewrite Nat.add_1_r in IH.
    rewrite <- !app_assoc in IH. simpl in IH.
    apply IH. intros j. specialize (Hlook (S j)). simpl in Hlook.
    rewrite <- Hlook. f_equal. lia.
Qed.

(** The loops which write the decomposition, one position above the
    component's. *)
Lemma write_loop {P : Type} (look : nat -> option (P -> P * (D -> D)))
    (news pre post : list D) (head value : D) (p : P) :
  (forall j, (j < length news)%nat ->
     exists u, look (length pre + j)%nat = Some u
               /\ forall p, Some ((u p).2 value) = news !! j) ->
  (for_loop (length pre) (length news)
     (fun i '(p, d) =>
        match look i with
        | Some u => ((u p).1, vset d (i + 1) ((u p).2 (vget d (i + 1))))
        | None => (p, d)
        end)
     (p, head :: pre ++ replicate (length news) value ++ post)).2
  = head :: pre ++ news ++ post.
Proof.
  revert pre p. induction news as [|v news IH]; intros pre p Hlook.
  - reflexivity.
  - simpl. destruct (Hlook 0%nat) as (u & Hu & Hv); [simpl; lia|].
    rewrite Nat.add_0_r in Hu. rewrite Hu.
    specialize (Hv p). simpl in Hv. injection Hv as Hv.
    replace (length pre + 1)%nat with (length (head :: pre)) by (simpl; lia).
    rewrite (app_comm_cons pre), vget_middle, vset_middle. simpl.
    specialize (IH (pre ++ [v]) (u p).1).
    rewrite length_app in IH. simpl in IH. rewrite Nat.add_1_r in IH.
    rewrite <- !app_assoc in IH. simpl in IH. rewrite Hv.
    apply IH. intros j Hj. destruct (Hlook (S j)) as (u' & Hu' & Hv'); [simpl; lia|].
    exists u'. split; [|exact Hv'].
    rewrite <- Hu'. f_equal. lia.
Qed.


Lemma decompose_closed_form (trend : D) (seasonal : list CSeasonalComponent)
    (calendar : list CCalendarComponent) (time : TTime) (deltas : list D)
    (gain value : D) :
  length deltas = length seasonal ->
  let m := length seasonal in
  let n := length calendar in
  let seasonal_x := map (fun c => sc_value_mean c time) seasonal in
  let calendar_x := map (fun c => cc_value_mean c time) calendar in
  let r := decompose trend seasonal calendar time deltas gain
             (replicate (m + n + 1) value) (replicate (m + n) (of_TTime 0)) in
  d_decomposition r = spec_values value trend seasonal_x calendar_x deltas gain
  /\ d_error r = (value - spec_x_hat trend (seasonal_x ++ calendar_x))%D
  /\ d_referenceError r = (value - trend)%D
  /\ d_scale r = (spec_Z m n gain / of_size (m + n + 1))%D.
Proof.
  intros Hdeltas m n seasonal_x calendar_x.
  assert (Hm : length seasonal_x = m) by apply length_map.
  assert (Hn : length calendar_x = n) by apply length_map.
  set (zero := of_TTime 0 : D).
  (* the two loops which read the values *)
  assert (L1 : for_loop 0 m
            (fun i '(x, xhat) =>
               match seasonal !! i with
               | Some c => let x := vset x i (sc_value_mean c time) in
                           (x, (xhat + vget x i)%D)
               | None => (x, xhat)
               end) (replicate (m + n) zero, trend)
          = (seasonal_x ++ replicate n zero, fold_left dadd seasonal_x trend)).
  { rewrite replicate_add, <- Hm.
    etransitivity;
      [|apply (read_loop (fun i => (fun c => sc_value_mean c time) <$> seasonal !! i)
                 seasonal_x [] (replicate n zero) trend)].
    - apply for_loop_ext. intros i [x xhat] _. by destruct (seasonal !! i).
    - intros j. simpl. unfold seasonal_x. by rewrite list_lookup_fmap. }
  assert (L2 : forall xhat, for_loop m n
            (fun i '(x, xhat) =>
               match calendar !! (i - m)%nat with
               | Some c => let x := vset x i (cc_value_mean c time) in
                           (x, (xhat + vget x i)%D)
               | None => (x, xhat)
               end) (seasonal_x ++ replicate n zero, xhat)
          = (seasonal_x ++ calendar_x, fold_left dadd calendar_x xhat)).
  { intros xhat.
    pose proof (read_loop
                  (fun i => (fun c => cc_value_mean c time) <$> calendar !! (i - m)%nat)
                  calendar_x seasonal_x [] xhat) as R.
    rewrite !app_nil_r, Hm, Hn in R.
    etransitivity; [|apply R].
    - apply for_loop_ext. intros i [x xhat'] _. by destruct (calendar !! (i - m)%nat).
    - intros j. replace (m + j - m)%nat with j by lia.
      unfold calendar_x. by rewrite list_lookup_fmap. }
  cbv zeta in L1, L2.
  assert (Hhead : vget (replicate (m + n + 1) value) 0 = value)
    by (rewrite Nat.add_1_r; reflexivity).
  unfold decompose. cbv zeta. fold m n zero. rewrite L1, L2, Hhead.
  clear L1 L2 Hhead.
  set (x := seasonal_x ++ calendar_x).
  set (xhat := fold_left dadd calendar_x (fold_left dadd seasonal_x trend)).
  assert (Hxhat : xhat = spec_x_hat trend x).
  { unfold xhat, spec_x_hat, x. by rewrite fold_left_app. }
  set (Z := dmax (of_size (m + n + 1) / gain)%D (of_TTime 1)).
  set (seasonal_new :=
         zip_with (fun x_i delta => (x_i + (value - xhat) / Z + delta)%D)
                  seasonal_x deltas).
  set (calendar_new := map (fun x_i => (x_i + (value - xhat) / Z)%D) calendar_x).
  assert (Hsn : length seasonal_new = m).
  { unfold seasonal_new. rewrite length_zip_with. lia. }
  assert (Hcn : length calendar_new = n) by (unfold calendar_new; by rewrite length_map).
  set (head := (trend + (value - xhat) / Z)%D).
  assert (Hinit : vset (replicate (m + n + 1) value) 0 head
                  = head :: replicate m value ++ replicate n value).
  { rewrite Nat.add_1_r. simpl. by rewrite replicate_add. }
  rewrite Hinit.
  (* the loop over the seasonal components *)
  destruct (for_loop 0 m _ (replicate (m + n) zero, _)) as [p3 d3] eqn:E3.
  assert (Hd3 : d3 = head :: seasonal_new ++ replicate n value).
  { change d3 with (p3, d3).2. rewrite <- E3.
    pose proof (write_loop
      (fun i => (fun c (p : list D) =>
                   (vset p i (vget x i - sc_meanValue c)%D,
                    fun old => (vget x i + (old - xhat) / Z + vget deltas i)%D))
                <$> seasonal !! i)
      seasonal_new [] (replicate n value) head value (replicate (m + n) zero)) as W.
    rewrite Hsn in W. simpl in W. rewrite <- W.
    - f_equal. apply for_loop_ext. intros i [p d] _. by destruct (seasonal !! i).
    - intros j Hj.
      destruct (lookup_lt_is_Some_2 seasonal j) as [c Hc]; [by fold m|].
      destruct (lookup_lt_is_Some_2 deltas j) as [delta Hdelta]; [lia|].
      assert (Hxj : seasonal_x !! j = Some (sc_value_mean c time))
        by (unfold seasonal_x; by rewrite list_lookup_fmap, Hc).
      assert (Hvx : vget x j = sc_value_mean c time)
        by (unfold vget, x; rewrite lookup_app_l by lia; by rewrite Hxj).
      assert (Hvd : vget deltas j = delta) by (unfold vget; by rewrite Hdelta).
      rewrite Hc. eexists. split; [reflexivity|]. intros p. simpl.
      unfold seasonal_new. rewrite lookup_zip_with, Hxj, Hdelta, Hvx, Hvd.
      reflexivity. }
  subst d3.
  (* the loop over the calendar components *)
  destruct (for_loop m n _ (p3, _)) as [p4 d4] eqn:E4.
  assert (Hd4 : d4 = head :: seasonal_new ++ calendar_new).
  { change d4 with (p4, d4).2. rewrite <- E4.
    pose proof (write_loop
      (fun i => (fun c (p : list D) =>
                   (vset p i (vget x i - cc_meanValue c)%D,
                    fun old => (vget x i + (old - xhat) / Z)%D))
                <$> calendar !! (i - m)%nat)
      calendar_new seasonal_new [] head value p3) as W.
    rewrite !app_nil_r, Hsn, Hcn in W. rewrite <- W.
    - f_equal. apply for_loop_ext. intros i [p d] _.
      by destruct (calendar !! (i - m)%nat).
    - intros j Hj. replace (m + j - m)%nat with j by lia.
      destruct (lookup_lt_is_Some_2 calendar j) as [c Hc]; [by fold n|].
      assert (Hxj : calendar_x !! j = Some (cc_value_mean c time))
        by (unfold calendar_x; by rewrite list_lookup_fmap, Hc).
      assert (Hvx : vget x (m + j) = cc_value_mean c time).
      { unfold vget, x. rewrite lookup_app_r by lia. rewrite Hm.
        replace (m + j - m)%nat with j by lia. by rewrite Hxj. }
      rewrite Hc. eexists. split; [reflexivity|]. intros p. simpl.
      unfold calendar_new. rewrite list_lookup_fmap, Hxj, Hvx.
      reflexivity. }
  subst d4. simpl.
  unfold spec_values, spec_Z. cbv zeta. subst x. rewrite Hm, Hn, <- Hxhat.
  repeat split; reflexivity.
Qed.



(** [componentsErrorsAndDeltas] returns one delta for each active
    component. *)
Lemma componentsErrorsAndDeltas_length (time : TTime) (s : CSeasonal D) :
  length (CSeasonal_componentsErrorsAndDeltas time s).2
  = length (CSeasonal_componentsErrorsAndDeltas time s).1.1.
Proof.
  unfold CSeasonal_componentsErrorsAndDeltas. cbv zeta. simpl.
  match goal with
  | |- length (for_loop _ _ _ (replicate ?n _)) = _ =>
      apply (for_loop_invariant (fun deltas => length deltas = n))
  end.
  - apply length_replicate.
  - intros i deltas Hlen.
    destruct (_ !! i) as [ci|]; [|exact Hlen].
    destruct (find_subharmonic _ _ _) as [[j cj]|]; [|exact Hlen].
    unfold vset. by rewrite !length_insert.
Qed.

Lemma seasonalDeltas_length (time : TTime) (c : CComponents D) :
  length (seasonalDeltas time c) = length (activeSeasonalComponents time c).
Proof.
  unfold seasonalDeltas, activeSeasonalComponents.
  destruct (m_Seasonal c) as [s|]; [|reflexivity].
  apply componentsErrorsAndDeltas_length.
Qed.

(** C1.  For every observation the store handles, with [m] active seasonal
    and [n] active calendar components, the values which [decompose] leaves
    for the trend and the components are [trend_x + (value - x_hat)/Z] for
    the trend, [x_i + (value - x_hat)/Z + deltas[i]] for the seasonal
    component [i] and [x_i + (value - x_hat)/Z] for a calendar component,
    where [Z = max((m+n+1)/gain, 1)] and [x_hat] is [trend_x] plus the sum of
    the component means at the time; and [error = value - x_hat],
    [reference_error = value - trend_x], [scale = Z/(m+n+1)].  This holds
    for every implementation of [double]. *)
Theorem decompose_update_values (message : SAddValue D) (c : CComponents D) :
  let time := s_Time (s_Message message) in
  let value := s_Value message in
  let trend_x := s_Trend message in
  let seasonal_x :=
    map (fun component => sc_value_mean component time)
        (activeSeasonalComponents time c) in
  let calendar_x :=
    map (fun component => cc_value_mean component time)
        (activeCalendarComponents time c) in
  let m := length seasonal_x in
  let n := length calendar_x in
  let x_hat := spec_x_hat trend_x (seasonal_x ++ calendar_x) in
  let Z := spec_Z m n (gain (m_GainController c)) in
  let r := handle_SAddValue_decompose message c in
  d_decomposition r
  = spec_values value trend_x seasonal_x calendar_x (seasonalDeltas time c)
                (gain (m_GainController c))
  /\ d_error r = (value - x_hat)%D
  /\ d_referenceError r = (value - trend_x)%D
  /\ d_scale r = (Z / of_size (m + n + 1))%D.
Proof.
  intros time value trend_x seasonal_x calendar_x m n x_hat Z r.
  pose proof (seasonalDeltas_length time c) as Hdeltas.
  pose proof (decompose_closed_form trend_x (activeSeasonalComponents time c)
                (activeCalendarComponents time c) time (seasonalDeltas time c)
                (gain (m_GainController c)) value Hdeltas) as Hclosed.
  cbv zeta in Hclosed.
  assert (Hr : r = decompose trend_x (activeSeasonalComponents time c)
                     (activeCalendarComponents time c) time (seasonalDeltas time c)
                     (gain (m_GainController c))
                     (replicate (length (activeSeasonalComponents time c)
                                 + length (activeCalendarComponents time c) + 1) value)
                     (replicate (length (activeSeasonalComponents time c)
                                 + length (activeCalendarComponents time c))
                                (of_TTime 0))).
  { unfold r, handle_SAddValue_decompose, activeSeasonalComponents,
      activeCalendarComponents, seasonalDeltas.
    fold time value trend_x.
    destruct (m_Seasonal c) as [s|], (m_Calendar c) as [k|]; simpl;
      repeat match goal with
             | |- context [CSeasonal_componentsErrorsAndDeltas ?t ?s] =>
                 destruct (CSeasonal_componentsErrorsAndDeltas t s) as [[? ?] ?]
             | |- context [CCalendar_componentsAndErrors ?t ?k] =>
                 destruct (CCalendar_componentsAndErrors t k) as [? ?]
             end; reflexivity. }
  rewrite Hr. unfold Z, x_hat, m, n, seasonal_x, calendar_x.
  rewrite !length_map. exact Hclosed.
Qed.

(** The values of C1 by position: [values[0]], [values[i+1]] for a seasonal
    component and [values[m+j+1]] for a calendar component. *)
Lemma spec_values_lookup (value trend_x : D) (seasonal_x calendar_x deltas : list D)
    (gain : D) :
  length deltas = length seasonal_x ->
  let m := length seasonal_x in
  let x_hat := spec_x_hat trend_x (seasonal_x ++ calendar_x) in
  let Z := spec_Z m (length calendar_x) gain in
  let values := spec_values value trend_x seasonal_x calendar_x deltas gain in
  values !! 0%nat = Some (trend_x + (value - x_hat) / Z)%D
  /\ (forall i x_i delta, seasonal_x !! i = Some x_i -> deltas !! i = Some delta ->
        values !! (i + 1)%nat = Some (x_i + (value - x_hat) / Z + delta)%D)
  /\ (forall j x_j, calendar_x !! j = Some x_j ->
        values !! (m + j + 1)%nat = Some (x_j + (value - x_hat) / Z)%D).
Proof.
  intros Hdeltas m x_hat Z values. unfold values, spec_values. cbv zeta.
  fold m x_hat Z. split; [reflexivity|]. split.
  - intros i x_i delta Hx Hd. rewrite Nat.add_1_r. simpl.
    rewrite lookup_app_l by (rewrite length_zip_with; apply lookup_lt_Some in Hx, Hd; lia).
    by rewrite lookup_zip_with, Hx, Hd.
  - intros j x_j Hx. rewrite Nat.add_1_r. simpl.
    rewrite lookup_app_r by (rewrite length_zip_with; lia).
    rewrite length_zip_with, Hdeltas, Nat.min_id.
    replace (m + j - length seasonal_x)%nat with j by (unfold m; lia).
    by rewrite list_lookup_fmap, Hx.
Qed.

End DecomposeProofs.

(** ** The removal test of the error statistics (C4) *)

Section RemoveProofs.
Context {D : Type} `{Double D} `{CBasicStatistics D}.

(** C4, amended.  [remove(bucket_len, period)] returns true exactly when
    the history (error count times bucket length) is more than one week and
    the mean squared error with the component exceeds the one with no
    components, or the history is more than 5 periods and the maximum
    variance increase is less than 1.2 and the mean squared error without the
    component is at most the one with it. *)
Theorem remove_iff_longer_history (bucket_len period : TTime)
    (e : CComponentErrors D) :
  let mse := vmean_mean (m_MeanErrors e) in
  CComponentErrors_remove bucket_len period e = true
  <-> (dlt (of_TTime WEEK) (history bucket_len e) /\ dlt (vec0 mse) (vec1 mse))
      \/ (dlt (of_TTime 5 * of_TTime period)%D (history bucket_len e)
          /\ dlt (max_get0 (m_MaxVarianceIncrease e)) (lit 12 10)
          /\ dle (vec2 mse) (vec1 mse)).
Proof.
  intros mse. unfold CComponentErrors_remove, history, dlt, dle, dgtb.
  fold mse. rewrite orb_true_iff, !andb_true_iff.
  tauto.
Qed.

End RemoveProofs.

(** C4 as stated fails where the history is exactly one week: after 168
    hourly observations the component's error exceeds the error with no
    components, so by the statement the component is removed, and the source
    keeps it.  Both in IEEE doubles and in exact arithmetic; the counts and
    the mean errors [(1, 4, 9)] are whole numbers, which the single
    precision storage of the accumulator holds exactly as well. *)
Lemma remove_at_one_week_of_history :
  (history HOUR (Inputs.errors_after_a_week (D:=float)) = of_TTime WEEK
   /\ CComponentErrors_remove HOUR DAY (Inputs.errors_after_a_week (D:=float)) = false
   /\ spec_remove HOUR DAY (Inputs.errors_after_a_week (D:=float)) = true)
  /\ (CComponentErrors_remove HOUR DAY (Inputs.errors_after_a_week (D:=Q)) = false
      /\ spec_remove HOUR DAY (Inputs.errors_after_a_week (D:=Q)) = true).
Proof. vm_compute. repeat split. Qed.

(** ** The trigger of the formal change point test (C3) *)

Lemma iceil_spec (value multiple : TTime) :
  0 < multiple ->
  (multiple | iceil value multiple)
  /\ value <= iceil value multiple < value + multiple.
Proof.
  intros Hpos. unfold iceil. split.
  - exists (- (- value / multiple)). lia.
  - pose proof (Z.mul_div_le (- value) multiple Hpos).
    pose proof (Z.mul_succ_div_gt (- value) multiple Hpos).
    lia.
Qed.

Lemma ifloor_spec (value multiple : TTime) :
  0 < multiple ->
  (multiple | ifloor value multiple)
  /\ ifloor value multiple <= value < ifloor value multiple + multiple.
Proof.
  intros Hpos. unfold ifloor. split.
  - exists (value / multiple). lia.
  - pose proof (Z.mul_div_le value multiple Hpos).
    pose proof (Z.mul_succ_div_gt value multiple Hpos).
    lia.
Qed.

Section ShouldTestProofs.
Context {D : Type} `{Double D} `{CBasicStatistics D} `{!CChangePointTypes D}.

(** [shouldTest] in the words of the specification: it returns true if and
    only if there is no
    pending undoable change and [t] is later than the last test by more than
    the minimum change length, or more than three window buckets after the
    last test and strictly between the minimum change length and the maximum
    interval to detect a change after the last candidate; where the minimum
    change length is [min(1/occupancy, 2) max(30 HOUR, 5 window_bucket_len)]
    rounded to the nearest whole second and then raised to the next multiple
    of the window bucket length, and the maximum interval is five times the
    minimum divided by three, in integers. *)
Theorem shouldTest_iff (time : TTime) (occupancy : D) (t : CChangePointTest D) :
  let window_bucket_len := windowBucketLength t in
  let minimum :=
    iceil (round_to_second
             (dmin (of_TTime 1 / occupancy) (of_TTime 2)
              * of_TTime (Z.max (30 * HOUR) (5 * window_bucket_len)))%D)
          window_bucket_len in
  let maximum := Z.quot (5 * minimum) 3 in
  minimumChangeLength occupancy t = minimum
  /\ maximumIntervalToDetectChange occupancy t = maximum
  /\ (shouldTest time occupancy t = true
      <-> m_UndoableLastChange t = None
          /\ (m_LastTestTime t + minimum < time
              \/ (m_LastTestTime t + 3 * window_bucket_len < time
                  /\ m_LastCandidateChangePointTime t + minimum < time
                     < m_LastCandidateChangePointTime t + maximum))).
Proof.
  intros window_bucket_len minimum maximum.
  assert (Hmin : minimumChangeLength occupancy t = minimum) by reflexivity.
  assert (Hmax : maximumIntervalToDetectChange occupancy t = maximum) by reflexivity.
  split; [exact Hmin|]. split; [exact Hmax|].
  unfold shouldTest. rewrite Hmin, Hmax. fold window_bucket_len.
  rewrite andb_true_iff, orb_true_iff, !andb_true_iff, !Z.ltb_lt.
  destruct (m_UndoableLastChange t) as [change|].
  - split; [intros [Habsurd _]; discriminate Habsurd|intros [Habsurd _]; discriminate Habsurd].
  - split; [intros [_ Htime]; split; [reflexivity|lia]|intros [_ Htime]; split; [reflexivity|lia]].
Qed.

End ShouldTestProofs.

(** In exact arithmetic [round_to_second] is the floor of [x + 1/2], the
    whole number nearest to [x], for [x] which is not negative. *)
Lemma round_to_second_Q (x : Q) :
  (0 <= x)%Q -> round_to_second x = Qfloor (x + (1 # 2)).
Proof.
  intros Hx.
  change (round_to_second x) with (Q_to_Z (Qred (x + Qred (1 / 2)))).
  unfold Q_to_Z.
  assert (Hpos : (0 <= Qred (x + Qred (1 / 2)))%Q).
  { rewrite !Qred_correct. apply Qle_trans with (0 + 0)%Q; [apply Qle_refl|].
    apply Qplus_le_compat; [exact Hx|discriminate]. }
  assert (Hfloor : forall q : Q, Qnum q / Z.pos (Qden q) = Qfloor q)
    by (intros [n d]; reflexivity).
  rewrite Z.quot_div_nonneg.
  - rewrite Hfloor. apply Qfloor_comp. rewrite !Qred_correct. reflexivity.
  - unfold Qle in Hpos. simpl in Hpos. lia.
  - reflexivity.
Qed.

(** The length of a change is rounded.  With hourly buckets the
    occupancy [15/16 - 2^-20] scales 30 hours to 115200.117 seconds: the
    source rounds this to 32 window buckets and tests at 115201, one second
    after them, while the length of the statement, taken as the real number
    it is, needs 33 window buckets.  With the occupancy [15/16 - 2^-17] the
    scaled length is 115200.94 seconds: the source rounds up to 115201
    seconds, hence 33 window buckets, and does not test at 115201, while
    the length of the statement cut to whole seconds is 32 window buckets.
    Both in IEEE doubles and in exact arithmetic. *)
Lemma shouldTest_rounds_the_length :
  (shouldTest (D:=float) 115201 Inputs.occupancy_a Inputs.tested_at_0 = true
   /\ shouldTest (D:=Q) 115201 Inputs.occupancy_a Inputs.tested_at_0 = true
   /\ spec_should_test false 0 TTime_min_half 3600
        (spec_minimum_change_length (983039 # 1048576) 3600) 115201 = false)
  /\ (shouldTest (D:=float) 115201 Inputs.occupancy_b Inputs.tested_at_0 = false
      /\ shouldTest (D:=Q) 115201 Inputs.occupancy_b Inputs.tested_at_0 = false
      /\ spec_should_test false 0 TTime_min_half 3600
           (spec_minimum_change_length_cast (122879 # 131072) 3600) 115201 = true).
Proof. vm_compute. repeat split. Qed.

(** ** The calls of the change point test's [apply] *)

Section ChangePointTestProofs.
Context {D : Type} `{DoubleMath D} `{CBasicStatistics D} `{!CChangePointTypes D}.

(** One call of [apply] never calls itself: the transition function leads
    to [CD_ERROR] only from [CD_ERROR]. *)
Lemma CChangePointTest_apply_fuel_enough (n : nat) (symbol : CD_Symbol)
    (t : CChangePointTest D) :
  CChangePointTest_apply_fuel (S n) symbol t
  = Some (CChangePointTest_apply symbol t).
Proof.
  unfold CChangePointTest_apply.
  destruct symbol, (cd_Machine t) eqn:Hstate; simpl; rewrite Hstate; reflexivity.
Qed.

End ChangePointTestProofs.

(** ** The adjusted count weight of the change point test (C10) *)

Ltac by_cases :=
  repeat match goal with
         | |- context [if ?b then _ else _] => destruct b
         | |- context [match ?x with _ => _ end] => destruct x
         end;
  try reflexivity.

Section CountWeightProofs.
Context `{CBasicStatistics R} `{!CChangePointTypes R}.

Lemma dmin_R (a b : R) : dmin a b = Rmin a b.
Proof.
  unfold dmin, Rmin. simpl. unfold Rltb.
  destruct (Rlt_dec b a), (Rle_dec a b); try reflexivity; lra.
Qed.

(** [updateTotalCountWeights] ends with
    [m_TotalCountWeightAdjustment = std::min(..., 0.0)]. *)
Lemma updateTotalCountWeights_nonpos (message : SAddValue R)
    (t : CChangePointTest R) :
  (m_TotalCountWeightAdjustment (updateTotalCountWeights message t) <= 0)%R.
Proof.
  unfold updateTotalCountWeights. cbv zeta.
  match goal with
  | |- context [set_m_TotalCountWeightAdjustment (dmin ?x ?z) ?t'] =>
      set (clamped := set_m_TotalCountWeightAdjustment (dmin x z) t');
      assert (Hclamped : (m_TotalCountWeightAdjustment clamped <= 0)%R)
  end.
  { unfold clamped. simpl m_TotalCountWeightAdjustment at 1.
    rewrite dmin_R. apply Rmin_r. }
  clearbody clamped.
  by_cases; exact Hclamped.
Qed.

Lemma testForCandidateChange_adjustment (message : SAddValue R)
    (t : CChangePointTest R) :
  m_TotalCountWeightAdjustment (testForCandidateChange message t)
  = m_TotalCountWeightAdjustment t.
Proof. unfold testForCandidateChange. cbv zeta. by_cases. Qed.

Lemma testUndoLastChange_adjustment (message : SAddValue R)
    (makePredictor : list (CDOutput R) -> TTime -> R) (t : CChangePointTest R) :
  m_TotalCountWeightAdjustment (testUndoLastChange message makePredictor t)
  = m_TotalCountWeightAdjustment t.
Proof. unfold testUndoLastChange. cbv zeta. by_cases. Qed.

Lemma testForChange_adjustment (message : SAddValue R) (seasonal : bool)
    (makePredictor : list (CDOutput R) -> TTime -> R) (t : CChangePointTest R) :
  m_TotalCountWeightAdjustment (testForChange message seasonal makePredictor t)
  = m_TotalCountWeightAdjustment t.
Proof. unfold testForChange. cbv zeta. by_cases. Qed.

Lemma apply_adjustment (symbol : CD_Symbol) (t : CChangePointTest R) :
  m_TotalCountWeightAdjustment (CChangePointTest_apply symbol t)
  = m_TotalCountWeightAdjustment t.
Proof.
  unfold CChangePointTest_apply. destruct symbol, (cd_Machine t) eqn:Hstate;
    simpl; rewrite Hstate; reflexivity.
Qed.

(** The adjustment of the total count weight is never positive: it starts
    at zero, a reset puts it back to zero, and the one function which moves
    it clamps it. *)
Lemma adjustment_nonpos (t : CChangePointTest R) :
  reachable t -> (m_TotalCountWeightAdjustment t <= 0)%R.
Proof.
  induction 1 as [decayRate bucketLength|message seasonal makePredictor t _ IH
                  |message t _ IH|symbol t _ IH|start end_ t _ IH].
  - simpl. lra.
  - unfold CChangePointTest_handle_SAddValue. cbv zeta.
    destruct (cd_Machine t).
    + rewrite testForChange_adjustment, testUndoLastChange_adjustment,
        testForCandidateChange_adjustment.
      apply updateTotalCountWeights_nonpos.
    + exact IH.
    + by rewrite apply_adjustment.
  - simpl. lra.
  - by rewrite apply_adjustment.
  - unfold CChangePointTest_propagateForwards, stepwisePropagateForwards.
    cbv zeta. by destruct (_ <? _).
Qed.

(** C10.  In every reachable state of the change point test, over the real
    numbers, [countWeight(time)] is [CHANGE_COUNT_WEIGHT] or lies in the
    interval [[1, 2]]; it never exceeds 2 when [CHANGE_COUNT_WEIGHT] itself
    does not, because the adjustment of the total count weight is at most
    zero in every reachable state. *)
Theorem countWeight_bounds (time : TTime) (t : CChangePointTest R) :
  reachable t ->
  (countWeight time t = CHANGE_COUNT_WEIGHT
   \/ (1 <= countWeight time t <= 2)%R)
  /\ ((CHANGE_COUNT_WEIGHT <= 2)%R -> (countWeight time t <= 2)%R).
Proof.
  intros Hreach. apply adjustment_nonpos in Hreach.
  unfold countWeight.
  destruct (_ && _).
  - split; [by left|by intros].
  - rewrite dmin_R. simpl. unfold Rmin.
    destruct (Rle_dec _ _); (split; [right; lra|intros _; lra]).
Qed.

End CountWeightProofs.

(** ** Stepwise propagation (C6) *)

Section StepwiseProofs.
Context {D : Type} `{Double D} {A : Type} (propagateForwardsByTime : D -> A -> A).

(** C6, amended.  For all times [a <= b <= c] and a positive step, the
    whole steps between the floored ends of the legs [(a, b)] and [(b, c)]
    add up to the whole steps of [(a, c)], and the stepwise propagation
    calls the callback once for a leg which has a whole step, with the
    number of its steps, and not at all for a leg which has none.  So the
    propagation over [(a, b)] and then over [(b, c)] gives the state of the
    propagation over [(a, c)] where one of the legs has no whole step; where
    both have, the state is propagated twice, by the steps of each leg.  In
    every arithmetic, that of IEEE doubles included. *)
Theorem stepwise_propagation_steps_add_up (step a b c : TTime) (x : A) :
  0 < step -> a <= b <= c ->
  let steps start end_ := (ifloor end_ step - ifloor start step) / step in
  let age n x :=
    if 0 <? n
    then propagateForwardsByTime (of_TTime (n * step) / of_TTime step)%D x
    else x in
  let propagate start end_ :=
    stepwisePropagateForwards start end_ step propagateForwardsByTime in
  (0 <= steps a b /\ 0 <= steps b c /\ steps a b + steps b c = steps a c)
  /\ propagate a c x = age (steps a c) x
  /\ propagate b c (propagate a b x) = age (steps b c) (age (steps a b) x)
  /\ (steps a b = 0 \/ steps b c = 0 ->
      propagate b c (propagate a b x) = propagate a c x).
Proof.
  intros Hstep [Hab Hbc] steps age propagate.
  assert (Hsteps : forall s e, steps s e = e / step - s / step).
  { intros s e. unfold steps, ifloor.
    rewrite <- Z.mul_sub_distr_l, Z.mul_comm. apply Z.div_mul. lia. }
  assert (Hpropagate : forall s e y, propagate s e y = age (steps s e) y).
  { intros s e y. unfold propagate, stepwisePropagateForwards, age. cbv zeta.
    rewrite Hsteps. unfold ifloor.
    destruct (Z.ltb_spec (step * (s / step)) (step * (e / step))) as [Hlt|Hge].
    - destruct (Z.ltb_spec 0 (e / step - s / step)) as [_|Hno]; [|nia].
      do 3 f_equal. lia.
    - destruct (Z.ltb_spec 0 (e / step - s / step)) as [Hyes|_]; [nia|reflexivity]. }
  pose proof (Z.div_le_mono a b step Hstep Hab) as Hdab.
  pose proof (Z.div_le_mono b c step Hstep Hbc) as Hdbc.
  split; [rewrite !Hsteps; lia|].
  split; [apply Hpropagate|].
  split; [by rewrite !Hpropagate|].
  rewrite !Hpropagate.
  assert (Hsum : steps a c = steps a b + steps b c) by (rewrite !Hsteps; lia).
  intros [Hzero|Hzero]; rewrite Hsum, Hzero; unfold age; simpl.
  - by rewrite Z.add_0_l.
  - by rewrite Z.add_0_r.
Qed.

End StepwiseProofs.

(** C6 as stated fails in IEEE doubles where both legs have a whole step.
    The prediction errors of a week, with the count 168, aged at the rate
    1/100 over the legs (0, 90000) and (90000, 200000), of one day each, and
    over (0, 200000), of two days: the count is multiplied by the rounded
    [exp(-1/100)] twice, or by the rounded [exp(-2/100)] once, and the
    products differ.  First with the exponential of the reference doubles,
    164.67337711552503 against 164.67337711554379; then with the factors
    which a correctly rounded [std::exp] returns, 164.67337711553492
    against 164.6733771155349. *)
Lemma stepwise_propagation_rounds :
  PrimFloat.eqb (vmean_count (m_MeanErrors Inputs.aged_in_two_legs))
                (vmean_count (m_MeanErrors Inputs.aged_in_one_leg)) = false
  /\ PrimFloat.eqb (168 * 0x1.fae7cfd2b9cfep-1 * 0x1.fae7cfd2b9cfep-1)%float
                   (168 * 0x1.f5dc99badec5bp-1)%float = false.
Proof. vm_compute. split; reflexivity. Qed.

(** ** The calendar test (C7, C9) *)

Section CalendarTestProofs.
Context {D : Type} `{Double D} `{CComponentTypes D} `{!CCalendarTestTypes D}.

(** One call of [apply] never calls itself: the transition function does
    not lead outside the three states. *)
Lemma CCalendarTest_apply_fuel_enough (n : nat) (symbol : CC_Symbol)
    (message : SMessage) (t : CCalendarTest D) :
  CCalendarTest_apply_fuel (S n) symbol message t
  = Some (CCalendarTest_apply symbol message t).
Proof.
  unfold CCalendarTest_apply.
  destruct symbol, (cc_Machine t) eqn:Hstate; simpl; rewrite Hstate; simpl;
    try reflexivity; by destruct (m_Test t).
Qed.

(** What [handle(const SAddValue&)] does in the state [CC_TEST]. *)
Lemma handle_SAddValue_in_test (message : SAddValue D) (t : CCalendarTest D)
    (inner : CCalendarCyclicTest) :
  cc_Machine t = CC_TEST -> m_Test t = Some inner ->
  let time := s_Time (s_Message message) in
  let t' := CCalendarTest_handle_SAddValue message t in
  cc_Machine t' = CC_TEST
  /\ is_Some (m_Test t')
  /\ (if month time =? Z.rem (m_LastMonth t + 1) 12
      then m_LastMonth t' = month time
           /\ cc_Output t' = cc_Output t
                ++ RunInnerTest :: forwardDetectedCalendar (s_Message message)
                                                            (cct_test inner)
      else m_LastMonth t' = m_LastMonth t /\ cc_Output t' = cc_Output t).
Proof.
  intros Hstate Htest time t'. unfold t', CCalendarTest_handle_SAddValue.
  simpl. unfold CCalendarTest_test, CCalendarTest_shouldTest. fold time.
  destruct (month time =? Z.rem (m_LastMonth t + 1) 12); simpl;
    rewrite Hstate, ?Htest; simpl;
    destruct (s_AllocationsAllowed (s_Message message)); simpl;
    rewrite ?Hstate, ?Htest; simpl; eauto.
Qed.

(** C7.  In the state [CC_TEST], with the last month as the test keeps it
    (not negative), the observation at [time] makes the calendar test run
    the inner test if and only if [month(time)] is
    [(m_LastMonth + 1) mod 12]; and when the inner test runs, what the
    calendar test sends out after it is exactly one [SDetectedCalendar] for
    each [(feature, timeZoneOffset)] tuple the inner test returns, in their
    order.  Otherwise it sends nothing. *)
Theorem calendar_test_runs_at_month_rollover (message : SAddValue D)
    (t : CCalendarTest D) (inner : CCalendarCyclicTest) :
  cc_Machine t = CC_TEST -> m_Test t = Some inner -> 0 <= m_LastMonth t ->
  let time := s_Time (s_Message message) in
  let t' := CCalendarTest_handle_SAddValue message t in
  let new_output := drop (length (cc_Output t)) (cc_Output t') in
  cc_Output t' = cc_Output t ++ new_output
  /\ (In RunInnerTest new_output <-> month time = (m_LastMonth t + 1) mod 12)
  /\ (month time = (m_LastMonth t + 1) mod 12 ->
      new_output
      = RunInnerTest
        :: forwardDetectedCalendar (s_Message message) (cct_test inner))
  /\ (month time <> (m_LastMonth t + 1) mod 12 -> new_output = []).
Proof.
  intros Hstate Htest Hmonth time t' new_output.
  destruct (handle_SAddValue_in_test message t inner Hstate Htest)
    as (_ & _ & Hrun).
  fold time t' in Hrun.
  rewrite Z.rem_mod_nonneg in Hrun by lia.
  unfold new_output.
  destruct (Z.eqb_spec (month time) ((m_LastMonth t + 1) mod 12)) as [Heq|Hne];
    destruct Hrun as [_ Hout]; rewrite Hout.
  - rewrite drop_app_length. repeat split; try tauto. intros _. by left.
  - rewrite drop_all, app_nil_r.
    repeat split; try tauto. intros [].
Qed.

(** What [handle(const SAddValue&)] does in the state [CC_INITIAL], before
    the first test object exists. *)
Lemma handle_SAddValue_in_initial (message : SAddValue D) (t : CCalendarTest D) :
  (forall time, 0 <= month time < 12) ->
  cc_Machine t = CC_INITIAL -> m_Test t = None ->
  let t' := CCalendarTest_handle_SAddValue message t in
  cc_Machine t' = CC_TEST
  /\ is_Some (m_Test t')
  /\ m_LastMonth t' = month (s_Time (s_Message message)) + 2
  /\ cc_Output t' = cc_Output t.
Proof.
  intros Hrange Hstate Htest t'. unfold t', CCalendarTest_handle_SAddValue.
  set (time := s_Time (s_Message message)).
  assert (Hnot : (month time =? Z.rem (month time + 2 + 1) 12) = false).
  { apply Z.eqb_neq. specialize (Hrange time).
    rewrite Z.rem_mod_nonneg by lia.
    destruct (Z.eq_dec (month time) 9) as [->|]; [discriminate|].
    destruct (Z.eq_dec (month time) 10) as [->|]; [discriminate|].
    destruct (Z.eq_dec (month time) 11) as [->|]; [discriminate|].
    rewrite Z.mod_small; lia. }
  simpl. unfold CCalendarTest_test, CCalendarTest_shouldTest. fold time.
  destruct (month time =? Z.rem (m_LastMonth t + 1) 12); simpl;
    rewrite Hstate; simpl; unfold CCalendarTest_apply; simpl;
    rewrite Hstate; simpl; rewrite Htest; simpl;
    unfold CCalendarTest_test, CCalendarTest_shouldTest; simpl; fold time;
    rewrite Hnot; simpl;
    destruct (s_AllocationsAllowed (s_Message message)); simpl; eauto.
Qed.

(** Messages with no observation in the month after [m_LastMonth] leave
    the state, the last month and the output of the test as they are. *)
Lemma quiet_messages_keep_quiet (month0 : Z) (output : list (CCOutput D))
    (messages : list CCMessage) (t1 : CCalendarTest D) :
  0 <= month0 ->
  no_observation_in ((month0 + 3) mod 12) messages ->
  cc_Machine t1 = CC_TEST -> is_Some (m_Test t1) ->
  m_LastMonth t1 = month0 + 2 -> cc_Output t1 = output ->
  let t := fold_left CCalendarTest_handle messages t1 in
  cc_Machine t = CC_TEST /\ is_Some (m_Test t)
  /\ m_LastMonth t = month0 + 2 /\ cc_Output t = output.
Proof.
  intros Hmonth0 Hquiet. revert t1.
  induction messages as [|message messages IH];
    intros t1 Hstate1 Htest1 Hmonth1 Hout1; [by simpl|].
  apply Forall_cons in Hquiet as [Hmessage Hquiet].
  simpl. destruct message as [message|message]; simpl; apply (IH Hquiet); clear IH.
  - destruct Htest1 as [inner Htest1].
    by destruct (handle_SAddValue_in_test message t1 inner Hstate1 Htest1)
      as (Hs & _ & _).
  - destruct Htest1 as [inner Htest1].
    by destruct (handle_SAddValue_in_test message t1 inner Hstate1 Htest1)
      as (_ & Ht & _).
  - destruct Htest1 as [inner Htest1].
    destruct (handle_SAddValue_in_test message t1 inner Hstate1 Htest1)
      as (_ & _ & Hrun).
    rewrite Hmonth1, Z.rem_mod_nonneg in Hrun by lia.
    replace (month0 + 2 + 1) with (month0 + 3) in Hrun by lia.
    apply Z.eqb_neq in Hmessage. rewrite Hmessage in Hrun.
    destruct Hrun as [Hm _]. congruence.
  - destruct Htest1 as [inner Htest1].
    destruct (handle_SAddValue_in_test message t1 inner Hstate1 Htest1)
      as (_ & _ & Hrun).
    rewrite Hmonth1, Z.rem_mod_nonneg in Hrun by lia.
    replace (month0 + 2 + 1) with (month0 + 3) in Hrun by lia.
    apply Z.eqb_neq in Hmessage. rewrite Hmessage in Hrun.
    destruct Hrun as [_ Ho]. congruence.
  - unfold CCalendarTest_handle_SDetectedSeasonal. by rewrite Hstate1.
  - unfold CCalendarTest_handle_SDetectedSeasonal. rewrite Hstate1. simpl.
    destruct Htest1 as [inner ->]. by eexists.
  - unfold CCalendarTest_handle_SDetectedSeasonal. by rewrite Hstate1.
  - unfold CCalendarTest_handle_SDetectedSeasonal. by rewrite Hstate1.
Qed.

(** C9.  When the first observation, at a time in the civil month
    [month0], takes the calendar test from [CC_INITIAL] to [CC_TEST], the
    test sets [m_LastMonth] to [month0 + 2] and neither runs the inner test
    nor sends a message.  After any messages with no observation in the
    month [(month0 + 3) mod 12] it still has sent nothing and [m_LastMonth]
    is unchanged, and the next observation in that month runs the inner test
    and forwards its results.  The months [month0], [month0 + 1] and
    [month0 + 2] all differ from [(month0 + 3) mod 12], so at least two
    further month rollovers pass without a test. *)
Theorem first_calendar_test_three_months_later (first : SAddValue D)
    (t0 : CCalendarTest D) :
  (forall time, 0 <= month time < 12) ->
  cc_Machine t0 = CC_INITIAL -> m_Test t0 = None ->
  let month0 := month (s_Time (s_Message first)) in
  let t1 := CCalendarTest_handle_SAddValue first t0 in
  cc_Machine t1 = CC_TEST
  /\ m_LastMonth t1 = month0 + 2
  /\ cc_Output t1 = cc_Output t0
  /\ (forall messages : list CCMessage,
        no_observation_in ((month0 + 3) mod 12) messages ->
        let t := fold_left CCalendarTest_handle messages t1 in
        cc_Output t = cc_Output t0
        /\ m_LastMonth t = month0 + 2
        /\ forall next : SAddValue D,
             month (s_Time (s_Message next)) = (month0 + 3) mod 12 ->
             exists inner,
               m_Test t = Some inner
               /\ cc_Output (CCalendarTest_handle_SAddValue next t)
                  = cc_Output t0
                    ++ RunInnerTest
                       :: forwardDetectedCalendar (s_Message next) (cct_test inner))
  /\ (forall k, 0 <= k < 3 -> (month0 + k) mod 12 <> (month0 + 3) mod 12).
Proof.
  intros Hrange Hstate Htest month0 t1.
  destruct (handle_SAddValue_in_initial first t0 Hrange Hstate Htest)
    as (Hstate1 & Htest1 & Hmonth1 & Hout1).
  fold t1 month0 in Hstate1, Htest1, Hmonth1, Hout1.
  pose proof (Hrange (s_Time (s_Message first))) as Hmonth0. fold month0 in Hmonth0.
  split; [assumption|]. split; [assumption|]. split; [assumption|]. split.
  - (* quiet messages keep the test quiet *)
    intros messages Hquiet.
    pose proof (quiet_messages_keep_quiet month0 (cc_Output t0) messages t1
                  (proj1 Hmonth0) Hquiet Hstate1 Htest1 Hmonth1 Hout1) as Hinv.
    cbv zeta in Hinv. destruct Hinv as (Hs & [inner Ht] & Hm & Ho).
    cbv zeta. split; [assumption|]. split; [assumption|].
    intros next Hnext. exists inner. split; [exact Ht|].
    destruct (handle_SAddValue_in_test next _ inner Hs Ht) as (_ & _ & Hrun).
    rewrite Hm, Z.rem_mod_nonneg in Hrun by lia.
    replace (month0 + 2 + 1) with (month0 + 3) in Hrun by lia.
    rewrite Hnext, Z.eqb_refl in Hrun. destruct Hrun as [_ Hrun].
    by rewrite Hrun, Ho.
  - intros k Hk Heq.
    assert (Hcases : k = 0 \/ k = 1 \/ k = 2) by lia.
    assert (Hm : month0 = 0 \/ month0 = 1 \/ month0 = 2 \/ month0 = 3
                 \/ month0 = 4 \/ month0 = 5 \/ month0 = 6 \/ month0 = 7
                 \/ month0 = 8 \/ month0 = 9 \/ month0 = 10 \/ month0 = 11) by lia.
    clearbody month0.
    repeat (destruct Hm as [->|Hm]); try subst month0;
      repeat (destruct Hcases as [->|Hcases]); try subst k; discriminate Heq.
Qed.

(** The constructor gives, and every message keeps, a test whose last
    month is not negative and whose inner test exists in [CC_TEST]: what the
    statement about the month rollover asks of the test. *)
Lemma CCalendarTest_new_invariant (decayRate : D) (bucketLength : TTime) :
  CCalendarTest_invariant (CCalendarTest_new decayRate bucketLength).
Proof.
  unfold CCalendarTest_invariant, CCalendarTest_new. simpl.
  split; [lia|]. by destruct (DAY <? bucketLength).
Qed.

Lemma CCalendarTest_handle_invariant (message : CCMessage) (t : CCalendarTest D) :
  (forall time, 0 <= month time < 12) ->
  CCalendarTest_invariant t ->
  CCalendarTest_invariant (CCalendarTest_handle t message).
Proof.
  intros Hrange [Hlast Hinner]. unfold CCalendarTest_invariant.
  destruct message as [message|message]; simpl.
  - pose proof (Hrange (s_Time (s_Message message))) as Hmonth.
    destruct (cc_Machine t) eqn:Hstate.
    + destruct (handle_SAddValue_in_initial message t Hrange Hstate Hinner)
        as (-> & Htest & -> & _).
      split; [lia|exact Htest].
    + destruct Hinner as [inner Hinner].
      destruct (handle_SAddValue_in_test message t inner Hstate Hinner)
        as (-> & Htest & Hrun).
      split; [|exact Htest].
      destruct (_ =? _); destruct Hrun as [-> _]; lia.
    + unfold CCalendarTest_handle_SAddValue. simpl.
      unfold CCalendarTest_test, CCalendarTest_shouldTest.
      destruct (_ =? _); simpl; rewrite Hstate; simpl; rewrite Hstate;
        simpl; rewrite ?Hstate; unfold month in *; (split; [lia|exact Hinner]).
    + destruct Hinner.
  - unfold CCalendarTest_handle_SDetectedSeasonal.
    destruct (cc_Machine t) eqn:Hstate; simpl; rewrite ?Hstate;
      try (split; [exact Hlast|exact Hinner]).
    + split; [exact Hlast|]. destruct Hinner as [inner ->]. by eexists.
    + destruct Hinner.
Qed.

Lemma CCalendarTest_messages_invariant (messages : list CCMessage)
    (t : CCalendarTest D) :
  (forall time, 0 <= month time < 12) ->
  CCalendarTest_invariant t ->
  CCalendarTest_invariant (fold_left CCalendarTest_handle messages t).
Proof.
  intros Hrange. revert t.
  induction messages as [|message messages IH]; intros t Hinv; [exact Hinv|].
  simpl. by apply IH, CCalendarTest_handle_invariant.
Qed.

End CalendarTestProofs.

(** ** The calls of the calendar test's [handle] *)

Section CalendarTestCalls.
Context {D : Type} `{Double D} `{CComponentTypes D} `{!CCalendarTestTypes D}.

Lemma CCalendarTest_test_Machine (message : SMessage) (t : CCalendarTest D) :
  cc_Machine t = CC_TEST -> cc_Machine (CCalendarTest_test message t) = CC_TEST.
Proof.
  intros Hstate. unfold CCalendarTest_test, CCalendarTest_shouldTest.
  destruct (_ =? _); simpl; rewrite ?Hstate; [|reflexivity].
  by destruct (m_Test t).
Qed.

Lemma CCalendarTest_apply_new_value (message : SMessage) (t : CCalendarTest D) :
  cc_Machine t = CC_INITIAL ->
  cc_Machine (CCalendarTest_apply CC_NEW_VALUE message t) = CC_TEST.
Proof.
  intros Hstate. unfold CCalendarTest_apply. simpl. rewrite Hstate. simpl.
  by destruct (m_Test t).
Qed.

#[local] Arguments CCalendarTest_test : simpl never.
#[local] Arguments CCalendarTest_apply : simpl never.

(** [handle(const SAddValue&)] calls itself at most once: two calls are
    enough, and more give the same test. *)
Lemma CCalendarTest_handle_fuel_enough (n : nat) (message : SAddValue D)
    (t : CCalendarTest D) :
  CCalendarTest_handle_fuel (S (S n)) message t
  = Some (CCalendarTest_handle_SAddValue message t).
Proof.
  unfold CCalendarTest_handle_SAddValue. simpl.
  destruct (cc_Machine (CCalendarTest_test (s_Message message) t)) eqn:Hstate;
    try reflexivity; [|by destruct (negb _)].
  pose proof (CCalendarTest_apply_new_value (s_Message message) _ Hstate) as Hnew.
  rewrite (CCalendarTest_test_Machine (s_Message message) _ Hnew).
  by destruct (negb _).
Qed.

End CalendarTestCalls.

(** ** The component store and detected components (C2, C5, C8) *)

#[local] Arguments canonicalize : simpl never.
#[local] Arguments interpolate_with : simpl never.
#[local] Arguments addSeasonalComponents : simpl never.
#[local] Arguments addCalendarComponent : simpl never.
#[local] Arguments CSeasonal_estimateSizeChange : simpl never.
#[local] Arguments CSeasonal_remove : simpl never.

Section ComponentsProofs.
Context {D : Type} `{DoubleMath D} `{CBasicStatistics D} `{CComponentTypes D}.

(** [canonicalize] does not touch the state machine. *)
Lemma canonicalize_Machine (time : TTime) (c : CComponents D) :
  m_Machine (canonicalize time c) = m_Machine c.
Proof.
  unfold canonicalize, shiftOrigin. cbv zeta.
  repeat match goal with
         | |- context [match ?x with _ => _ end] => destruct x
         end; reflexivity.
Qed.

(** The store after the interpolation of its components, before the machine
    is told so: the middle of [interpolate]. *)
Lemma interpolated_Machine (time : TTime) (c : CComponents D) (c' : CComponents D) :
  c' = (let c0 := canonicalize time c in
        let c1 :=
          match m_Seasonal c0 with
          | Some s =>
              let '(s, removed) := CSeasonal_removeComponentsWithBadValues time s in
              let c := if removed then emit (ComponentChange []) c0 else c0 in
              set_Seasonal (Some (CSeasonal_interpolate time true s)) c
          | None => c0
          end in
        match m_Calendar c1 with
        | Some k =>
            let '(k, removed) := CCalendar_removeComponentsWithBadValues time k in
            let c := if removed then emit (ComponentChange []) c1 else c1 in
            set_Calendar (Some (CCalendar_interpolate time true k)) c
        | None => c1
        end) ->
  m_Machine c' = m_Machine c.
Proof.
  intros ->. cbv zeta. rewrite <- (canonicalize_Machine time c).
  repeat match goal with
         | |- context [match ?x with _ => _ end] => destruct x
         end; reflexivity.
Qed.

(** ** The calls between [apply] and [interpolate] *)

Lemma apply_fuel_interpolated_in_normal (n : nat) (message : SMessage)
    (c : CComponents D) :
  m_Machine c = SC_NORMAL ->
  apply_fuel (S n) SC_INTERPOLATED message c = Some (set_Machine SC_NORMAL c).
Proof. intros Hstate. simpl. by rewrite Hstate. Qed.

Lemma interpolate_with_in_normal (n : nat) (message : SMessage) (c : CComponents D) :
  m_Machine c = SC_NORMAL ->
  exists c', m_Machine c' = SC_NORMAL
             /\ forall k, interpolate_with (apply_fuel (S k)) message c = Some c'.
Proof.
  intros Hstate. unfold interpolate_with. rewrite Hstate. cbv zeta.
  destruct (shouldInterpolate _ _).
  - match goal with
    | |- context [apply_fuel _ SC_INTERPOLATED message ?c2] =>
        assert (Hc2 : m_Machine c2 = SC_NORMAL)
          by (rewrite <- Hstate; by apply (interpolated_Machine (s_Time message) c));
        set (interpolated := c2) in *
    end.
    exists (set_Machine SC_NORMAL interpolated). split; [reflexivity|].
    intros k. by apply apply_fuel_interpolated_in_normal.
  - exists (canonicalize (s_Time message) c). split; [|reflexivity].
    by rewrite canonicalize_Machine.
Qed.

Lemma apply_fuel_interpolated_in_new (message : SMessage) (c : CComponents D) :
  m_Machine c = SC_NEW_COMPONENTS ->
  exists c', m_Machine c' = SC_NORMAL
             /\ forall k, apply_fuel (S (S k)) SC_INTERPOLATED message c = Some c'.
Proof.
  intros Hstate.
  destruct (interpolate_with_in_normal 0 message (set_Machine SC_NORMAL c))
    as (c' & Hc' & Hk); [reflexivity|].
  exists c'. split; [exact Hc'|]. intros k.
  rewrite <- (Hk k). simpl. by rewrite Hstate.
Qed.

Lemma interpolate_with_in_new (message : SMessage) (c : CComponents D) :
  m_Machine c = SC_NEW_COMPONENTS ->
  exists c', m_Machine c' = SC_NORMAL
             /\ forall k, interpolate_with (apply_fuel (S (S k))) message c = Some c'.
Proof.
  intros Hstate. unfold interpolate_with. rewrite Hstate. cbv zeta.
  assert (Hshould : shouldInterpolate (s_Time message)
                      (canonicalize (s_Time message) c) = true).
  { unfold shouldInterpolate. by rewrite canonicalize_Machine, Hstate. }
  rewrite Hshould.
  match goal with
  | |- context [apply_fuel _ SC_INTERPOLATED message ?c2] =>
      assert (Hc2 : m_Machine c2 = SC_NEW_COMPONENTS)
        by (rewrite <- Hstate; by apply (interpolated_Machine (s_Time message) c));
      set (interpolated := c2) in *
  end.
  by apply apply_fuel_interpolated_in_new.
Qed.

Lemma apply_fuel_added_in_normal (n : nat) (message : SMessage)
    (c : CComponents D) :
  m_Machine c = SC_NORMAL ->
  apply_fuel (S n) SC_ADDED_COMPONENTS message c
  = interpolate_with (apply_fuel n) message (set_Machine SC_NEW_COMPONENTS c).
Proof. intros Hstate. simpl. rewrite Hstate. reflexivity. Qed.

(** Three nested calls of [apply] are enough: more fuel gives the same
    store, and the calls never run out of it. *)
Lemma apply_fuel_enough (symbol : SC_Symbol) (message : SMessage)
    (c : CComponents D) :
  exists c', forall k, apply_fuel (S (S (S k))) symbol message c = Some c'.
Proof.
  destruct symbol.
  - (* components were added *)
    destruct (m_Machine c) eqn:Hstate.
    2: { destruct (interpolate_with_in_new message (set_Machine SC_NEW_COMPONENTS c))
           as (c' & _ & Hk); [reflexivity|].
         exists c'. intros k. rewrite <- (Hk k). simpl. by rewrite Hstate. }
    all: eexists; intros k; simpl; rewrite Hstate; reflexivity.
  - (* components were interpolated *)
    destruct (m_Machine c) eqn:Hstate.
    1: { destruct (apply_fuel_interpolated_in_new message c Hstate) as (c' & _ & Hk).
         exists c'. intros k. apply (Hk (S k)). }
    all: eexists; intros k; simpl; rewrite Hstate; reflexivity.
  - (* reset *)
    destruct (interpolate_with_in_normal 0 message
                (set_Machine SC_NORMAL (clearComponents c)))
      as (c' & _ & Hk); [reflexivity|].
    destruct (m_Machine c) eqn:Hstate.
    2: { eexists; intros k; simpl; rewrite Hstate; reflexivity. }
    all: exists c'; intros k; rewrite <- (Hk (S k)); simpl; by rewrite Hstate.
Qed.

Lemma apply_total (symbol : SC_Symbol) (message : SMessage) (c : CComponents D)
    (k : nat) :
  apply_fuel (S (S (S k))) symbol message c = Some (apply symbol message c).
Proof.
  destruct (apply_fuel_enough symbol message c) as (c' & Hk).
  unfold apply. by rewrite (Hk 1%nat), (Hk k).
Qed.

Lemma interpolate_total (message : SMessage) (c : CComponents D) (k : nat) :
  interpolate_with (apply_fuel (S (S (S k)))) message c
  = Some (interpolate message c).
Proof.
  unfold interpolate. destruct (m_Machine c) eqn:Hstate.
  - destruct (interpolate_with_in_new message c Hstate) as (c' & _ & Hk).
    by rewrite (Hk (S k)), (Hk 2%nat).
  - destruct (interpolate_with_in_normal 0 message c Hstate) as (c' & _ & Hk).
    by rewrite (Hk (S (S k))), (Hk 3%nat).
  - unfold interpolate_with. by rewrite Hstate.
  - unfold interpolate_with. rewrite Hstate.
    destruct (apply_fuel_enough SC_RESET message c) as (c' & Hk).
    by rewrite (Hk k), (Hk 1%nat).
Qed.

(** A mask which does not fit the components makes [estimateSizeChange]
    return zero and [remove] return false: [addSeasonalComponents] returns
    before it changes anything. *)
Lemma addSeasonalComponents_mask_mismatch (components : CSeasonalDecomposition D)
    (allocationsAllowed : bool) (c : CComponents D) :
  length (seasonalToRemoveMask components) <> length (seasonalComponents c) ->
  addSeasonalComponents components allocationsAllowed c = c.
Proof.
  intros Hmask. unfold addSeasonalComponents, seasonalComponents in *.
  destruct (m_Seasonal c) as [s|]; [|reflexivity].
  apply Nat.eqb_neq in Hmask.
  unfold CSeasonal_estimateSizeChange, CSeasonal_remove. rewrite Hmask. simpl.
  by rewrite andb_false_r.
Qed.

(** C5.  If the length of the proposal's mask of components to remove
    differs from the number of seasonal components of the store,
    [addSeasonalComponents] leaves the store as it is: no seasonal component
    is removed or added, and the trend, the gain controller and the prediction
    errors of the seasonal and the calendar components are unchanged. *)
Theorem mask_mismatch_drops_proposal (components : CSeasonalDecomposition D)
    (allocationsAllowed : bool) (c : CComponents D) :
  length (seasonalToRemoveMask components) <> length (seasonalComponents c) ->
  let c' := addSeasonalComponents components allocationsAllowed c in
  c' = c
  /\ seasonalComponents c' = seasonalComponents c
  /\ m_Trend c' = m_Trend c
  /\ m_GainController c' = m_GainController c
  /\ (m_PredictionErrors <$> m_Seasonal c') = (m_PredictionErrors <$> m_Seasonal c)
  /\ (m_CalendarPredictionErrors <$> m_Calendar c')
     = (m_CalendarPredictionErrors <$> m_Calendar c).
Proof.
  intros Hmask c'. unfold c'.
  rewrite (addSeasonalComponents_mask_mismatch _ _ _ Hmask).
  repeat split; reflexivity.
Qed.

(** At the memory hard limit a proposal which would grow the store is
    dropped as well. *)
Lemma addSeasonalComponents_hard_limit (components : CSeasonalDecomposition D)
    (c : CComponents D) (s : CSeasonal D) :
  m_Seasonal c = Some s ->
  0 < CSeasonal_estimateSizeChange components (m_DecayRate c)
        (of_TTime (m_BucketLength c)) s ->
  addSeasonalComponents components false c = c.
Proof.
  intros Hs Hsize. unfold addSeasonalComponents. rewrite Hs.
  apply Z.ltb_lt in Hsize. by rewrite Hsize.
Qed.

Lemma dropped_proposal_leaves_store (components : CSeasonalDecomposition D)
    (allocationsAllowed : bool) (c : CComponents D) :
  proposal_dropped components allocationsAllowed c ->
  addSeasonalComponents components allocationsAllowed (with_seasonal c)
  = with_seasonal c.
Proof.
  intros [Hmask|[-> Hsize]].
  - apply addSeasonalComponents_mask_mismatch.
    unfold with_seasonal, seasonalComponents in *.
    destruct (m_Seasonal c) as [s|] eqn:Hs; simpl; rewrite ?Hs; exact Hmask.
  - apply (addSeasonalComponents_hard_limit _ _
             (default CSeasonal_new (m_Seasonal c))).
    + unfold with_seasonal. by destruct (m_Seasonal c) as [s|] eqn:Hs.
    + unfold with_seasonal. by destruct (m_Seasonal c).
Qed.

(** C8.  When the store handles [SDetectedSeasonal] in the state
    [SC_NORMAL] and the size check before it passes, a proposal which
    [addSeasonalComponents] drops (for its mask or at the memory hard limit)
    still makes the state machine take the transition on
    [SC_ADDED_COMPONENTS]: the store enters [SC_NEW_COMPONENTS] with the
    seasonal and calendar components it had.  What [handle] returns is that
    store after the action of the new state, which interpolates it and
    brings the machine back to [SC_NORMAL]. *)
Theorem dropped_proposal_still_adds_components (message : SMessage)
    (components : CSeasonalDecomposition D) (c : CComponents D) :
  m_Machine c = SC_NORMAL ->
  (size c + m_SeasonalComponentSize c <= maxSize c)%nat ->
  proposal_dropped components (s_AllocationsAllowed message) c ->
  let entered := set_Machine SC_NEW_COMPONENTS (with_seasonal c) in
  SC_TRANSITION_FUNCTION SC_ADDED_COMPONENTS (m_Machine c) = SC_NEW_COMPONENTS
  /\ m_Machine entered = SC_NEW_COMPONENTS
  /\ seasonalComponents entered = seasonalComponents c
  /\ calendarComponents entered = calendarComponents c
  /\ handle_SDetectedSeasonal message components c = interpolate message entered
  /\ m_Machine (handle_SDetectedSeasonal message components c) = SC_NORMAL.
Proof.
  intros Hstate Hsize Hdropped entered.
  assert (Hentered : m_Machine entered = SC_NEW_COMPONENTS) by reflexivity.
  assert (Hhandle : handle_SDetectedSeasonal message components c
                    = interpolate message entered).
  { unfold handle_SDetectedSeasonal.
    apply Nat.ltb_ge in Hsize. rewrite Hsize, Hstate.
    fold (with_seasonal c). cbv zeta.
    rewrite (dropped_proposal_leaves_store _ _ _ Hdropped).
    unfold apply, interpolate.
    assert (Hws : m_Machine (with_seasonal c) = SC_NORMAL)
      by (unfold with_seasonal; by destruct (m_Seasonal c)).
    destruct (interpolate_with_in_new message entered Hentered) as (c' & _ & Hk).
    rewrite (apply_fuel_added_in_normal 3 message (with_seasonal c) Hws).
    fold entered. by rewrite (Hk 1%nat), (Hk 2%nat). }
  rewrite Hstate. split; [reflexivity|]. split; [exact Hentered|].
  split; [|split; [|split; [exact Hhandle|]]].
  - unfold entered, with_seasonal, seasonalComponents.
    destruct (m_Seasonal c) eqn:Hs; simpl; rewrite ?Hs; reflexivity.
  - unfold entered, with_seasonal, calendarComponents.
    destruct (m_Seasonal c) eqn:Hs; reflexivity.
  - rewrite Hhandle. unfold interpolate.
    destruct (interpolate_with_in_new message entered Hentered) as (c' & Hc' & Hk).
    by rewrite (Hk 2%nat).
Qed.

End ComponentsProofs.

(** ** The theorems at concrete inputs *)

(** A proposal with a mask for two components, made to a store with one. *)
Lemma mask_mismatch_drops_proposal_witness :
  length (seasonalComponents Inputs.daily_store) = 1%nat
  /\ length (seasonalToRemoveMask Inputs.stale_proposal) = 2%nat
  /\ addSeasonalComponents Inputs.stale_proposal true Inputs.daily_store
     = Inputs.daily_store.
Proof.
  assert (Hmask : length (seasonalToRemoveMask Inputs.stale_proposal)
                  <> length (seasonalComponents Inputs.daily_store))
    by (vm_compute; lia).
  pose proof (mask_mismatch_drops_proposal Inputs.stale_proposal true
                Inputs.daily_store Hmask) as Hdropped.
  cbv zeta in Hdropped.
  split; [reflexivity|]. split; [reflexivity|]. exact (proj1 Hdropped).
Defined.

(** The same proposal, handled by the store in the state [SC_NORMAL]. *)
Lemma dropped_proposal_still_adds_components_witness :
  handle_SDetectedSeasonal (Inputs.message_at (2 * DAY)) Inputs.stale_proposal
    Inputs.daily_store
  = interpolate (Inputs.message_at (2 * DAY))
      (set_Machine SC_NEW_COMPONENTS (with_seasonal Inputs.daily_store))
  /\ m_Machine (handle_SDetectedSeasonal (Inputs.message_at (2 * DAY))
                  Inputs.stale_proposal Inputs.daily_store) = SC_NORMAL.
Proof.
  assert (Hstate : m_Machine Inputs.daily_store = SC_NORMAL) by reflexivity.
  assert (Hsize : (size Inputs.daily_store
                   + m_SeasonalComponentSize Inputs.daily_store
                   <= maxSize Inputs.daily_store)%nat) by (vm_compute; lia).
  assert (Hdropped : proposal_dropped Inputs.stale_proposal
                       (s_AllocationsAllowed (Inputs.message_at (2 * DAY)))
                       Inputs.daily_store) by (left; vm_compute; lia).
  pose proof (dropped_proposal_still_adds_components
                (Inputs.message_at (2 * DAY)) Inputs.stale_proposal
                Inputs.daily_store Hstate Hsize Hdropped) as Hentered.
  cbv zeta in Hentered.
  destruct Hentered as (_ & _ & _ & _ & Hhandle & Hnormal).
  split; [exact Hhandle|exact Hnormal].
Defined.

(** The prediction errors of a week, aged over the legs (0, 50000), which
    has no whole day, and (50000, 200000), and over (0, 200000), in IEEE
    doubles. *)
Lemma stepwise_propagation_steps_add_up_witness :
  ((ifloor 50000 DAY - ifloor 0 DAY) / DAY
   + (ifloor 200000 DAY - ifloor 50000 DAY) / DAY
   = (ifloor 200000 DAY - ifloor 0 DAY) / DAY)
  /\ stepwisePropagateForwards 50000 200000 DAY Inputs.age_errors
       (stepwisePropagateForwards 0 50000 DAY Inputs.age_errors
          Inputs.errors_after_a_week)
     = stepwisePropagateForwards 0 200000 DAY Inputs.age_errors
         Inputs.errors_after_a_week.
Proof.
  assert (Hstep : 0 < DAY) by reflexivity.
  assert (Horder : 0 <= 50000 <= 200000) by lia.
  pose proof (stepwise_propagation_steps_add_up Inputs.age_errors DAY 0 50000
                200000 Inputs.errors_after_a_week Hstep Horder) as Hlegs.
  cbv zeta in Hlegs. destruct Hlegs as ((_ & _ & Hsum) & _ & _ & Hsame).
  split; [exact Hsum|]. apply Hsame. left. reflexivity.
Defined.

(** The calendar test after its first observation, at time 0, has the last
    month 2; an observation 90 days later, in the month 3, runs the inner
    test and forwards the two features it finds. *)
Lemma calendar_test_runs_at_month_rollover_witness :
  drop (length (cc_Output Inputs.calendar_test_in_test))
       (cc_Output (CCalendarTest_handle_SAddValue
                     (Inputs.observation (90 * DAY) 1%float)
                     Inputs.calendar_test_in_test))
  = RunInnerTest
    :: forwardDetectedCalendar (Inputs.message_at (90 * DAY))
                               Inputs.found_features.
Proof.
  assert (Hstate : cc_Machine Inputs.calendar_test_in_test = CC_TEST)
    by reflexivity.
  assert (Htest : m_Test Inputs.calendar_test_in_test
                  = Some Inputs.found_features) by reflexivity.
  assert (Hmonth : 0 <= m_LastMonth Inputs.calendar_test_in_test)
    by (vm_compute; discriminate).
  pose proof (calendar_test_runs_at_month_rollover
                (Inputs.observation (90 * DAY) 1%float)
                Inputs.calendar_test_in_test Inputs.found_features
                Hstate Htest Hmonth) as Hruns.
  cbv zeta in Hruns. destruct Hruns as (_ & _ & Hforwarded & _).
  apply Hforwarded. reflexivity.
Defined.

(** The first observation at time 0, in the month 0: the last month is 2,
    observations in the months 1 and 2 and a detected seasonality run no
    test, and the observation in the month 3 does. *)
Lemma first_calendar_test_three_months_later_witness :
  m_LastMonth Inputs.calendar_test_in_test = 2
  /\ cc_Output
       (fold_left CCalendarTest_handle
          [AddValue (Inputs.observation (31 * DAY) 1%float);
           DetectedSeasonal (Inputs.message_at (45 * DAY));
           AddValue (Inputs.observation (62 * DAY) 1%float)]
          Inputs.calendar_test_in_test) = [].
Proof.
  assert (Hrange : forall time : TTime,
             0 <= month (CCalendarTestTypes0 :=
                           Reference.calendarTest (D:=float) Inputs.found_features)
                        time < 12)
    by (intros time; apply Z.mod_pos_bound; reflexivity).
  assert (Hstate : cc_Machine Inputs.new_calendar_test = CC_INITIAL)
    by reflexivity.
  assert (Htest : m_Test Inputs.new_calendar_test = None) by reflexivity.
  pose proof (first_calendar_test_three_months_later
                (Inputs.observation 0 1%float) Inputs.new_calendar_test
                Hrange Hstate Htest) as Hfirst.
  cbv zeta in Hfirst. destruct Hfirst as (_ & Hlast & _ & Hquiet & _).
  split; [exact Hlast|].
  refine (proj1 (Hquiet _ _)).
  repeat (apply List.Forall_cons); try apply List.Forall_nil;
    try exact I; vm_compute; discriminate.
Defined.

(** The change point test after one observation: its count weight is at
    most 2, as the count weight of a change, 1/10, is. *)
Lemma countWeight_bounds_witness :
  (countWeight (2 * HOUR)%Z Inputs.change_point_test_after_one <= 2)%R.
Proof.
  assert (Hreach : reachable Inputs.change_point_test_after_one)
    by apply reachable_SAddValue, reachable_new.
  apply (countWeight_bounds (2 * HOUR) Inputs.change_point_test_after_one Hreach).
  simpl. lra.
Defined.

(** * Further properties of the code *)

(** ** Removing components by a mask *)

Lemma remove_flagged_snoc {A : Type} (flags : list bool) (l : list A)
    (f : bool) (a : A) :
  length flags = length l ->
  remove_flagged (flags ++ [f]) (l ++ [a])
  = remove_flagged flags l ++ (if f then [] else [a]).
Proof.
  revert l. induction flags as [|f' flags IH]; intros [|a' l] Hlen;
    try discriminate Hlen; simpl.
  - by destruct f.
  - injection Hlen as Hlen. rewrite (IH l Hlen). by destruct f'.
Qed.

Lemma remove_flagged_length_le {A : Type} (flags : list bool) (l : list A) :
  (length (remove_flagged flags l) <= length l)%nat.
Proof.
  revert l. induction flags as [|f flags IH]; intros [|a l]; simpl; try lia.
  specialize (IH l). destruct f; simpl; lia.
Qed.

Lemma remove_flagged_length {A B : Type} (flags : list bool) (l : list A)
    (l' : list B) :
  length l = length l' ->
  length (remove_flagged flags l) = length (remove_flagged flags l').
Proof.
  revert l l'. induction flags as [|f flags IH]; intros [|a l] [|b l'] Hlen;
    try discriminate Hlen; simpl; try reflexivity.
  - exact Hlen.
  - injection Hlen as Hlen. specialize (IH l l' Hlen). destruct f; simpl; lia.
Qed.

(** One pass of the loop of [remove] on one of the two vectors: the
    elements kept so far are at the front, in their order, and the elements
    from [i] on have not moved. *)
Lemma remove_step {A : Type} (mask : list bool) (orig v : list A) (i e : nat)
    (f : bool) (a : A) :
  length v = length orig -> length mask = length orig ->
  (e <= i)%nat ->
  mask !! i = Some f -> orig !! i = Some a ->
  take e v = remove_flagged (take i mask) (take i orig) ->
  drop i v = drop i orig ->
  let v' := if negb (i =? e)%nat then vswap v e i else v in
  let e' := (e + if f then 0 else 1)%nat in
  length v' = length orig
  /\ (e' <= S i)%nat
  /\ take e' v' = remove_flagged (take (S i) mask) (take (S i) orig)
  /\ drop (S i) v' = drop (S i) orig.
Proof.
  intros Hlen Hmask He Hf Ha Htake Hdrop v' e'.
  assert (Hi : (i < length orig)%nat) by (by apply lookup_lt_Some in Ha).
  assert (Hvi : v !! i = Some a).
  { rewrite <- (Nat.add_0_r i), <- lookup_drop, Hdrop, lookup_drop, Nat.add_0_r.
    exact Ha. }
  assert (Hkept : remove_flagged (take (S i) mask) (take (S i) orig)
                  = remove_flagged (take i mask) (take i orig)
                    ++ (if f then [] else [a])).
  { rewrite (take_S_r mask i f Hf), (take_S_r orig i a Ha).
    apply remove_flagged_snoc. rewrite !length_take. lia. }
  rewrite Hkept, <- Htake. clear Hkept.
  destruct (Nat.eqb_spec i e) as [->|Hne]; simpl in v'.
  - (* nothing to swap *)
    unfold v', e'. split; [exact Hlen|]. split; [destruct f; lia|]. split.
    + destruct f; [by rewrite Nat.add_0_r, app_nil_r|].
      rewrite Nat.add_1_r. by apply take_S_r.
    + replace (S e) with (e + 1)%nat by lia.
      by rewrite <- (drop_drop v 1 e), <- (drop_drop orig 1 e), Hdrop.
  - assert (Hlt : (e < i)%nat) by lia.
    destruct (lookup_lt_is_Some_2 v e) as [b Hb]; [lia|].
    unfold v', vswap. rewrite Hb, Hvi.
    split; [by rewrite !length_insert|]. split; [unfold e'; destruct f; lia|].
    split.
    + unfold e'. destruct f.
      * rewrite Nat.add_0_r, app_nil_r.
        rewrite take_insert_ge by lia. by rewrite take_insert_ge by lia.
      * rewrite Nat.add_1_r.
        rewrite (take_S_r _ e a).
        -- rewrite take_insert_ge by lia. by rewrite take_insert_ge by lia.
        -- apply list_lookup_insert_eq. rewrite length_insert. lia.
    + rewrite drop_insert_lt by lia. rewrite drop_insert_lt by lia.
      replace (S i) with (i + 1)%nat by lia.
      by rewrite <- (drop_drop v 1 i), <- (drop_drop orig 1 i), Hdrop.
Qed.

Lemma for_loop_indexed {S : Type} (P : nat -> S -> Prop) (body : nat -> S -> S)
    (n lo : nat) (s : S) :
  P lo s ->
  (forall i s, (lo <= i < lo + n)%nat -> P i s -> P (Datatypes.S i) (body i s)) ->
  P (lo + n)%nat (for_loop lo n body s).
Proof.
  revert lo s. induction n as [|n IH]; intros lo s Hs Hbody; simpl.
  - by rewrite Nat.add_0_r.
  - replace (lo + Datatypes.S n)%nat with (Datatypes.S lo + n)%nat by lia.
    apply IH.
    + apply Hbody; [lia|exact Hs].
    + intros i s' Hi. apply Hbody. lia.
Qed.

Lemma remove_flagged_filter {A : Type} (flags : list bool) (l : list A) :
  length flags = length l ->
  remove_flagged flags l
  = (List.filter (fun p : bool * A => negb p.1) (zip flags l)).*2.
Proof.
  revert l. induction flags as [|f flags IH]; intros [|a l] Hlen;
    try discriminate Hlen; simpl; [reflexivity|].
  injection Hlen as Hlen. rewrite (IH l Hlen). by destruct f.
Qed.


Section SeasonalStoreProofs.
Context {D : Type} `{DoubleMath D} `{CBasicStatistics D} `{CComponentTypes D}.

(** [remove] with a mask of the right length: the loop swaps the
    components to keep, and their errors, to the front and the two [erase]
    calls cut the rest. *)
Lemma CSeasonal_remove_flagged (mask : list bool) (s : CSeasonal D) :
  length mask = length (m_Components s) -> CSeasonal_aligned s ->
  CSeasonal_remove mask s
  = ({| m_Components := remove_flagged mask (m_Components s);
        m_PredictionErrors := remove_flagged mask (m_PredictionErrors s) |}, true).
Proof.
  intros Hmask Haligned. unfold CSeasonal_aligned in Haligned.
  unfold CSeasonal_remove.
  rewrite (proj2 (Nat.eqb_eq _ _) Hmask). simpl negb. cbv iota.
  set (components := m_Components s) in *. set (errors := m_PredictionErrors s) in *.
  set (n := length mask).
  match goal with
  | |- context [for_loop 0 n ?body ?init] =>
      pose proof (for_loop_indexed
        (fun i '(c, e, end_) =>
           (length c = length components
            /\ (end_ <= i)%nat
            /\ take end_ c = remove_flagged (take i mask) (take i components)
            /\ drop i c = drop i components)
           /\ (length e = length errors
               /\ (end_ <= i)%nat
               /\ take end_ e = remove_flagged (take i mask) (take i errors)
               /\ drop i e = drop i errors))
        body n 0 init) as Hloop;
      destruct (for_loop 0 n body init) as [[kept_c kept_e] kept]
  end.
  simpl in Hloop. destruct Hloop as [(_ & _ & Hc & _) (_ & _ & He & _)].
  - by repeat split.
  - intros i [[c e] end_] Hi [(Hlc & Hle & Htc & Hdc) (Hle' & _ & Hte & Hde)].
    destruct (lookup_lt_is_Some_2 mask i) as [f Hf]; [unfold n in Hi; lia|].
    destruct (lookup_lt_is_Some_2 components i) as [a Ha];
      [unfold n in Hi; lia|].
    destruct (lookup_lt_is_Some_2 errors i) as [b Hb];
      [unfold n in Hi; lia|].
    pose proof (remove_step mask components c i end_ f a Hlc Hmask Hle Hf Ha Htc Hdc)
      as Hstepc.
    pose proof (remove_step mask errors e i end_ f b Hle' ltac:(congruence) Hle
                  Hf Hb Hte Hde) as Hstepe.
    cbv zeta in Hstepc, Hstepe. rewrite Hf. simpl default.
    destruct (negb (i =? end_)%nat); split; assumption.
  - unfold n in Hc, He.
    rewrite (take_ge mask), (take_ge components) in Hc by lia.
    rewrite (take_ge mask), (take_ge errors) in He by lia.
    by rewrite Hc, He.
Qed.


(** X1. [CSeasonal::remove] with a mask which has one entry for each
    component keeps exactly the components whose entry is false, in their
    order, and with each of them its own prediction errors; it reports
    success. *)
Theorem CSeasonal_remove_keeps_unflagged (mask : list bool) (s : CSeasonal D) :
  length mask = length (m_Components s) ->
  CSeasonal_aligned s ->
  CSeasonal_remove mask s
  = ({| m_Components :=
          (List.filter (fun p : bool * CSeasonalComponent => negb p.1)
                       (zip mask (m_Components s))).*2;
        m_PredictionErrors :=
          (List.filter (fun p : bool * CComponentErrors D => negb p.1)
                       (zip mask (m_PredictionErrors s))).*2 |}, true).
Proof.
  intros Hmask Haligned. rewrite (CSeasonal_remove_flagged mask s Hmask Haligned).
  unfold CSeasonal_aligned in Haligned.
  by rewrite <- !remove_flagged_filter by congruence.
Qed.

(** *** Each operation of [CSeasonal] and [CCalendar] keeps the errors
    aligned *)


Lemma insert_by_time_length (x : CSeasonalComponent * CComponentErrors D)
    (l : list (CSeasonalComponent * CComponentErrors D)) :
  length (insert_by_time x l) = S (length l).
Proof.
  induction l as [|y l IH]; simpl; [reflexivity|].
  destruct (sc_time_ltb x.1 y.1); simpl; [reflexivity|]. by rewrite IH.
Qed.

Lemma CSeasonal_remove_aligned (mask : list bool) (s : CSeasonal D) :
  CSeasonal_aligned s -> CSeasonal_aligned (CSeasonal_remove mask s).1.
Proof.
  intros Haligned.
  destruct (Nat.eq_dec (length mask) (length (m_Components s))) as [Hmask|Hmask].
  - rewrite (CSeasonal_remove_flagged mask s Hmask Haligned).
    apply remove_flagged_length, Haligned.
  - unfold CSeasonal_remove. apply Nat.eqb_neq in Hmask. by rewrite Hmask.
Qed.

Lemma CSeasonal_add_aligned (component : CSeasonalComponent) (s : CSeasonal D) :
  CSeasonal_aligned s -> CSeasonal_aligned (CSeasonal_add component s).
Proof.
  unfold CSeasonal_aligned, CSeasonal_add. simpl. intros Haligned.
  rewrite !length_app. simpl. lia.
Qed.

Lemma CSeasonal_refreshForNewComponents_aligned (s : CSeasonal D) :
  CSeasonal_aligned (CSeasonal_refreshForNewComponents s).
Proof.
  unfold CSeasonal_aligned, CSeasonal_refreshForNewComponents. simpl.
  by rewrite !length_fmap.
Qed.


Lemma CSeasonal_propagateForwards_aligned (start end_ : TTime) (s : CSeasonal D) :
  CSeasonal_aligned s ->
  CSeasonal_aligned (CSeasonal_propagateForwards start end_ s).
Proof.
  intros Haligned. unfold CSeasonal_propagateForwards.
  apply (for_loop_invariant CSeasonal_aligned); [exact Haligned|].
  intros i s' Hs'. destruct (m_Components s' !! i); [|exact Hs'].
  unfold stepwisePropagateForwards. cbv zeta.
  destruct (_ <? _); [|exact Hs'].
  unfold CSeasonal_aligned in *. simpl. by rewrite !length_alter.
Qed.




End SeasonalStoreProofs.

(** ** The state machine of the component store *)

Section StoreMachine.
Context {D : Type} `{DoubleMath D} `{CBasicStatistics D} `{CComponentTypes D}.

Lemma add_components_Machine (l : list (CNewSeasonalComponent D))
    (s : CSeasonal D) (c : CComponents D) :
  m_Machine
    (fold_left (fun '(s, c) component =>
       (CSeasonal_add
          (createSeasonalComponent component (m_DecayRate c)
             (of_TTime (m_BucketLength c))) s,
        emit (ModelAnnotation (annotationText component)) c)) l (s, c)).2
  = m_Machine c.
Proof.
  revert s c. induction l as [|component l IH]; intros s c; [reflexivity|].
  simpl. by rewrite IH.
Qed.

Lemma addSeasonalComponents_Machine (components : CSeasonalDecomposition D)
    (allocationsAllowed : bool) (c : CComponents D) :
  m_Machine (addSeasonalComponents components allocationsAllowed c) = m_Machine c.
Proof.
  unfold addSeasonalComponents.
  destruct (m_Seasonal c) as [s|]; [|reflexivity].
  destruct (negb allocationsAllowed && _); [reflexivity|].
  destruct (CSeasonal_remove _ s) as [s' removed].
  destruct removed; [|reflexivity]. simpl negb. cbv iota zeta.
  match goal with
  | |- context [fold_left ?step (seasonal components) (s', ?c0)] =>
      pose proof (add_components_Machine (seasonal components) s' c0) as Hfold;
      destruct (fold_left step (seasonal components) (s', c0)) as [s2 c2]
  end.
  simpl in Hfold.
  cbn [m_Machine emit set_UsingTrendForPrediction set_Trend
       set_GainController set_Seasonal set_Calendar clearComponentErrors].
  rewrite Hfold. by destruct (seasonal components).
Qed.

Lemma addCalendarComponent_Machine (feature : CCalendarFeature)
    (allocationsAllowed : bool) (timeZoneOffset : TTime) (c : CComponents D) :
  m_Machine (addCalendarComponent feature allocationsAllowed timeZoneOffset c)
  = m_Machine c.
Proof.
  unfold addCalendarComponent. destruct (negb allocationsAllowed); [reflexivity|].
  cbv zeta. by destruct (m_Calendar c).
Qed.

Lemma apply_in_normal (symbol : SC_Symbol) (message : SMessage)
    (c : CComponents D) :
  m_Machine c = SC_NORMAL -> m_Machine (apply symbol message c) = SC_NORMAL.
Proof.
  intros Hstate. unfold apply. destruct symbol.
  - rewrite (apply_fuel_added_in_normal 3 message c Hstate).
    destruct (interpolate_with_in_new message (set_Machine SC_NEW_COMPONENTS c))
      as (c' & Hc' & Hk); [reflexivity|].
    by rewrite (Hk 1%nat).
  - by rewrite (apply_fuel_interpolated_in_normal 3 message c Hstate).
  - simpl. by rewrite Hstate.
Qed.

(** X2. [SC_NEW_COMPONENTS] is a transient state: a store in [SC_NORMAL] is
    in [SC_NORMAL] again after [handle] of a detected seasonality or of a
    detected calendar feature, after [interpolate], and after [apply] of
    any symbol, whether or not components were added. *)
Theorem store_returns_to_normal (message : SMessage) (c : CComponents D) :
  m_Machine c = SC_NORMAL ->
  (forall components : CSeasonalDecomposition D,
     m_Machine (handle_SDetectedSeasonal message components c) = SC_NORMAL)
  /\ (forall (feature : CCalendarFeature) (timeZoneOffset : TTime),
        m_Machine (handle_SDetectedCalendar message feature timeZoneOffset c)
        = SC_NORMAL)
  /\ m_Machine (interpolate message c) = SC_NORMAL
  /\ (forall symbol : SC_Symbol, m_Machine (apply symbol message c) = SC_NORMAL).
Proof.
  intros Hstate. split; [|split; [|split]].
  - intros components. unfold handle_SDetectedSeasonal.
    destruct (_ <? _)%nat; [exact Hstate|]. rewrite Hstate.
    apply apply_in_normal. rewrite addSeasonalComponents_Machine.
    by destruct (m_Seasonal c).
  - intros feature timeZoneOffset. unfold handle_SDetectedCalendar.
    destruct (_ <? _)%nat; [exact Hstate|]. rewrite Hstate. cbv zeta.
    match goal with
    | |- m_Machine (if ?b then _ else _) = _ => destruct b
    end.
    + by destruct (m_Calendar c).
    + apply apply_in_normal. rewrite addCalendarComponent_Machine.
      by destruct (m_Calendar c).
  - unfold interpolate.
    destruct (interpolate_with_in_normal 0 message c Hstate) as (c' & Hc' & Hk).
    by rewrite (Hk 3%nat).
  - intros symbol. by apply apply_in_normal.
Qed.

End StoreMachine.

(** ** The prediction errors stay with their components *)

#[local] Arguments CSeasonal_prune : simpl never.
#[local] Arguments CCalendar_prune : simpl never.

Section StoreAligned.
Context {D : Type} `{DoubleMath D} `{CBasicStatistics D} `{CComponentTypes D}.

(** Alignment looks at the components and their errors only. *)
Lemma CComponents_aligned_ext (c c' : CComponents D) :
  m_Seasonal c' = m_Seasonal c -> m_Calendar c' = m_Calendar c ->
  CComponents_aligned c -> CComponents_aligned c'.
Proof. unfold CComponents_aligned. by intros -> ->. Qed.













End StoreAligned.

(** ** The calendar test never fails *)

Section CalendarTestNeverFails.
Context {D : Type} `{Double D} `{CComponentTypes D} `{!CCalendarTestTypes D}.

(** X7. The calendar test never reaches [CC_ERROR] and never uses a null
    inner test: after any sequence of observations and detected
    seasonalities handled by a new test, where the months of the time zone
    are counted from 0 to 11, the machine is not in [CC_ERROR], the inner
    test exists exactly in the state [CC_TEST], and the last month is not
    negative. *)
Theorem calendar_test_never_fails (decayRate : D) (bucketLength : TTime)
    (messages : list CCMessage) :
  (forall time, 0 <= month time < 12) ->
  CCalendarTest_invariant
    (fold_left CCalendarTest_handle messages
               (CCalendarTest_new decayRate bucketLength)).
Proof.
  intros Hrange. revert messages. apply rev_ind; [apply CCalendarTest_new_invariant|].
  intros message messages IH. rewrite fold_left_app. simpl.
  by apply CCalendarTest_handle_invariant.
Qed.

End CalendarTestNeverFails.

(** ** The change point test *)

Ltac by_cases' := by_cases; simpl; try reflexivity.

Section WindowProofs.
Context {D : Type} `{DoubleMath D} `{CBasicStatistics D} `{!CChangePointTypes D}.

Lemma window_push_back_length (x : TMeanAccumulator)
    (window : list TMeanAccumulator) :
  length (window_push_back x window) = length window.
Proof. destruct window; simpl; [reflexivity|]. rewrite length_app. simpl. lia. Qed.

Lemma window_add_back_length (value weight : D)
    (window : list TMeanAccumulator) :
  length (window_add_back value weight window) = length window.
Proof. destruct window; [reflexivity|]. unfold window_add_back. apply length_alter. Qed.

(** The functions [handle] calls after it has moved the window leave the
    window, the state and the bucket length alone. *)
Lemma updates_keep_window (message : SAddValue D) (seasonal : bool)
    (makePredictor : list (CDOutput D) -> TTime -> D) (t : CChangePointTest D) :
  let t' :=
    testForChange message seasonal makePredictor
      (testUndoLastChange message makePredictor
         (testForCandidateChange message (updateTotalCountWeights message t))) in
  m_Window t' = m_Window t /\ cd_Machine t' = cd_Machine t
  /\ cd_BucketLength t' = cd_BucketLength t.
Proof.
  cbv zeta.
  assert (Hupdate : forall t, let t' := updateTotalCountWeights message t in
             m_Window t' = m_Window t /\ cd_Machine t' = cd_Machine t
             /\ cd_BucketLength t' = cd_BucketLength t).
  { intros t0. unfold updateTotalCountWeights. cbv zeta. by_cases'; by repeat split. }
  assert (Hcandidate : forall t, let t' := testForCandidateChange message t in
             m_Window t' = m_Window t /\ cd_Machine t' = cd_Machine t
             /\ cd_BucketLength t' = cd_BucketLength t).
  { intros t0. unfold testForCandidateChange. cbv zeta. by_cases'; by repeat split. }
  assert (Hundo : forall t, let t' := testUndoLastChange message makePredictor t in
             m_Window t' = m_Window t /\ cd_Machine t' = cd_Machine t
             /\ cd_BucketLength t' = cd_BucketLength t).
  { intros t0. unfold testUndoLastChange. cbv zeta. by_cases'; by repeat split. }
  assert (Htest : forall t, let t' := testForChange message seasonal makePredictor t in
             m_Window t' = m_Window t /\ cd_Machine t' = cd_Machine t
             /\ cd_BucketLength t' = cd_BucketLength t).
  { intros t0. unfold testForChange. cbv zeta. by_cases'; by repeat split. }
  cbv zeta in Hupdate, Hcandidate, Hundo, Htest.
  destruct (Htest (testUndoLastChange message makePredictor
                  (testForCandidateChange message (updateTotalCountWeights message t))))
    as (-> & -> & ->).
  destruct (Hundo (testForCandidateChange message (updateTotalCountWeights message t)))
    as (-> & -> & ->).
  destruct (Hcandidate (updateTotalCountWeights message t)) as (-> & -> & ->).
  apply Hupdate.
Qed.

Lemma apply_window_invariant (symbol : CD_Symbol) (t : CChangePointTest D) :
  CChangePointTest_window_invariant t ->
  CChangePointTest_window_invariant (CChangePointTest_apply symbol t).
Proof.
  unfold CChangePointTest_window_invariant, CChangePointTest_apply.
  destruct symbol, (cd_Machine t) eqn:Hstate; simpl; rewrite ?Hstate; simpl;
    rewrite ?Hstate; try done.
Qed.

(** X8. The change point test never reaches [CD_ERROR], and its window is
    always full: in every state which the constructor and the public
    operations give, the window holds [windowSize()] buckets while the test
    runs and none once it is disabled. *)
Theorem change_point_window_is_full (t : CChangePointTest D) :
  reachable t -> CChangePointTest_window_invariant t.
Proof.
  induction 1 as [decayRate bucketLength|message seasonal makePredictor t _ IH
                  |message t _ IH|symbol t _ IH|start end_ t _ IH].
  - unfold CChangePointTest_window_invariant. simpl. apply length_replicate.
  - unfold CChangePointTest_handle_SAddValue. cbv zeta.
    destruct (cd_Machine t) eqn:Hstate.
    + match goal with
      | |- CChangePointTest_window_invariant
             (testForChange _ _ _ (testUndoLastChange _ _
                (testForCandidateChange _ (updateTotalCountWeights _ ?t0)))) =>
          pose proof (updates_keep_window message seasonal makePredictor t0) as Hkeep;
          cbv zeta in Hkeep; destruct Hkeep as (Hw & Hm & Hb)
      end.
      unfold CChangePointTest_window_invariant, windowSize, windowBucketLength in *.
      rewrite Hw, Hm, Hb. simpl. rewrite Hstate in *.
      rewrite window_add_back_length.
      rewrite <- IH.
      apply (for_loop_invariant (fun w => length w = length (m_Window t)));
        [reflexivity|].
      intros i w Hlen. by rewrite window_push_back_length.
    + exact IH.
    + unfold CChangePointTest_window_invariant in IH. by rewrite Hstate in IH.
  - unfold CChangePointTest_window_invariant in *. simpl.
    destruct (cd_Machine t); [|by rewrite IH|done].
    by rewrite length_replicate.
  - by apply apply_window_invariant.
  - unfold CChangePointTest_propagateForwards, stepwisePropagateForwards.
    cbv zeta. by destruct (_ <? _).
Qed.

Lemma handle_SAddValue_bucketLength (message : SAddValue D) (seasonal : bool)
    (makePredictor : list (CDOutput D) -> TTime -> D) (t : CChangePointTest D) :
  cd_BucketLength (CChangePointTest_handle_SAddValue message seasonal makePredictor t)
  = cd_BucketLength t.
Proof.
  unfold CChangePointTest_handle_SAddValue. cbv zeta.
  destruct (cd_Machine t) eqn:Hstate; [|reflexivity|].
  - match goal with
    | |- context [testForCandidateChange message (updateTotalCountWeights message ?t0)] =>
        pose proof (updates_keep_window message seasonal makePredictor t0) as Hkeep
    end.
    cbv zeta in Hkeep. by destruct Hkeep as (_ & _ & ->).
  - unfold CChangePointTest_apply. simpl. by rewrite Hstate.
Qed.
End WindowProofs.

Section LargeErrorFractionProofs.
Context `{CBasicStatistics R} `{!CChangePointTypes R}.

(** The weight [beta] of the newest error is positive and at most a
    quarter, since a window bucket is at least as long as a bucket. *)
Lemma beta_bounds (t : CChangePointTest R) :
  0 < cd_BucketLength t ->
  (0 < IZR (cd_BucketLength t) / (4 * IZR (windowBucketLength t)) <= 1 / 4)%R.
Proof.
  intros Hpos. unfold windowBucketLength.
  set (b := cd_BucketLength t) in *.
  set (w := Z.max MINIMUM_WINDOW_BUCKET_LENGTH b).
  assert (Hb : (0 < IZR b)%R) by (by apply IZR_lt).
  assert (Hw : (IZR b <= IZR w)%R) by (apply IZR_le; unfold w; lia).
  split.
  - apply Rdiv_lt_0_compat; lra.
  - apply (Rmult_le_reg_r (4 * IZR w)); [lra|].
    unfold Rdiv. rewrite Rmult_assoc, Rinv_l by lra. lra.
Qed.

Lemma testForCandidateChange_fraction (message : SAddValue R)
    (t : CChangePointTest R) :
  0 < cd_BucketLength t ->
  (0 <= m_LargeErrorFraction t <= 1)%R ->
  (0 <= m_LargeErrorFraction (testForCandidateChange message t) <= 1)%R.
Proof.
  intros Hpos Hfraction. pose proof (beta_bounds t Hpos) as Hbeta.
  unfold testForCandidateChange. cbv zeta.
  destruct (_ <? _); [exact Hfraction|].
  set (beta := (of_TTime (cd_BucketLength t)
                / (of_TTime 4 * of_TTime (windowBucketLength t)))%D) in *.
  change (0 < beta <= 1 / 4)%R in Hbeta.
  assert (Hnew : forall indicator : R, (indicator = 1 \/ indicator = 0)%R ->
             (0 <= (1 - beta) * m_LargeErrorFraction t + beta * indicator
              <= 1)%R).
  { intros indicator Hindicator. destruct Hindicator as [-> | ->]; nra. }
  match goal with
  | |- context [dmul beta ?indicator] =>
      specialize (Hnew indicator);
      assert (Hindicator : (indicator = 1 \/ indicator = 0)%R)
        by (destruct (_ >? _)%D; [by left|by right])
  end.
  specialize (Hnew Hindicator).
  destruct (_ && _); exact Hnew.
Qed.

Lemma apply_fraction (symbol : CD_Symbol) (t : CChangePointTest R) :
  (0 <= m_LargeErrorFraction t <= 1)%R ->
  (0 <= m_LargeErrorFraction (CChangePointTest_apply symbol t) <= 1)%R
  /\ cd_BucketLength (CChangePointTest_apply symbol t) = cd_BucketLength t.
Proof.
  intros Hfraction. unfold CChangePointTest_apply.
  destruct symbol, (cd_Machine t) eqn:Hstate; simpl; rewrite ?Hstate; simpl;
    rewrite ?Hstate; simpl; (split; [lra || exact Hfraction|reflexivity]).
Qed.

Lemma handle_SAddValue_fraction (message : SAddValue R) (seasonal : bool)
    (makePredictor : list (CDOutput R) -> TTime -> R) (t : CChangePointTest R) :
  0 < cd_BucketLength t ->
  (0 <= m_LargeErrorFraction t <= 1)%R ->
  (0 <= m_LargeErrorFraction
          (CChangePointTest_handle_SAddValue message seasonal makePredictor t)
   <= 1)%R
  /\ cd_BucketLength
       (CChangePointTest_handle_SAddValue message seasonal makePredictor t)
     = cd_BucketLength t.
Proof.
  intros Hpos Hfraction. unfold CChangePointTest_handle_SAddValue. cbv zeta.
  destruct (cd_Machine t) eqn:Hstate.
  - match goal with
    | |- context [testForCandidateChange message (updateTotalCountWeights message ?t0)] =>
        set (moved := t0)
    end.
    assert (Hmoved : cd_BucketLength moved = cd_BucketLength t
                     /\ (0 <= m_LargeErrorFraction moved <= 1)%R) by (by split).
    clearbody moved. destruct Hmoved as [Hmpos Hmfraction].
    assert (Hupdate : cd_BucketLength (updateTotalCountWeights message moved)
                      = cd_BucketLength moved
                      /\ m_LargeErrorFraction (updateTotalCountWeights message moved)
                         = m_LargeErrorFraction moved).
    { unfold updateTotalCountWeights. cbv zeta. by_cases'; by split. }
    destruct Hupdate as [Hub Huf].
    set (updated := updateTotalCountWeights message moved) in *.
    assert (Hcandidate : cd_BucketLength (testForCandidateChange message updated)
                         = cd_BucketLength updated).
    { unfold testForCandidateChange. cbv zeta. by_cases'. }
    pose proof (testForCandidateChange_fraction message updated
                  ltac:(lia) ltac:(rewrite Huf; exact Hmfraction)) as Hcf.
    set (tested := testForCandidateChange message updated) in *.
    assert (Hundo : cd_BucketLength (testUndoLastChange message makePredictor tested)
                    = cd_BucketLength tested
                    /\ m_LargeErrorFraction
                         (testUndoLastChange message makePredictor tested)
                       = m_LargeErrorFraction tested).
    { unfold testUndoLastChange. cbv zeta. by_cases'; by split. }
    destruct Hundo as [Hnb Hnf].
    set (undone := testUndoLastChange message makePredictor tested) in *.
    assert (Htest : cd_BucketLength (testForChange message seasonal makePredictor undone)
                    = cd_BucketLength undone
                    /\ (m_LargeErrorFraction
                          (testForChange message seasonal makePredictor undone)
                        = m_LargeErrorFraction undone
                        \/ m_LargeErrorFraction
                             (testForChange message seasonal makePredictor undone)
                           = 0%R)).
    { unfold testForChange. cbv zeta. by_cases'; split; auto. }
    destruct Htest as [Htb Htf]. split; [|lia].
    destruct Htf as [-> | ->]; [rewrite Hnf; exact Hcf|lra].
  - by split.
  - by apply apply_fraction.
Qed.

(** X9. The large error fraction is a fraction: over the real numbers, in
    every state which the constructor and the public operations give to a
    test with a positive bucket length, [m_LargeErrorFraction] lies between
    0 and 1. *)
Theorem large_error_fraction_bounds (t : CChangePointTest R) :
  reachable t -> 0 < cd_BucketLength t ->
  (0 <= m_LargeErrorFraction t <= 1)%R.
Proof.
  induction 1 as [decayRate bucketLength|message seasonal makePredictor t _ IH
                  |message t _ IH|symbol t _ IH|start end_ t _ IH].
  - simpl. lra.
  - intros Hpos.
    destruct (Z.lt_ge_cases 0 (cd_BucketLength t)) as [Hbefore|Hbefore].
    + by apply handle_SAddValue_fraction, IH.
    + exfalso. revert Hpos.
      unfold CChangePointTest_handle_SAddValue. cbv zeta.
      destruct (cd_Machine t) eqn:Hstate.
      * match goal with
        | |- context [testForCandidateChange message (updateTotalCountWeights message ?t0)] =>
            pose proof (updates_keep_window message seasonal makePredictor t0) as Hkeep
        end.
        cbv zeta in Hkeep. destruct Hkeep as (_ & _ & ->). simpl. lia.
      * lia.
      * unfold CChangePointTest_apply. simpl. rewrite Hstate. simpl. lia.
  - simpl. lra.
  - intros Hpos.
    assert (Hsame : cd_BucketLength (CChangePointTest_apply symbol t)
                    = cd_BucketLength t).
    { unfold CChangePointTest_apply.
      destruct symbol, (cd_Machine t) eqn:Hstate; simpl; rewrite ?Hstate; simpl;
        rewrite ?Hstate; reflexivity. }
    apply apply_fraction, IH. lia.
  - unfold CChangePointTest_propagateForwards, stepwisePropagateForwards.
    cbv zeta. by destruct (_ <? _).
Qed.

End LargeErrorFractionProofs.

(** A cast of a real number which is not negative to an integer drops its
    fraction. *)
Lemma R_to_Z_bounds (x : R) (lo hi : Z) :
  (0 <= x)%R -> (IZR lo <= x < IZR hi + 1)%R -> lo <= R_to_Z x <= hi.
Proof.
  intros Hx [Hlo Hhi]. unfold R_to_Z. destruct (Rle_dec 0 x) as [_|Hneg]; [|lra].
  destruct (base_Int_part x) as [Hfloor Hfrac].
  split.
  - assert (Hlt : (IZR (lo - 1) < IZR (Int_part x))%R)
      by (rewrite minus_IZR; lra).
    apply lt_IZR in Hlt. lia.
  - assert (Hlt : (IZR (Int_part x) < IZR (hi + 1))%R)
      by (rewrite plus_IZR; lra).
    apply lt_IZR in Hlt. lia.
Qed.

Section MinimumChangeLengthProofs.
Context `{CBasicStatistics R} `{!CChangePointTypes R}.

(** The length scaled by the occupancy and rounded to a whole second lies
    between the shortest length and twice it. *)
Lemma scaled_length_rounded (occupancy : R) (w : TTime) :
  0 < w -> (0 < occupancy <= 1)%R ->
  let shortest := Z.max (30 * HOUR) (5 * w) in
  shortest
  <= to_TTime (dmin (of_TTime 1 / occupancy) (of_TTime 2) * of_TTime shortest
               + lit 1 2)%D
  <= 2 * shortest.
Proof.
  intros Hw Hoccupancy shortest.
  set (scaled := (dmin (of_TTime 1 / occupancy) (of_TTime 2) * of_TTime shortest)%D).
  assert (Hshortest : 0 < shortest) by (unfold shortest, HOUR; lia).
  assert (Hpos : (0 < IZR shortest)%R) by (by apply IZR_lt).
  assert (Hscaled : (IZR shortest <= scaled <= 2 * IZR shortest)%R).
  { unfold scaled. rewrite dmin_R. simpl.
    assert (Hinv : (1 <= 1 / occupancy)%R).
    { apply (Rmult_le_reg_r occupancy); [lra|].
      unfold Rdiv. rewrite Rmult_assoc, Rinv_l by lra. lra. }
    unfold Rmin. destruct (Rle_dec _ _); nra. }
  apply R_to_Z_bounds; simpl; unfold lit; simpl; [lra|].
  rewrite mult_IZR. lra.
Qed.




(** X10. Over the real numbers and for an occupancy in (0, 1], the minimum
    length of a change is a multiple of the window bucket length which is
    at least the longer of 30 hours and five window buckets, and less than
    twice that plus one window bucket; the maximum interval to detect a
    change is not shorter. *)
Theorem minimum_change_length_bounds (occupancy : R) (t : CChangePointTest R) :
  0 < windowBucketLength t -> (0 < occupancy <= 1)%R ->
  let w := windowBucketLength t in
  let shortest := Z.max (30 * HOUR) (5 * w) in
  let minimum := minimumChangeLength occupancy t in
  (w | minimum)
  /\ shortest <= minimum < 2 * shortest + w
  /\ minimum <= maximumIntervalToDetectChange occupancy t.
Proof.
  intros Hw Hoccupancy w shortest minimum.
  pose proof (scaled_length_rounded occupancy w Hw Hoccupancy) as Hrounded.
  cbv zeta in Hrounded. fold shortest in Hrounded.
  unfold maximumIntervalToDetectChange. fold minimum.
  unfold minimum, minimumChangeLength. cbv zeta. fold w shortest.
  match goal with
  | |- context [iceil ?x w] =>
      destruct (iceil_spec x w Hw) as [Hdiv Hceil]; set (m := iceil x w) in *
  end.
  split; [exact Hdiv|]. split; [lia|].
  apply Z.quot_le_lower_bound; lia.
Qed.

End MinimumChangeLengthProofs.

(** *** The formal test *)

Section FormalTestProofs.
Context {D : Type} `{DoubleMath D} `{CBasicStatistics D} `{!CChangePointTypes D}.

(** What [handle] does before [testForChange] leaves the time of the last
    test and the bucket length alone. *)
Lemma beforeTestForChange_keeps (message : SAddValue D)
    (makePredictor : list (CDOutput D) -> TTime -> D) (t : CChangePointTest D) :
  let found := beforeTestForChange message makePredictor t in
  m_LastTestTime found = m_LastTestTime t
  /\ cd_BucketLength found = cd_BucketLength t.
Proof.
  cbv zeta. unfold beforeTestForChange. cbv zeta.
  assert (Hupdate : forall t0, m_LastTestTime (updateTotalCountWeights message t0)
                               = m_LastTestTime t0
                               /\ cd_BucketLength (updateTotalCountWeights message t0)
                                  = cd_BucketLength t0).
  { intros t0. unfold updateTotalCountWeights. cbv zeta. by_cases'; by split. }
  assert (Hcandidate : forall t0, m_LastTestTime (testForCandidateChange message t0)
                                  = m_LastTestTime t0
                                  /\ cd_BucketLength (testForCandidateChange message t0)
                                     = cd_BucketLength t0).
  { intros t0. unfold testForCandidateChange. cbv zeta. by_cases'; by split. }
  assert (Hundo : forall t0,
             m_LastTestTime (testUndoLastChange message makePredictor t0)
             = m_LastTestTime t0
             /\ cd_BucketLength (testUndoLastChange message makePredictor t0)
                = cd_BucketLength t0).
  { intros t0. unfold testUndoLastChange. cbv zeta. by_cases'; by split. }
  match goal with
  | |- context [testForCandidateChange message (updateTotalCountWeights message ?t0)] =>
      set (moved := t0)
  end.
  assert (Hmoved : m_LastTestTime moved = m_LastTestTime t
                   /\ cd_BucketLength moved = cd_BucketLength t) by (by split).
  clearbody moved. destruct Hmoved as [Hmtime Hmbucket].
  destruct (Hundo (testForCandidateChange message
                     (updateTotalCountWeights message moved))) as [-> ->].
  destruct (Hcandidate (updateTotalCountWeights message moved)) as [-> ->].
  destruct (Hupdate moved) as [-> ->]. by split.
Qed.

(** [testForChange] sets the time of the last test when the test is due
    and the populated buckets are long enough, and does nothing otherwise. *)
Lemma testForChange_runs (message : SAddValue D) (seasonal : bool)
    (makePredictor : list (CDOutput D) -> TTime -> D) (t : CChangePointTest D) :
  let time := s_Time (s_Message message) in
  let occupancy := s_Occupancy message in
  let populated := Z.of_nat (length (populated_suffix (m_Window t))) in
  let t' := testForChange message seasonal makePredictor t in
  if shouldTest time occupancy t
     && (minimumChangeLength occupancy t <? windowBucketLength t * populated)
  then m_LastTestTime t' = time
  else t' = t.
Proof.
  cbv zeta. unfold testForChange. cbv zeta.
  destruct (shouldTest _ _ t); simpl; [|reflexivity].
  rewrite Z.leb_antisym.
  destruct (_ <? _); simpl; [|reflexivity].
  by_cases'.
Qed.

(** C3, amended.  [handle] of an observation at a time later than the last
    formal test runs the formal test, and sets the time of the last test to
    the time of the observation, if and only if the test is in [CD_TEST]
    and, in the state [testForChange] finds, there is no pending undoable
    change, the time is later than the last test by more than the minimum
    change length, or more than three window buckets after the last test
    and strictly between the minimum change length and the maximum interval
    to detect a change after the last candidate, and the buckets of the
    window from the first one with a value on span more than the minimum
    change length.  The minimum change length is
    [min(1/occupancy, 2) max(30 HOUR, 5 window_bucket_len)] rounded to the
    nearest whole second and then raised to the next multiple of the window
    bucket length; the maximum interval is five times the minimum divided by
    three, in integers.  Otherwise [testForChange] leaves the test as it
    found it. *)
Theorem formal_test_runs_iff (message : SAddValue D) (seasonal : bool)
    (makePredictor : list (CDOutput D) -> TTime -> D) (t : CChangePointTest D) :
  let time := s_Time (s_Message message) in
  let occupancy := s_Occupancy message in
  let window_bucket_len := windowBucketLength t in
  let minimum :=
    iceil (round_to_second
             (dmin (of_TTime 1 / occupancy) (of_TTime 2)
              * of_TTime (Z.max (30 * HOUR) (5 * window_bucket_len)))%D)
          window_bucket_len in
  let maximum := Z.quot (5 * minimum) 3 in
  let found := beforeTestForChange message makePredictor t in
  let populated := Z.of_nat (length (populated_suffix (m_Window found))) in
  let due :=
    cd_Machine t = CD_TEST
    /\ m_UndoableLastChange found = None
    /\ (m_LastTestTime t + minimum < time
        \/ (m_LastTestTime t + 3 * window_bucket_len < time
            /\ m_LastCandidateChangePointTime found + minimum < time
               < m_LastCandidateChangePointTime found + maximum))
    /\ minimum < window_bucket_len * populated in
  let t' := CChangePointTest_handle_SAddValue message seasonal makePredictor t in
  m_LastTestTime t < time ->
  (m_LastTestTime t' = time <-> due)
  /\ (cd_Machine t = CD_TEST ->
      t' = testForChange message seasonal makePredictor found)
  /\ (cd_Machine t = CD_TEST -> ~ due -> t' = found).
Proof.
  intros time occupancy window_bucket_len minimum maximum found populated due t'
    Hearlier.
  destruct (beforeTestForChange_keeps message makePredictor t) as [Hlast Hbucket].
  fold found in Hlast, Hbucket.
  assert (Hwindow : windowBucketLength found = window_bucket_len)
    by (unfold window_bucket_len, windowBucketLength; by rewrite Hbucket).
  assert (Hminimum : minimumChangeLength occupancy found = minimum)
    by (unfold minimumChangeLength; rewrite Hwindow; reflexivity).
  assert (Hmaximum : maximumIntervalToDetectChange occupancy found = maximum)
    by (unfold maximumIntervalToDetectChange; by rewrite Hminimum).
  assert (Hshould : shouldTest time occupancy found
                    && (minimum <? window_bucket_len * populated) = true
                    <-> m_UndoableLastChange found = None
                        /\ (m_LastTestTime t + minimum < time
                            \/ (m_LastTestTime t + 3 * window_bucket_len < time
                                /\ m_LastCandidateChangePointTime found + minimum
                                   < time
                                   < m_LastCandidateChangePointTime found + maximum))
                        /\ minimum < window_bucket_len * populated).
  { unfold shouldTest. rewrite Hminimum, Hmaximum, Hwindow, Hlast.
    rewrite !andb_true_iff, orb_true_iff, !andb_true_iff, !Z.ltb_lt.
    destruct (m_UndoableLastChange found) as [change|].
    - split; [intros [[Habsurd _] _]; discriminate Habsurd
             |intros [Habsurd _]; discriminate Habsurd].
    - split; [intros [[_ Htime] Hlong]; split; [reflexivity|split; [lia|exact Hlong]]
             |intros (_ & Htime & Hlong); split; [split; [reflexivity|lia]|exact Hlong]]. }
  pose proof (testForChange_runs message seasonal makePredictor found) as Hruns.
  cbv zeta in Hruns. fold time occupancy populated in Hruns.
  rewrite Hminimum, Hwindow in Hruns.
  unfold t', due, CChangePointTest_handle_SAddValue. cbv zeta.
  destruct (cd_Machine t) eqn:Hstate.
  - change (testForChange message seasonal makePredictor _)
      with (testForChange message seasonal makePredictor found).
    destruct (shouldTest time occupancy found
              && (minimum <? window_bucket_len * populated)) eqn:Hcond.
    + split; [|split; [reflexivity|]];
        [|intros _ Hnot; exfalso; apply Hnot; split; [reflexivity|by apply Hshould]].
      split; [intros _; split; [reflexivity|by apply Hshould]|intros _; exact Hruns].
    + split; [|split; [reflexivity|intros _ _; exact Hruns]].
      rewrite Hruns, Hlast.
      split; [lia|]. intros (_ & Hdue). apply Hshould in Hdue. discriminate Hdue.
  - split; [|split; discriminate].
    split; [lia|intros [Habsurd _]; discriminate Habsurd].
  - split; [|split; discriminate].
    assert (Hreset : m_LastTestTime (CChangePointTest_apply CD_RESET t)
                     = m_LastTestTime t).
    { unfold CChangePointTest_apply. simpl. by rewrite Hstate. }
    rewrite Hreset. split; [lia|intros [Habsurd _]; discriminate Habsurd].
Qed.

End FormalTestProofs.

(** C3 as stated fails where the window holds too few values.  A test for
    hourly buckets whose last formal test was at time 0, with no candidate
    and no change to undo, handles an observation two days later, with the
    occupancy 1: there is no pending undoable change and the time is more
    than the 30 hours of the minimum change length after the last test, so
    the condition of the statement holds, and [shouldTest] returns true.
    But the window holds one value, one window bucket is not longer than
    the minimum change length, and [testForChange] returns before the
    test: the time of the last test stays 0 and nothing is sent. *)
Lemma no_formal_test_on_a_short_window :
  spec_should_test false 0 TTime_min_half 3600
    (spec_minimum_change_length 1 3600) (2 * DAY) = true
  /\ shouldTest (D:=float) (2 * DAY) 1%float Inputs.tested_at_0 = true
  /\ m_LastTestTime
       (CChangePointTest_handle_SAddValue
          (Inputs.observation (2 * DAY) 1%float) false Inputs.predict_zero
          Inputs.tested_at_0) = 0
  /\ cd_Output
       (CChangePointTest_handle_SAddValue
          (Inputs.observation (2 * DAY) 1%float) false Inputs.predict_zero
          Inputs.tested_at_0) = [].
Proof. vm_compute. repeat split. Qed.

(** After thirty hourly observations the thirty-first, with 31 populated
    buckets of an hour against the minimum change length of 30 hours, runs
    the formal test. *)
Lemma formal_test_runs_iff_witness :
  m_LastTestTime
    (CChangePointTest_handle_SAddValue
       (Inputs.observation (31 * HOUR) 1%float) false Inputs.predict_zero
       (Inputs.change_point_test_after 30))
  = 31 * HOUR.
Proof.
  assert (Hearlier : m_LastTestTime (Inputs.change_point_test_after 30)
                     < s_Time (s_Message (Inputs.observation (31 * HOUR) 1%float)))
    by (vm_compute; reflexivity).
  pose proof (formal_test_runs_iff (Inputs.observation (31 * HOUR) 1%float) false
                Inputs.predict_zero (Inputs.change_point_test_after 30) Hearlier)
    as [Hruns _].
  apply Hruns.
  split; [vm_compute; reflexivity|].
  split; [vm_compute; reflexivity|].
  split; [left; vm_compute; reflexivity|vm_compute; reflexivity].
Defined.

(** ** Removal by a flag computed from each element *)

Lemma remove_flagged_map_fst {A B : Type} (f : A * B -> bool) (l : list A)
    (l' : list B) :
  length l = length l' ->
  remove_flagged (map f (zip l l')) l
  = (List.filter (fun p => negb (f p)) (zip l l')).*1
  /\ remove_flagged (map f (zip l l')) l'
     = (List.filter (fun p => negb (f p)) (zip l l')).*2.
Proof.
  revert l'. induction l as [|a l IH]; intros [|b l'] Hlen;
    try discriminate Hlen; [by split|].
  injection Hlen as Hlen. destruct (IH l' Hlen) as [IH1 IH2].
  cbn [zip zip_with map remove_flagged List.filter]. fold (zip l l').
  rewrite IH1, IH2. by destruct (f (a, b)).
Qed.

Lemma filter_none_flagged {A : Type} (f : A -> bool) (l : list A) :
  existsb f l = false -> List.filter (fun a => negb (f a)) l = l.
Proof.
  induction l as [|a l IH]; [reflexivity|]. simpl.
  destruct (f a); [discriminate|]. simpl. intros Hrest. by rewrite IH.
Qed.

Lemma zip_fmap_fst_snd {A B : Type} (l : list A) (l' : list B) :
  length l = length l' -> (zip l l').*1 = l /\ (zip l l').*2 = l'.
Proof.
  revert l'. induction l as [|a l IH]; intros [|b l'] Hlen;
    try discriminate Hlen; [by split|].
  injection Hlen as Hlen. destruct (IH l' Hlen) as [IH1 IH2].
  cbn [zip zip_with fmap list_fmap]. fold (zip l l').
  change (list_fmap _ _ fst (zip l l')) with ((zip l l').*1).
  change (list_fmap _ _ snd (zip l l')) with ((zip l l').*2).
  by rewrite IH1, IH2.
Qed.

Lemma filter_zip_fst {A B : Type} (f : A -> bool) (l : list A) (l' : list B) :
  length l = length l' ->
  (List.filter (fun p : A * B => f p.1) (zip l l')).*1 = List.filter f l.
Proof.
  revert l'. induction l as [|a l IH]; intros [|b l'] Hlen;
    try discriminate Hlen; [reflexivity|].
  injection Hlen as Hlen.
  cbn [zip zip_with List.filter fst]. fold (zip l l').
  destruct (f a); [|exact (IH l' Hlen)].
  cbn [fmap list_fmap fst]. f_equal. exact (IH l' Hlen).
Qed.

Lemma existsb_map_id {A : Type} (f : A -> bool) (l : list A) :
  existsb (fun flag : bool => flag) (map f l) = existsb f l.
Proof. induction l as [|a l IH]; [reflexivity|]. simpl. by rewrite IH. Qed.

Lemma map_fst_zip {A B : Type} (f : A -> bool) (l : list A) (l' : list B) :
  length l = length l' -> map (fun p : A * B => f p.1) (zip l l') = map f l.
Proof.
  revert l'. induction l as [|a l IH]; intros [|b l'] Hlen;
    try discriminate Hlen; [reflexivity|].
  injection Hlen as Hlen. cbn [zip zip_with map]. fold (zip l l').
  by rewrite (IH l' Hlen).
Qed.

(** The loop which sets [remove[i]] where the element [i] asks for it. *)
Lemma flag_loop {A : Type} (f : A -> bool) (l : list A) :
  for_loop 0 (length l)
    (fun i remove =>
       match l !! i with
       | Some x => if f x then <[i:=true]> remove else remove
       | None => remove
       end) (replicate (length l) false)
  = map f l.
Proof.
  pose proof (for_loop_indexed
    (fun i remove => remove = map f (take i l) ++ replicate (length l - i) false)
    (fun i remove =>
       match l !! i with
       | Some x => if f x then <[i:=true]> remove else remove
       | None => remove
       end) (length l) 0 (replicate (length l) false)) as Hloop.
  simpl in Hloop. rewrite Hloop.
  - rewrite take_ge by lia. rewrite Nat.sub_diag. apply app_nil_r.
  - by rewrite Nat.sub_0_r.
  - intros i remove Hi ->.
    destruct (lookup_lt_is_Some_2 l i) as [x Hx]; [lia|]. rewrite Hx.
    rewrite (take_S_r l i x Hx), map_app. simpl.
    replace (length l - i)%nat with (S (length l - S i)) by lia. simpl.
    assert (Hlen : length (map f (take i l)) = i)
      by (rewrite length_map, length_take; lia).
    destruct (f x).
    + rewrite insert_app_r_alt by lia. rewrite Hlen, Nat.sub_diag. simpl.
      by rewrite <- app_assoc.
    + by rewrite <- app_assoc.
Qed.

Section BadValuesProofs.
Context {D : Type} `{DoubleMath D} `{CBasicStatistics D} `{CComponentTypes D}.

(** X13. [CSeasonal::removeComponentsWithBadValues] leaves no component
    with bad values: it keeps exactly the components which are not bad, in
    their order and each with its own prediction errors, and returns whether
    it found a bad one. *)
Theorem CSeasonal_removeComponentsWithBadValues_filter (time : TTime)
    (s : CSeasonal D) :
  CSeasonal_aligned s ->
  let good := fun p : CSeasonalComponent * CComponentErrors D => negb (sc_isBad p.1) in
  let kept := List.filter good (zip (m_Components s) (m_PredictionErrors s)) in
  CSeasonal_removeComponentsWithBadValues time s
  = ({| m_Components := kept.*1; m_PredictionErrors := kept.*2 |},
     existsb sc_isBad (m_Components s))
  /\ Forall (fun component => sc_isBad component = false) (kept.*1).
Proof.
  intros Haligned good kept. unfold CSeasonal_aligned in Haligned.
  assert (Hkept : kept.*1 = List.filter (fun c => negb (sc_isBad c)) (m_Components s))
    by (by apply (filter_zip_fst (fun c => negb (sc_isBad c)))).
  split.
  - unfold CSeasonal_removeComponentsWithBadValues. cbv zeta.
    rewrite existsb_map_id.
    destruct (existsb sc_isBad (m_Components s)) eqn:Hany.
    + rewrite <- (map_fst_zip sc_isBad _ (m_PredictionErrors s)) by done.
      by destruct (remove_flagged_map_fst (fun p => sc_isBad p.1) (m_Components s)
                     (m_PredictionErrors s) ltac:(done)) as [-> ->].
    + assert (Hall : kept = zip (m_Components s) (m_PredictionErrors s)).
      { unfold kept, good.
        apply (filter_none_flagged (fun p : CSeasonalComponent * CComponentErrors D
                                    => sc_isBad p.1)).
        rewrite <- existsb_map_id, map_fst_zip, existsb_map_id by done. exact Hany. }
      destruct (zip_fmap_fst_snd (m_Components s) (m_PredictionErrors s) ltac:(done))
        as [Hfst Hsnd].
      rewrite Hall, Hfst, Hsnd. by destruct s.
  - rewrite Hkept. apply List.Forall_forall. intros c Hc.
    apply List.filter_In in Hc. by destruct Hc as [_ ->%negb_true_iff].
Qed.

(** X14. [CCalendar::prune] removes exactly the calendar components whose
    own prediction errors ask for it ([CComponentErrors::remove] with the
    window of the component's feature as the period), keeps the others in
    their order with their errors, and returns whether none is left. *)
Theorem CCalendar_prune_filter (time bucketLength : TTime) (k : CCalendar D) :
  CCalendar_aligned k ->
  let keep := fun p : CCalendarComponent * CComponentErrors D =>
    negb (CComponentErrors_remove bucketLength
            (feature_window (cc_feature p.1)) p.2) in
  let kept :=
    List.filter keep (zip (m_CalendarComponents k) (m_CalendarPredictionErrors k)) in
  CCalendar_prune time bucketLength k
  = ({| m_CalendarComponents := kept.*1; m_CalendarPredictionErrors := kept.*2 |},
     match kept with [] => true | _ => false end).
Proof.
  intros Haligned keep kept. unfold CCalendar_aligned in Haligned.
  unfold CCalendar_prune. cbv zeta.
  set (pairs := zip (m_CalendarComponents k) (m_CalendarPredictionErrors k)) in *.
  set (flag := fun p : CCalendarComponent * CComponentErrors D =>
         CComponentErrors_remove bucketLength (feature_window (cc_feature p.1)) p.2).
  assert (Hpairs : length pairs = length (m_CalendarComponents k)).
  { unfold pairs. rewrite length_zip. lia. }
  assert (Hmask : for_loop 0 (length (m_CalendarComponents k))
            (fun i remove =>
               match m_CalendarComponents k !! i, m_CalendarPredictionErrors k !! i with
               | Some component, Some e =>
                   if CComponentErrors_remove bucketLength
                        (feature_window (cc_feature component)) e
                   then <[i:=true]> remove else remove
               | _, _ => remove
               end) (replicate (length (m_CalendarComponents k)) false)
          = map flag pairs).
  { rewrite <- (flag_loop flag pairs), Hpairs.
    apply for_loop_ext. intros i remove _.
    unfold pairs. rewrite lookup_zip_with.
    destruct (m_CalendarComponents k !! i) as [component|]; simpl; [|reflexivity].
    by destruct (m_CalendarPredictionErrors k !! i). }
  rewrite Hmask.
  destruct (remove_flagged_map_fst flag (m_CalendarComponents k)
              (m_CalendarPredictionErrors k) ltac:(done)) as [Hc He].
  fold pairs in Hc, He. rewrite Hc, He.
  change (List.filter (fun p => negb (flag p)) pairs) with kept.
  simpl. f_equal. by destruct kept.
Qed.

End BadValuesProofs.

(** ** The seasonality test *)

(** ** The parameters of the windows *)

Lemma window_parameters_sorted (window : ETest) :
  StronglySorted (fun p q => s_BucketLength p < s_BucketLength q)
                 (WINDOW_PARAMETERS window).
Proof.
  destruct window; simpl;
    repeat (apply SSorted_cons;
            [|repeat (apply List.Forall_cons; [simpl; lia|]); apply List.Forall_nil]);
    apply SSorted_nil.
Qed.

Lemma find_first_not_less (rows : list SParameters) (bucketLength : TTime) :
  StronglySorted (fun p q => s_BucketLength p < s_BucketLength q) rows ->
  match List.find (fun params => negb (s_BucketLength params <? bucketLength)) rows with
  | Some params =>
      In params rows /\ bucketLength <= s_BucketLength params
      /\ forall p, In p rows -> bucketLength <= s_BucketLength p ->
                   s_BucketLength params <= s_BucketLength p
  | None => forall p, In p rows -> s_BucketLength p < bucketLength
  end.
Proof.
  induction 1 as [|row rows Hsorted IH Hrow]; simpl; [by intros|].
  destruct (Z.ltb_spec (s_BucketLength row) bucketLength) as [Hlt|Hge]; simpl.
  - destruct (List.find _ rows) as [params|].
    + destruct IH as (Hin & Hle & Hleast). split; [by right|]. split; [exact Hle|].
      intros p [<-|Hp] Hb; [lia|by apply Hleast].
    + intros p [<-|Hp]; [exact Hlt|by apply IH].
  - split; [by left|]. split; [exact Hge|].
    intros p [<-|Hp] _; [lia|].
    rewrite List.Forall_forall in Hrow. specialize (Hrow p Hp). lia.
Qed.

Lemma windowParameters_Some (window : ETest) (bucketLength : TTime) :
  is_Some (windowParameters window bucketLength)
  <-> bucketLength <= longestBucket window.
Proof.
  pose proof (find_first_not_less (WINDOW_PARAMETERS window) bucketLength
                (window_parameters_sorted window)) as Hfind.
  fold (windowParameters window bucketLength) in Hfind.
  destruct (windowParameters window bucketLength) as [params|].
  - destruct Hfind as (Hin & Hle & _). split; [intros _|by eexists].
    destruct window; simpl in Hin;
      repeat (destruct Hin as [<-|Hin]; [simpl in Hle; simpl; lia|]); destruct Hin.
  - split; [by intros [? ?]|]. intros Hle. exfalso.
    destruct window; simpl in Hle.
    + specialize (Hfind (SParameters_new 86400 1 56 6 [86400] [])). simpl in Hfind.
      assert (86400 < bucketLength); [|lia].
      apply Hfind. do 16 right. by left.
    + specialize (Hfind (SParameters_new 604800 648001 156 6
                           [43200; 86400; 604800] [104 * 604800])).
      simpl in Hfind. assert (604800 < bucketLength); [|lia].
      apply Hfind. do 14 right. by left.
Qed.

Lemma window_parameters_rows (window : ETest) :
  Forall (fun params =>
            (0 < s_NumberBuckets params)%nat
            /\ (2 <= s_MinimumResolution params)%nat
            /\ 0 < List.last (s_BucketLengths params) 0
            /\ 0 < s_ShortestComponent params)
         (WINDOW_PARAMETERS window).
Proof.
  destruct window; simpl;
    repeat (apply List.Forall_cons; [simpl; lia|]); apply List.Forall_nil.
Qed.

(** X15. The lookup of the window parameters: the rows of either table
    are in the strict order of their bucket lengths, as [std::lower_bound]
    needs; the short window has parameters exactly for job buckets of at
    most a day and the long window exactly for those of at most a week,
    which is when [test(bucketLength)] holds; and the row found is the one
    of the smallest bucket length which is not below the job's, with a
    positive number of buckets and a positive longest window bucket. *)
Theorem window_parameters_lookup (window : ETest) (bucketLength : TTime) :
  StronglySorted (fun p q => s_BucketLength p < s_BucketLength q)
                 (WINDOW_PARAMETERS window)
  /\ (is_Some (windowParameters window bucketLength)
      <-> bucketLength <= longestBucket window)
  /\ (CSeasonalityTestParameters_test bucketLength = true
      <-> is_Some (windowParameters E_Long bucketLength))
  /\ match windowParameters window bucketLength with
     | Some params =>
         bucketLength <= s_BucketLength params
         /\ (forall p, In p (WINDOW_PARAMETERS window) ->
                       bucketLength <= s_BucketLength p ->
                       s_BucketLength params <= s_BucketLength p)
         /\ (0 < numberBuckets window bucketLength)%nat
         /\ 0 < maxBucketLength window bucketLength
     | None =>
         numberBuckets window bucketLength = O
         /\ maxBucketLength window bucketLength = 0
         /\ testSchedule window bucketLength = []
     end.
Proof.
  split; [apply window_parameters_sorted|]. split; [apply windowParameters_Some|].
  split.
  { rewrite windowParameters_Some. unfold CSeasonalityTestParameters_test.
    apply Z.leb_le. }
  pose proof (find_first_not_less (WINDOW_PARAMETERS window) bucketLength
                (window_parameters_sorted window)) as Hfind.
  fold (windowParameters window bucketLength) in Hfind.
  unfold numberBuckets, maxBucketLength, bucketLengths, testSchedule.
  destruct (windowParameters window bucketLength) as [params|]; [|done].
  destruct Hfind as (Hin & Hle & Hleast).
  split; [exact Hle|]. split; [exact Hleast|].
  pose proof (window_parameters_rows window) as Hrows.
  rewrite List.Forall_forall in Hrows.
  destruct (Hrows params Hin) as (Hbuckets & _ & Hlast & _). by split.
Qed.

Section SeasonalityTestProofs.
Context {D : Type} `{DoubleMath D} `{CBasicStatistics D} `{!CComponentTypes D}
  `{!CExpandingWindowTypes D}.

Lemma invariant_shape (t t' : CSeasonalityTest D) :
  shape t' = shape t ->
  CSeasonalityTest_invariant t -> CSeasonalityTest_invariant t'.
Proof.
  unfold shape, CSeasonalityTest_invariant, windows_initialized.
  by intros [= -> -> -> ->].
Qed.

Lemma has_window_fmap (f : CExpandingWindow -> CExpandingWindow)
    (window : option CExpandingWindow) :
  has_window (f <$> window) = has_window window.
Proof. by destruct window. Qed.

Lemma newWindow_has (test : ETest) (deflate : bool) (t : CSeasonalityTest D) :
  has_window (newWindow test deflate t)
  = (pt_BucketLength t <=? longestBucket test).
Proof.
  unfold newWindow, bucketLengths. cbv zeta.
  pose proof (windowParameters_Some test (pt_BucketLength t)) as Hsome.
  destruct (windowParameters test (pt_BucketLength t)) as [params|]; simpl.
  - symmetry. apply Z.leb_le, Hsome. by eexists.
  - symmetry. apply Z.leb_gt. destruct (Z.lt_ge_cases (longestBucket test)
                                          (pt_BucketLength t)) as [Hlt|Hge];
      [exact Hlt|]. apply Hsome in Hge. by destruct Hge.
Qed.

Lemma initialize_shape (time : TTime) (t : CSeasonalityTest D) :
  shape (initialize time t)
  = (pt_Machine t, pt_BucketLength t, pt_BucketLength t <=? 86400,
     pt_BucketLength t <=? 604800).
Proof.
  unfold initialize, shape. simpl.
  pose proof (newWindow_has E_Short true t) as Hshort.
  destruct (newWindow E_Short true t) as [short|]; simpl in *.
  - match goal with
    | |- context [newWindow E_Long true ?t0] =>
        pose proof (newWindow_has E_Long true t0) as Hlong;
        destruct (newWindow E_Long true t0) as [long|]
    end; simpl in *; by rewrite <- Hshort, <- Hlong.
  - match goal with
    | |- context [newWindow E_Long true ?t0] =>
        pose proof (newWindow_has E_Long true t0) as Hlong;
        destruct (newWindow E_Long true t0) as [long|]
    end; simpl in *; by rewrite <- Hshort, <- Hlong.
Qed.

Lemma apply_fuel_invariant (symbol : PT_Symbol) (message : SMessage)
    (t : CSeasonalityTest D) :
  CSeasonalityTest_invariant t ->
  exists t', CSeasonalityTest_apply_fuel 1 symbol message t = Some t'
             /\ CSeasonalityTest_invariant t'
             /\ pt_Machine t' = PT_TRANSITION_FUNCTION symbol (pt_Machine t).
Proof.
  intros Hinv. unfold CSeasonalityTest_invariant, windows_initialized in Hinv.
  simpl. destruct symbol, (pt_Machine t) eqn:Hstate; simpl; try destruct Hinv.
  all: try (eexists; split; [reflexivity|]; split; [|by simpl];
            unfold CSeasonalityTest_invariant, windows_initialized; simpl;
            rewrite ?Hstate; by auto).
  - (* INITIAL, NEW_VALUE *)
    destruct (m_ShortWindow t) as [short|] eqn:Hshort,
             (m_LongWindow t) as [long|] eqn:Hlong.
    all: try (eexists; split; [reflexivity|]; split; [|by simpl];
              unfold CSeasonalityTest_invariant, windows_initialized; simpl;
              rewrite ?Hshort, ?Hlong; simpl;
              split; [assumption|];
              match goal with
              | Hwindows : _ \/ _ |- _ =>
                  destruct Hwindows as [[? ?]|?]; [discriminate|assumption]
              end).
    eexists. split; [reflexivity|]. split.
    + pose proof (initialize_shape (s_Time message) (set_pt_Machine PT_TEST t))
        as Hshape.
      unfold shape in Hshape. injection Hshape as Hm Hb Hs Hl.
      unfold CSeasonalityTest_invariant, windows_initialized.
      rewrite Hm, Hb, Hs, Hl. simpl. split; [assumption|].
      split; [by apply Z.leb_le|reflexivity].
    + pose proof (initialize_shape (s_Time message) (set_pt_Machine PT_TEST t))
        as Hshape.
      unfold shape in Hshape. by injection Hshape as -> _ _ _.
  - (* TEST, RESET *)
    eexists. split; [reflexivity|].
    pose proof (initialize_shape (s_Time message) (set_pt_Machine PT_INITIAL t))
      as Hshape.
    unfold shape in Hshape. injection Hshape as Hm Hb Hs Hl.
    split; [|by rewrite Hm].
    unfold CSeasonalityTest_invariant, windows_initialized.
    rewrite Hm, Hb, Hs, Hl. simpl. split; [assumption|]. right.
    split; [by apply Z.leb_le|reflexivity].
Qed.

Lemma apply_fuel_more (symbol : PT_Symbol) (message : SMessage)
    (t t' : CSeasonalityTest D) (fuel : nat) :
  CSeasonalityTest_apply_fuel 1 symbol message t = Some t' ->
  CSeasonalityTest_apply_fuel (S fuel) symbol message t = Some t'.
Proof.
  simpl. destruct symbol, (pt_Machine t); simpl; done.
Qed.

Lemma CSeasonalityTest_apply_invariant (symbol : PT_Symbol) (message : SMessage)
    (t : CSeasonalityTest D) :
  CSeasonalityTest_invariant t ->
  CSeasonalityTest_invariant (CSeasonalityTest_apply symbol message t)
  /\ pt_Machine (CSeasonalityTest_apply symbol message t)
     = PT_TRANSITION_FUNCTION symbol (pt_Machine t).
Proof.
  intros Hinv.
  destruct (apply_fuel_invariant symbol message t Hinv) as (t' & Ht' & Hinv' & Hm).
  unfold CSeasonalityTest_apply. by rewrite (apply_fuel_more _ _ _ _ 1 Ht').
Qed.

Lemma CSeasonalityTest_test_shape (message : SAddValue D)
    (makeTest : CExpandingWindow -> TTime -> nat -> D -> CSeasonalDecomposition D)
    (t : CSeasonalityTest D) :
  pt_Machine t <> PT_ERROR ->
  shape (CSeasonalityTest_test message makeTest t) = shape t.
Proof.
  intros Hstate. unfold CSeasonalityTest_test. cbv zeta.
  destruct (pt_Machine t) eqn:Hmachine; try done.
  simpl.
  repeat match goal with
         | |- context [if ?b then _ else _] => destruct b
         | |- context [match ?x with _ => _ end] => destruct x
         end; reflexivity.
Qed.

Lemma handle_fuel_in_test (message : SAddValue D)
    (makeTest : CExpandingWindow -> TTime -> nat -> D -> CSeasonalDecomposition D)
    (t : CSeasonalityTest D) (fuel : nat) :
  pt_Machine t = PT_TEST \/ pt_Machine t = PT_NOT_TESTING ->
  exists t', CSeasonalityTest_handle_fuel (S fuel) message makeTest t = Some t'
             /\ shape t' = shape t.
Proof.
  intros Hstate. simpl.
  pose proof (CSeasonalityTest_test_shape message makeTest t
                ltac:(destruct Hstate as [-> | ->]; done)) as Hshape.
  set (tested := CSeasonalityTest_test message makeTest t) in *. clearbody tested.
  unfold shape in Hshape. injection Hshape as Hm Hb Hs Hl.
  rewrite Hm. destruct Hstate as [Hstate|Hstate]; rewrite Hstate.
  - destruct (negb _).
    + eexists. split; [reflexivity|]. unfold shape. by rewrite Hm, Hb, Hs, Hl.
    + eexists. split; [reflexivity|]. unfold shape. simpl.
      by rewrite !has_window_fmap, Hm, Hb, Hs, Hl.
  - eexists. split; [reflexivity|]. unfold shape. by rewrite Hm, Hb, Hs, Hl.
Qed.

Lemma CSeasonalityTest_handle_invariant (message : SAddValue D)
    (makeTest : CExpandingWindow -> TTime -> nat -> D -> CSeasonalDecomposition D)
    (t : CSeasonalityTest D) :
  CSeasonalityTest_invariant t ->
  exists t', CSeasonalityTest_handle_fuel 2 message makeTest t = Some t'
             /\ CSeasonalityTest_invariant t'
             /\ pt_Machine t' = PT_TRANSITION_FUNCTION PT_NEW_VALUE (pt_Machine t).
Proof.
  intros Hinv.
  destruct (pt_Machine t) eqn:Hstate.
  - (* INITIAL: the machine moves on and [handle] runs again *)
    pose proof (CSeasonalityTest_test_shape message makeTest t
                  ltac:(by rewrite Hstate)) as Hshape.
    change (CSeasonalityTest_handle_fuel 2 message makeTest t)
      with (let t0 := CSeasonalityTest_test message makeTest t in
            match pt_Machine t0 with
            | PT_TEST =>
                if negb (s_AllocationsAllowed (s_Message message)) then Some t0
                else
                  Some (fold_left (fun t i =>
                          set_m_Windows i
                            (ew_add (s_Time (s_Message message)) (s_Value message)
                               (s_Seasonal message + s_Calendar message)%D
                               (s_Count message) <$> m_Windows i t) t)
                          [E_Short; E_Long] t0)
            | PT_NOT_TESTING => Some t0
            | PT_INITIAL =>
                CSeasonalityTest_handle_fuel 1 message makeTest
                  (CSeasonalityTest_apply PT_NEW_VALUE (s_Message message) t0)
            | PT_ERROR =>
                Some (CSeasonalityTest_apply PT_RESET (s_Message message) t0)
            end).
    cbv zeta.
    pose proof (invariant_shape _ _ Hshape Hinv) as Hinv0.
    set (tested := CSeasonalityTest_test message makeTest t) in *.
    assert (Hm : pt_Machine tested = PT_INITIAL)
      by (unfold shape in Hshape; injection Hshape as -> _ _ _; exact Hstate).
    clearbody tested. rewrite Hm.
    destruct (CSeasonalityTest_apply_invariant PT_NEW_VALUE (s_Message message)
                tested Hinv0) as [Hinv1 Hm1].
    rewrite Hm in Hm1. simpl in Hm1.
    destruct (handle_fuel_in_test message makeTest
                (CSeasonalityTest_apply PT_NEW_VALUE (s_Message message) tested) 0
                ltac:(by left)) as (t' & Ht' & Hshape').
    exists t'. split; [exact Ht'|]. split.
    + exact (invariant_shape _ _ Hshape' Hinv1).
    + unfold shape in Hshape'. injection Hshape' as -> _ _ _. exact Hm1.
  - destruct (handle_fuel_in_test message makeTest t 1 ltac:(by left))
      as (t' & Ht' & Hshape').
    exists t'. split; [exact Ht'|]. split.
    + exact (invariant_shape _ _ Hshape' Hinv).
    + unfold shape in Hshape'. injection Hshape' as -> _ _ _. exact Hstate.
  - destruct (handle_fuel_in_test message makeTest t 1 ltac:(by right))
      as (t' & Ht' & Hshape').
    exists t'. split; [exact Ht'|]. split.
    + exact (invariant_shape _ _ Hshape' Hinv).
    + unfold shape in Hshape'. injection Hshape' as -> _ _ _. exact Hstate.
  - unfold CSeasonalityTest_invariant in Hinv. by rewrite Hstate in Hinv.
Qed.

Lemma invariant_reachable (t : CSeasonalityTest D) :
  PT_reachable t -> CSeasonalityTest_invariant t.
Proof.
  induction 1 as [decayRate bucketLength|message makeTest t _ IH|predictor t _ IH
                  |symbol message t _ IH|time shift t _ IH|start end_ t _ IH].
  - unfold CSeasonalityTest_invariant, CSeasonalityTest_new,
      CSeasonalityTestParameters_test. simpl.
    destruct (Z.leb_spec bucketLength 604800); simpl; auto.
  - destruct (CSeasonalityTest_handle_invariant message makeTest t IH)
      as (t' & Ht' & Hinv' & _).
    unfold CSeasonalityTest_handle_SAddValue. by rewrite Ht'.
  - by apply (invariant_shape t).
  - by apply CSeasonalityTest_apply_invariant.
  - apply (invariant_shape t); [|exact IH].
    unfold shape, CSeasonalityTest_shiftTime. simpl.
    by rewrite !has_window_fmap.
  - apply (invariant_shape t); [|exact IH].
    unfold shape, CSeasonalityTest_propagateForwards, stepwisePropagateForwards.
    cbv zeta.
    destruct (m_ShortWindow t) as [short|] eqn:Hshort,
             (m_LongWindow t) as [long|] eqn:Hlong;
      repeat (destruct (_ <? _); simpl; rewrite ?Hshort, ?Hlong; simpl);
      rewrite ?Hshort, ?Hlong; reflexivity.
Qed.

(** X16. The seasonality test never reaches [PT_ERROR] and has the windows
    of its state: in every state which the constructor and the operations
    give, a test which tests has its long window, and its short window
    exactly when the bucket length is at most a day; a test whose buckets
    are longer than a week never tests and has no window; and only such a
    test is in [PT_NOT_TESTING]. *)
Theorem seasonality_test_windows (t : CSeasonalityTest D) :
  PT_reachable t ->
  match pt_Machine t with
  | PT_INITIAL => pt_BucketLength t <= 604800
  | PT_TEST =>
      pt_BucketLength t <= 604800
      /\ m_LongWindow t <> None
      /\ (m_ShortWindow t <> None <-> pt_BucketLength t <= 86400)
  | PT_NOT_TESTING =>
      604800 < pt_BucketLength t
      /\ m_ShortWindow t = None /\ m_LongWindow t = None
  | PT_ERROR => False
  end.
Proof.
  intros Hreach. apply invariant_reachable in Hreach.
  unfold CSeasonalityTest_invariant, windows_initialized in Hreach.
  destruct (pt_Machine t); [tauto| | |exact Hreach].
  - destruct Hreach as (Hbucket & Hlong & Hshort). split; [exact Hbucket|].
    destruct (m_LongWindow t); [|discriminate Hlong]. split; [done|].
    destruct (m_ShortWindow t); simpl in Hshort.
    + split; [intros _; by apply Z.leb_le|done].
    + split; [done|]. intros Hle%Z.leb_le. by rewrite Hle in Hshort.
  - destruct Hreach as (Hbucket & Hshort & Hlong).
    by destruct (m_ShortWindow t), (m_LongWindow t).
Qed.

End SeasonalityTestProofs.

(** ** The components which [handle] updates *)

Lemma filter_ext_in {A : Type} (f g : A -> bool) (l : list A) :
  (forall a, In a l -> f a = g a) -> List.filter f l = List.filter g l.
Proof.
  induction l as [|a l IH]; intros Hext; [reflexivity|]. simpl.
  rewrite (Hext a (or_introl eq_refl)), IH; [reflexivity|].
  intros b Hb. apply Hext. by right.
Qed.

Lemma omap_ext_in {A B : Type} (f g : A -> option B) (l : list A) :
  (forall a, In a l -> f a = g a) -> omap f l = omap g l.
Proof.
  induction l as [|a l IH]; intros Hext; [reflexivity|].
  assert (Htail : omap f l = omap g l)
    by (apply IH; intros b Hb; apply Hext; by right).
  cbn [omap list_omap]. rewrite (Hext a (or_introl eq_refl)).
  destruct (g a); [f_equal|]; exact Htail.
Qed.

(** The positions which pass a test, read in two vectors of one length,
    give the pairs which pass it. *)
Lemma gather_from {A B : Type} (g : A -> bool) (l : list A) (l' : list B)
    (k : nat) :
  length l = length l' ->
  let active :=
    List.filter (fun i => match l !! (i - k)%nat with
                          | Some x => g x
                          | None => false
                          end) (seq k (length l)) in
  zip (omap (fun i => l !! (i - k)%nat) active)
      (omap (fun i => l' !! (i - k)%nat) active)
  = List.filter (fun p => g p.1) (zip l l').
Proof.
  revert l' k. induction l as [|a l IH]; intros [|b l'] k Hlen;
    try discriminate Hlen; [reflexivity|].
  injection Hlen as Hlen. cbv zeta. cbn [length seq List.filter zip zip_with fst].
  fold (zip l l'). rewrite Nat.sub_diag. cbn [lookup list_lookup].
  assert (Htail : List.filter (fun i => match (a :: l) !! (i - k)%nat with
                                        | Some x => g x
                                        | None => false
                                        end) (seq (S k) (length l))
                  = List.filter (fun i => match l !! (i - S k)%nat with
                                          | Some x => g x
                                          | None => false
                                          end) (seq (S k) (length l))).
  { apply filter_ext_in. intros i Hi%in_seq.
    replace (i - k)%nat with (S (i - S k)) by lia. reflexivity. }
  rewrite Htail.
  set (active := List.filter _ (seq (S k) (length l))).
  assert (Hactive : forall i, In i active -> (S k <= i)%nat).
  { intros i Hi%List.filter_In. destruct Hi as [Hi%in_seq _]. lia. }
  assert (Hl : omap (fun i => (a :: l) !! (i - k)%nat) active
               = omap (fun i => l !! (i - S k)%nat) active).
  { apply omap_ext_in. intros i Hi%Hactive.
    replace (i - k)%nat with (S (i - S k)) by lia. reflexivity. }
  assert (Hl' : omap (fun i => (b :: l') !! (i - k)%nat) active
                = omap (fun i => l' !! (i - S k)%nat) active).
  { apply omap_ext_in. intros i Hi%Hactive.
    replace (i - k)%nat with (S (i - S k)) by lia. reflexivity. }
  pose proof (IH l' (S k) Hlen) as IH'. cbv zeta in IH'. fold active in IH'.
  destruct (g a).
  - change (omap ?f (k :: active))
      with (match f k with Some y => y :: omap f active | None => omap f active end).
    cbv beta. rewrite Nat.sub_diag. cbn [lookup list_lookup zip zip_with].
    fold (zip (omap (fun i => (a :: l) !! (i - k)%nat) active)
              (omap (fun i => (b :: l') !! (i - k)%nat) active)).
    rewrite Hl, Hl', IH'. reflexivity.
  - rewrite Hl, Hl'. exact IH'.
Qed.

Lemma gather {A B : Type} (g : A -> bool) (l : list A) (l' : list B) :
  length l = length l' ->
  let active :=
    List.filter (fun i => match l !! i with
                          | Some x => g x
                          | None => false
                          end) (seq 0 (length l)) in
  zip (omap (fun i => l !! i) active) (omap (fun i => l' !! i) active)
  = List.filter (fun p => g p.1) (zip l l').
Proof.
  intros Hlen. pose proof (gather_from g l l' 0 Hlen) as Hgather.
  cbv zeta in *. rewrite <- Hgather.
  assert (Hfilter : List.filter (fun i => match l !! (i - 0)%nat with
                                          | Some x => g x
                                          | None => false
                                          end) (seq 0 (length l))
                    = List.filter (fun i => match l !! i with
                                            | Some x => g x
                                            | None => false
                                            end) (seq 0 (length l))).
  { apply filter_ext_in. intros i _. by rewrite Nat.sub_0_r. }
  rewrite Hfilter. f_equal; apply omap_ext_in; intros i _; by rewrite Nat.sub_0_r.
Qed.

Section ActiveProofs.
Context {D : Type} `{DoubleMath D} `{CBasicStatistics D} `{CComponentTypes D}.

(** X17. [CSeasonal::componentsErrorsAndDeltas] hands out each component
    with its own errors: the components and the errors it returns, taken
    together, are exactly the pairs of a component and its prediction
    errors whose component is in its window at the time, in their order. *)
Theorem componentsErrorsAndDeltas_pairs (time : TTime) (s : CSeasonal D) :
  CSeasonal_aligned s ->
  let r := CSeasonal_componentsErrorsAndDeltas time s in
  zip r.1.1 r.1.2
  = List.filter (fun p : CSeasonalComponent * CComponentErrors D =>
                   sc_inWindow p.1 time)
                (zip (m_Components s) (m_PredictionErrors s)).
Proof.
  intros Haligned. unfold CSeasonal_aligned in Haligned. cbv zeta.
  unfold CSeasonal_componentsErrorsAndDeltas, CSeasonal_active. cbv zeta.
  cbn [fst snd].
  apply (gather (fun c => sc_inWindow c time)). done.
Qed.

(** X18. [CCalendar::componentsAndErrors] hands out each component with its
    own errors: the components and the errors it returns, taken together,
    are exactly the pairs of a component and its prediction errors whose
    feature is in its window at the time, in their order. *)
Theorem componentsAndErrors_pairs (time : TTime) (k : CCalendar D) :
  CCalendar_aligned k ->
  let r := CCalendar_componentsAndErrors time k in
  zip r.1 r.2
  = List.filter (fun p : CCalendarComponent * CComponentErrors D =>
                   feature_inWindow (cc_feature p.1) time)
                (zip (m_CalendarComponents k) (m_CalendarPredictionErrors k)).
Proof.
  intros Haligned. unfold CCalendar_aligned in Haligned. cbv zeta.
  unfold CCalendar_componentsAndErrors. cbv zeta. cbn [fst snd].
  apply (gather (fun c => feature_inWindow (cc_feature c) time)). done.
Qed.

End ActiveProofs.

(** ** Adding seasonal components *)

Section AddProofs.
Context {D : Type} `{DoubleMath D} `{CBasicStatistics D} `{CComponentTypes D}.

Lemma insert_by_time_Permutation (x : CSeasonalComponent * CComponentErrors D)
    (l : list (CSeasonalComponent * CComponentErrors D)) :
  Permutation (insert_by_time x l) (x :: l).
Proof.
  induction l as [|y l IH]; simpl; [reflexivity|].
  destruct (sc_time_ltb x.1 y.1); [reflexivity|].
  etransitivity; [apply perm_skip, IH|apply perm_swap].
Qed.

Lemma CSeasonal_refreshForNewComponents_Permutation (s : CSeasonal D) :
  CSeasonal_aligned s ->
  Permutation (m_Components (CSeasonal_refreshForNewComponents s)) (m_Components s).
Proof.
  intros Haligned. unfold CSeasonal_aligned in Haligned.
  unfold CSeasonal_refreshForNewComponents. simpl.
  destruct (zip_fmap_fst_snd (m_Components s) (m_PredictionErrors s) ltac:(done))
    as [Hfst _].
  transitivity ((zip (m_Components s) (m_PredictionErrors s)).*1);
    [|by rewrite Hfst].
  clear Hfst. apply fmap_Permutation.
  induction (zip (m_Components s) (m_PredictionErrors s)) as [|x l IH];
    [reflexivity|].
  simpl. etransitivity; [apply insert_by_time_Permutation|apply perm_skip, IH].
Qed.

Lemma add_components_fold (l : list (CNewSeasonalComponent D))
    (s : CSeasonal D) (c : CComponents D) :
  let r :=
    fold_left (fun '(s, c) component =>
       (CSeasonal_add
          (createSeasonalComponent component (m_DecayRate c)
             (of_TTime (m_BucketLength c))) s,
        emit (ModelAnnotation (annotationText component)) c)) l (s, c) in
  m_Components r.1
  = m_Components s
    ++ map (fun component =>
              createSeasonalComponent component (m_DecayRate c)
                (of_TTime (m_BucketLength c))) l
  /\ length (m_PredictionErrors r.1) = (length (m_PredictionErrors s) + length l)%nat
  /\ m_Trend r.2 = m_Trend c.
Proof.
  revert s c. induction l as [|component l IH]; intros s c.
  - simpl. by rewrite app_nil_r, Nat.add_0_r.
  - cbv zeta. simpl. specialize (IH
      (CSeasonal_add (createSeasonalComponent component (m_DecayRate c)
                        (of_TTime (m_BucketLength c))) s)
      (emit (ModelAnnotation (annotationText component)) c)).
    cbv zeta in IH. destruct IH as (-> & -> & ->). simpl.
    rewrite <- app_assoc, length_app. simpl. repeat split. lia.
Qed.

(** X19. [addSeasonalComponents] on a proposal whose mask fits, with memory
    to allocate or a proposal which does not grow the store: the seasonal
    components afterwards are the ones the mask keeps together with the
    new ones of the proposal, in some order; every component has cleared
    prediction errors; and the trend is used for prediction. *)
Theorem addSeasonalComponents_adds (components : CSeasonalDecomposition D)
    (allocationsAllowed : bool) (c : CComponents D) (s : CSeasonal D) :
  m_Seasonal c = Some s ->
  CSeasonal_aligned s ->
  length (seasonalToRemoveMask components) = length (m_Components s) ->
  (allocationsAllowed = true
   \/ CSeasonal_estimateSizeChange components (m_DecayRate c)
        (of_TTime (m_BucketLength c)) s <= 0) ->
  let c' := addSeasonalComponents components allocationsAllowed c in
  exists s',
    m_Seasonal c' = Some s'
    /\ Permutation (m_Components s')
         (remove_flagged (seasonalToRemoveMask components) (m_Components s)
          ++ map (fun component =>
                    createSeasonalComponent component (m_DecayRate c)
                      (of_TTime (m_BucketLength c))) (seasonal components))
    /\ m_PredictionErrors s'
       = replicate (length (m_Components s')) CComponentErrors_new
    /\ m_UsingTrendForPrediction c' = true.
Proof.
  intros Hseasonal Haligned Hmask Hroom. cbv zeta. unfold addSeasonalComponents.
  rewrite Hseasonal.
  assert (Hgo : negb allocationsAllowed
                && (0 <? CSeasonal_estimateSizeChange components (m_DecayRate c)
                           (of_TTime (m_BucketLength c)) s) = false).
  { destruct Hroom as [-> | Hle]; [reflexivity|].
    apply andb_false_iff. right. by apply Z.ltb_ge. }
  rewrite Hgo.
  rewrite (CSeasonal_remove_flagged _ s Hmask Haligned). simpl negb. cbv iota zeta.
  set (kept := {| m_Components := remove_flagged (seasonalToRemoveMask components)
                                                 (m_Components s);
                  m_PredictionErrors := remove_flagged (seasonalToRemoveMask components)
                                                       (m_PredictionErrors s) |}).
  assert (Hkept : CSeasonal_aligned kept)
    by (unfold kept, CSeasonal_aligned; simpl; by apply remove_flagged_length).
  match goal with
  | |- context [fold_left ?step (seasonal components) (kept, ?c0)] =>
      pose proof (add_components_fold (seasonal components) kept c0) as Hfold;
      assert (Hrate : m_DecayRate c0 = m_DecayRate c
                      /\ m_BucketLength c0 = m_BucketLength c)
        by (by destruct (seasonal components));
      destruct (fold_left step (seasonal components) (kept, c0)) as [s2 c2]
  end.
  cbv zeta in Hfold. simpl in Hfold. destruct Hfold as (Hcomponents & Herrors & _).
  destruct Hrate as [Hdecay Hbucket]. rewrite Hdecay, Hbucket in Hcomponents.
  assert (Hs2 : CSeasonal_aligned s2).
  { unfold CSeasonal_aligned in *. rewrite Hcomponents, Herrors, length_app, length_map.
    simpl in Hkept. by rewrite Hkept. }
  eexists.
  cbn [m_Seasonal m_UsingTrendForPrediction emit set_UsingTrendForPrediction
       set_Trend set_GainController set_Seasonal set_Calendar clearComponentErrors
       fmap option_fmap option_map].
  split; [reflexivity|]. split; [|split; [|reflexivity]].
  - unfold CSeasonal_clearPredictionErrors. simpl.
    change (foldr insert_by_time [] (zip (m_Components s2) (m_PredictionErrors s2))).*1
      with (m_Components (CSeasonal_refreshForNewComponents s2)).
    rewrite (CSeasonal_refreshForNewComponents_Permutation s2 Hs2).
    by rewrite Hcomponents.
  - unfold CSeasonal_clearPredictionErrors. simpl.
    pose proof (CSeasonal_refreshForNewComponents_aligned s2) as Hsorted.
    unfold CSeasonal_aligned, CSeasonal_refreshForNewComponents in Hsorted.
    simpl in Hsorted. rewrite <- Hsorted.
    generalize ((foldr insert_by_time [] (zip (m_Components s2) (m_PredictionErrors s2))).*2).
    intros errors. induction errors as [|e errors IH]; [reflexivity|].
    simpl. by rewrite IH.
Qed.

End AddProofs.

(** ** One calendar component for a feature *)

Lemma remove_flagged_sublist {A : Type} (flags : list bool) (l : list A) :
  sublist (remove_flagged flags l) l.
Proof.
  revert l. induction flags as [|f flags IH]; intros [|a l]; simpl;
    try reflexivity.
  destruct f; [apply sublist_cons, IH|apply sublist_skip, IH].
Qed.

Section FeatureProofs.
Context {D : Type} `{DoubleMath D} `{CBasicStatistics D} `{CComponentTypes D}.






Section Laws.

(** Interpolation leaves the feature of a calendar component alone. *)
Hypothesis interpolate_feature :
  forall (time : TTime) (refine : bool) (component : CCalendarComponent),
    cc_feature (cc_interpolate time refine component) = cc_feature component.







(** A new calendar component has the feature it was made for. *)
Hypothesis make_feature :
  forall (feature : CCalendarFeature) (timeZoneOffset : TTime) (size : nat)
      (decayRate bucketLength : D),
    cc_feature (cc_make feature timeZoneOffset size decayRate bucketLength)
    = feature.


End Laws.

End FeatureProofs.

(** ** [CSeasonal::prune]: the last component of a window stays

    Maps keyed by a window first. *)

Lemma window_eqb_eq (a b : TTimeTimePr) : window_eqb a b = true <-> a = b.
Proof.
  unfold window_eqb. destruct a as [a1 a2], b as [b1 b2]. simpl.
  rewrite andb_true_iff, !Z.eqb_eq. split; [by intros [-> ->]|by intros [= -> ->]].
Qed.

Lemma window_eqb_refl (a : TTimeTimePr) : window_eqb a a = true.
Proof. by apply window_eqb_eq. Qed.

Lemma window_eqb_neq (a b : TTimeTimePr) : window_eqb a b = false <-> a <> b.
Proof.
  rewrite <- window_eqb_eq. by destruct (window_eqb a b).
Qed.

Lemma window_ltb_lt (a b : TTimeTimePr) :
  window_ltb a b = true <-> a.1 < b.1 \/ (a.1 = b.1 /\ a.2 < b.2).
Proof.
  unfold window_ltb.
  rewrite orb_true_iff, andb_true_iff, !Z.ltb_lt, Z.eqb_eq. tauto.
Qed.

Lemma fm_find_above {T : Type} (k : TTimeTimePr) (m : list (TTimeTimePr * T)) :
  Forall (fun entry => window_ltb k entry.1 = true) m -> fm_find k m = None.
Proof.
  induction 1 as [|[k' v] m Hk _ IH]; [reflexivity|]. simpl in *.
  destruct (window_eqb k k') eqn:Heq; [|exact IH].
  apply window_eqb_eq in Heq. subst k'. apply window_ltb_lt in Hk. lia.
Qed.

Lemma fm_find_update_eq {T : Type} (k : TTimeTimePr) (f : T -> T) (init : T)
    (m : list (TTimeTimePr * T)) :
  fm_sorted m ->
  fm_find k (fm_update k f init m) = Some (f (default init (fm_find k m))).
Proof.
  induction 1 as [|[k' v] m Hsorted IH Hall]; simpl.
  - by rewrite window_eqb_refl.
  - destruct (window_eqb k k') eqn:Heq; simpl.
    + by rewrite Heq.
    + destruct (window_ltb k k') eqn:Hlt; simpl.
      * rewrite window_eqb_refl. rewrite fm_find_above; [reflexivity|].
        rewrite List.Forall_forall in *. intros entry Hentry.
        specialize (Hall entry Hentry). simpl in Hall.
        apply window_ltb_lt. apply window_ltb_lt in Hlt, Hall. lia.
      * by rewrite Heq.
Qed.

Lemma fm_find_update_ne {T : Type} (k k' : TTimeTimePr) (f : T -> T) (init : T)
    (m : list (TTimeTimePr * T)) :
  k' <> k -> fm_find k' (fm_update k f init m) = fm_find k' m.
Proof.
  intros Hne. apply window_eqb_neq in Hne.
  induction m as [|[k'' v] m IH]; simpl.
  - by rewrite Hne.
  - destruct (window_eqb k k'') eqn:Heq; simpl.
    + apply window_eqb_eq in Heq. subst k''. by rewrite Hne.
    + destruct (window_ltb k k''); simpl; [by rewrite Hne|].
      by rewrite IH.
Qed.

Lemma fm_update_sorted {T : Type} (k : TTimeTimePr) (f : T -> T) (init : T)
    (m : list (TTimeTimePr * T)) :
  fm_sorted m -> fm_sorted (fm_update k f init m).
Proof.
  induction 1 as [|[k' v] m Hsorted IH Hall]; simpl.
  - apply SSorted_cons; [apply SSorted_nil|apply List.Forall_nil].
  - destruct (window_eqb k k') eqn:Heq.
    + by apply SSorted_cons.
    + destruct (window_ltb k k') eqn:Hlt.
      * apply SSorted_cons; [by apply SSorted_cons|].
        apply List.Forall_cons; [exact Hlt|].
        rewrite List.Forall_forall in *. intros entry Hentry.
        specialize (Hall entry Hentry). simpl in *.
        apply window_ltb_lt. apply window_ltb_lt in Hlt, Hall. lia.
      * apply SSorted_cons; [exact IH|].
        assert (Hgt : window_ltb k' k = true).
        { apply window_ltb_lt. apply window_eqb_neq in Heq.
          destruct (window_ltb k k') eqn:Hlt'; [discriminate|].
          assert (Hnot : ~ (k.1 < k'.1 \/ k.1 = k'.1 /\ k.2 < k'.2))
            by (rewrite <- window_ltb_lt; by rewrite Hlt').
          destruct k as [k1 k2], k' as [k1' k2']. simpl in *.
          assert (k1 <> k1' \/ k2 <> k2') by (destruct (Z.eq_dec k1 k1');
            [right; intros ->; subst; by apply Heq|by left]).
          lia. }
        clear IH. induction m as [|[k'' v''] m IHm]; simpl.
        { by apply List.Forall_cons. }
        apply Forall_cons_1 in Hall. destruct Hall as [Hhead Htail]. simpl in Hhead.
        apply StronglySorted_inv in Hsorted. destruct Hsorted as [Hsorted' Hall'].
        destruct (window_eqb k k''); [by apply List.Forall_cons|].
        destruct (window_ltb k k'');
          [by repeat apply List.Forall_cons|].
        apply List.Forall_cons; [exact Hhead|]. by apply IHm.
Qed.

Lemma fm_find_is_Some_update {T : Type} (k k' : TTimeTimePr) (f : T -> T)
    (init : T) (m : list (TTimeTimePr * T)) :
  is_Some (fm_find k' m) -> is_Some (fm_find k' (fm_update k f init m)).
Proof.
  induction m as [|[k'' v] m IH]; simpl; [by intros [? ?]|].
  destruct (window_eqb k' k'') eqn:Hk'.
  - intros _. destruct (window_eqb k k''); simpl; [by rewrite Hk'|].
    destruct (window_ltb k k''); simpl.
    + destruct (window_eqb k' k); [by eexists|]. by rewrite Hk'.
    + by rewrite Hk'.
  - intros Hsome. destruct (window_eqb k k''); simpl; [by rewrite Hk'|].
    destruct (window_ltb k k''); simpl.
    + destruct (window_eqb k' k); [by eexists|]. by rewrite Hk'.
    + rewrite Hk'. by apply IH.
Qed.
Section PruneProofs.
Context {D : Type} `{DoubleMath D} `{CBasicStatistics D} `{CComponentTypes D}.

Lemma in_window_count_flag_le (window : TTimeTimePr) (flags : list bool)
    (components : list CSeasonalComponent) (i : nat) :
  (in_window_count window flags components
   <= S (in_window_count window (<[i:=true]> flags) components))%nat.
Proof.
  unfold in_window_count.
  revert components i. induction flags as [|f flags IH]; intros [|c components] i;
    simpl; try lia.
  destruct i as [|i]; simpl.
  - destruct (negb f && sc_windowed c && window_eqb (sc_window c) window);
      simpl; lia.
  - specialize (IH components i).
    destruct (negb f && sc_windowed c && window_eqb (sc_window c) window);
      simpl; lia.
Qed.

Lemma in_window_count_flag_other (window : TTimeTimePr) (flags : list bool)
    (components : list CSeasonalComponent) (i : nat) (c : CSeasonalComponent) :
  components !! i = Some c ->
  sc_windowed c && window_eqb (sc_window c) window = false ->
  in_window_count window (<[i:=true]> flags) components
  = in_window_count window flags components.
Proof.
  unfold in_window_count.
  revert components i. induction flags as [|f flags IH]; intros [|c' components] i;
    simpl; try done.
  destruct i as [|i]; simpl.
  - intros [= ->] Hc. rewrite <- !andb_assoc, Hc, !andb_false_r. reflexivity.
  - intros Hi Hc. specialize (IH components i Hi Hc).
    destruct (negb f && sc_windowed c' && window_eqb (sc_window c') window);
      simpl; lia.
Qed.

Lemma in_window_count_pos (window : TTimeTimePr) (flags : list bool)
    (components : list CSeasonalComponent) :
  length flags = length components ->
  (1 <= in_window_count window flags components)%nat ->
  exists c, In c (remove_flagged flags components)
            /\ sc_windowed c = true /\ sc_window c = window.
Proof.
  unfold in_window_count.
  revert components. induction flags as [|f flags IH]; intros [|c components] Hlen;
    try discriminate Hlen; simpl; [lia|].
  injection Hlen as Hlen.
  destruct f; simpl.
  - intros Hpos. by apply IH.
  - destruct (sc_windowed c && window_eqb (sc_window c) window) eqn:Hc; simpl.
    + intros _. apply andb_true_iff in Hc. destruct Hc as [Hw Heq%window_eqb_eq].
      exists c. split; [by left|done].
    + intros Hpos. destruct (IH components Hlen Hpos) as (c' & Hin & Hc').
      exists c'. split; [by right|exact Hc'].
Qed.

(** The counts of the windows, as the first loop of [prune] forms them. *)
Lemma windowed_counts (components : list CSeasonalComponent) :
  let windowed :=
    fold_left (fun windowed component =>
                 if sc_windowed component
                 then fm_update (sc_window component) Nat.succ O windowed
                 else windowed) components [] in
  fm_sorted windowed
  /\ (forall c, In c components -> sc_windowed c = true ->
                is_Some (fm_find (sc_window c) windowed))
  /\ (forall window count, fm_find window windowed = Some count ->
        (1 <= count
         <= in_window_count window (replicate (length components) false)
                            components)%nat).
Proof.
  cbv zeta.
  assert (Hgeneral : forall (post pre : list CSeasonalComponent)
             (m : list (TTimeTimePr * nat)),
             fm_sorted m ->
             (forall c, In c pre -> sc_windowed c = true ->
                        is_Some (fm_find (sc_window c) m)) ->
             (forall window count, fm_find window m = Some count ->
                (1 <= count
                 <= in_window_count window (replicate (length pre) false) pre)%nat) ->
             let m' :=
               fold_left (fun windowed component =>
                            if sc_windowed component
                            then fm_update (sc_window component) Nat.succ O windowed
                            else windowed) post m in
             fm_sorted m'
             /\ (forall c, In c (pre ++ post) -> sc_windowed c = true ->
                           is_Some (fm_find (sc_window c) m'))
             /\ (forall window count, fm_find window m' = Some count ->
                   (1 <= count
                    <= in_window_count window
                         (replicate (length (pre ++ post)) false) (pre ++ post))%nat)).
  { induction post as [|c post IH]; intros pre m Hsorted Hkeys Hcounts.
    - simpl. rewrite !app_nil_r.
      split; [exact Hsorted|split; [exact Hkeys|exact Hcounts]].
    - cbv zeta. simpl.
      replace (pre ++ c :: post) with ((pre ++ [c]) ++ post)
        by (by rewrite <- app_assoc).
      assert (Hcount_snoc : forall window,
                 in_window_count window (replicate (length (pre ++ [c])) false)
                                 (pre ++ [c])
                 = (in_window_count window (replicate (length pre) false) pre
                    + if sc_windowed c && window_eqb (sc_window c) window
                      then 1 else 0)%nat).
      { intros window. unfold in_window_count.
        rewrite length_app. simpl. rewrite replicate_add. simpl.
        rewrite zip_with_app by (by rewrite length_replicate).
        rewrite List.filter_app, length_app. simpl.
        by destruct (sc_windowed c && window_eqb (sc_window c) window). }
      apply IH.
      + destruct (sc_windowed c); [by apply fm_update_sorted|exact Hsorted].
      + intros c' [Hc'|Hc']%in_app_or Hwindowed.
        * specialize (Hkeys c' Hc' Hwindowed).
          destruct (sc_windowed c); [by apply fm_find_is_Some_update|exact Hkeys].
        * destruct Hc' as [<-|[]]. rewrite Hwindowed.
          rewrite fm_find_update_eq by exact Hsorted. by eexists.
      + intros window count. rewrite Hcount_snoc.
        destruct (sc_windowed c) eqn:Hwindowed; simpl.
        * destruct (window_eqb (sc_window c) window) eqn:Heq.
          -- apply window_eqb_eq in Heq. subst window.
             rewrite fm_find_update_eq by exact Hsorted. intros [= <-].
             destruct (fm_find (sc_window c) m) as [count|] eqn:Hfind; simpl.
             ++ specialize (Hcounts _ _ Hfind). unfold Nat.succ. lia.
             ++ unfold Nat.succ. lia.
          -- apply window_eqb_neq in Heq.
             rewrite fm_find_update_ne by (by intros ->). intros Hfind.
             specialize (Hcounts _ _ Hfind). lia.
        * intros Hfind. specialize (Hcounts _ _ Hfind). lia. }
  apply (Hgeneral components [] []).
  - apply SSorted_nil.
  - by intros c [].
  - by intros window count.
Qed.

Lemma remove_flagged_none {A : Type} (l : list A) :
  remove_flagged (replicate (length l) false) l = l.
Proof. induction l as [|a l IH]; simpl; [done|by rewrite IH]. Qed.

(** X21. When the errors of no component of the store ask for its removal,
    and there are as many errors as components, [CSeasonal::prune] leaves
    the store as it was: no component is removed and no level is shifted.
    It answers whether the store is empty. *)
Theorem CSeasonal_prune_nothing_to_remove (time bucketLength : TTime)
    (s : CSeasonal D) :
  (forall i c e,
     m_Components s !! i = Some c -> m_PredictionErrors s !! i = Some e ->
     CComponentErrors_remove bucketLength (sc_period c) e = false) ->
  length (m_PredictionErrors s) = length (m_Components s) ->
  CSeasonal_prune time bucketLength s
  = (s, match m_Components s with [] => true | _ => false end).
Proof.
  intros Hkeep Haligned. unfold CSeasonal_prune. cbv zeta.
  destruct (1 <? length (m_Components s))%nat; [|done].
  match goal with
  | |- context [for_loop 0 ?n ?body ?init] =>
      pose proof (for_loop_indexed
        (fun _ '(remove, shifts, windowed) =>
           remove = replicate n false /\ shifts = [])
        body n 0 init) as Hloop;
      destruct (for_loop 0 n body init) as [[remove shifts] windowed]
  end.
  simpl in Hloop. destruct Hloop as [-> ->]; [done| |].
  - intros i [[remove0 shifts0] windowed1] Hi [-> ->].
    destruct (m_Components s !! i) as [ci|] eqn:Hci; [|done].
    destruct (m_PredictionErrors s !! i) as [ei|] eqn:Hei; [|done].
    rewrite (Hkeep i ci ei Hci Hei).
    by destruct (match fm_find (sc_window ci) windowed1 with
                 | Some count => (1 <? count)%nat | None => true end).
  - simpl. rewrite <- Haligned at 2. rewrite !remove_flagged_none.
    by destruct s.
Qed.

Section ShiftLaws.

(** A shift of its level leaves the window of a component alone. *)
Hypothesis shiftLevel_windowed :
  forall (shift : D) (component : CSeasonalComponent),
    sc_windowed (sc_shiftLevel shift component) = sc_windowed component.
Hypothesis shiftLevel_window :
  forall (shift : D) (component : CSeasonalComponent),
    sc_window (sc_shiftLevel shift component) = sc_window component.

Lemma update_first_keeps_window (window : TTimeTimePr)
    (p : CSeasonalComponent -> bool) (shift : D)
    (components : list CSeasonalComponent) :
  (exists c, In c components /\ sc_windowed c = true /\ sc_window c = window) ->
  exists c, In c (update_first p (sc_shiftLevel shift) components).1
            /\ sc_windowed c = true /\ sc_window c = window.
Proof.
  induction components as [|a components IH]; simpl; [by intros (c & [] & _)|].
  intros (c & [<-|Hin] & Hw & Hwindow).
  - destruct (p a); simpl.
    + exists (sc_shiftLevel shift a).
      split; [by left|]. by rewrite shiftLevel_windowed, shiftLevel_window.
    + destruct (update_first p (sc_shiftLevel shift) components) as [l found].
      exists a. split; [by left|done].
  - destruct (p a); simpl.
    + exists c. split; [by right|done].
    + destruct (IH (ex_intro _ c (conj Hin (conj Hw Hwindow))))
        as (c' & Hin' & Hc').
      destruct (update_first p (sc_shiftLevel shift) components) as [l found].
      exists c'. split; [by right|exact Hc'].
Qed.

Lemma map_shift_keeps_window (window : TTimeTimePr) (shift : D)
    (components : list CSeasonalComponent) :
  (exists c, In c components /\ sc_windowed c = true /\ sc_window c = window) ->
  exists c, In c (map (sc_shiftLevel shift) components)
            /\ sc_windowed c = true /\ sc_window c = window.
Proof.
  intros (c & Hin & Hw & Hwindow). exists (sc_shiftLevel shift c).
  split; [by apply in_map|]. by rewrite shiftLevel_windowed, shiftLevel_window.
Qed.

(** X22. [CSeasonal::prune] never removes the last windowed component of
    a window: for every windowed component of the store, a windowed
    component of the same window is in the store afterwards, whatever the
    prediction errors say (given that shifting the level of a component
    leaves its window alone; the counter of a window which was not found
    is not decremented, as in [CSeasonal_prune]). *)
Theorem CSeasonal_prune_windows (time bucketLength : TTime) (s : CSeasonal D)
    (c : CSeasonalComponent) :
  In c (m_Components s) -> sc_windowed c = true ->
  exists c', In c' (m_Components (CSeasonal_prune time bucketLength s).1)
             /\ sc_windowed c' = true /\ sc_window c' = sc_window c.
Proof.
  intros Hin Hwindowed. unfold CSeasonal_prune. cbv zeta.
  destruct (1 <? length (m_Components s))%nat; [|by exists c].
  destruct (windowed_counts (m_Components s)) as (Hsorted0 & Hkeys0 & Hcounts0).
  set (components := m_Components s) in *.
  set (n := length components) in *.
  set (windowed0 := fold_left _ components []) in *.
  match goal with
  | |- context [for_loop 0 n ?body ?init] =>
      pose proof (for_loop_indexed
        (fun i '(remove, shifts, windowed) =>
           fm_sorted windowed
           /\ length remove = n
           /\ (forall j, (i <= j < n)%nat -> remove !! j = Some false)
           /\ (forall window count, fm_find window windowed = Some count ->
                 (1 <= count <= in_window_count window remove components)%nat)
           /\ (forall window, is_Some (fm_find window windowed0) ->
                              is_Some (fm_find window windowed)))
        body n 0 init) as Hloop;
      destruct (for_loop 0 n body init) as [[remove shifts] windowed]
  end.
  simpl in Hloop.
  destruct Hloop as (_ & Hlength & _ & Hcounts & Hkeys).
  - (* the invariant holds at the start *)
    split; [exact Hsorted0|]. split; [apply length_replicate|].
    split; [intros j Hj; apply lookup_replicate_2; lia|].
    split; [exact Hcounts0|done].
  - (* and every pass keeps it *)
    intros i [[remove0 shifts0] windowed1] Hi
      (Hsorted & Hlength & Hfalse & Hcounts & Hkeys).
    assert (Hkeep : fm_sorted windowed1
              /\ length remove0 = n
              /\ (forall j, (S i <= j < n)%nat -> remove0 !! j = Some false)
              /\ (forall window count, fm_find window windowed1 = Some count ->
                    (1 <= count <= in_window_count window remove0 components)%nat)
              /\ (forall window, is_Some (fm_find window windowed0) ->
                                 is_Some (fm_find window windowed1))).
    { split; [exact Hsorted|]. split; [exact Hlength|].
      split; [intros j Hj; apply Hfalse; lia|]. by split. }
    destruct (components !! i) as [ci|] eqn:Hci; [|exact Hkeep].
    destruct (m_PredictionErrors s !! i) as [ei|]; [|exact Hkeep].
    destruct (fm_find (sc_window ci) windowed1) as [count|] eqn:Hfind.
    + destruct (1 <? count)%nat eqn:Hmore; [|exact Hkeep].
      destruct (CComponentErrors_remove _ _ ei); [|exact Hkeep].
      apply Nat.ltb_lt in Hmore.
      split; [by apply fm_update_sorted|]. split; [by rewrite length_insert|].
      split.
      { intros j Hj. rewrite list_lookup_insert_ne by lia. apply Hfalse. lia. }
      split.
      * intros window count'.
        destruct (window_eqb (sc_window ci) window) eqn:Heq.
        -- apply window_eqb_eq in Heq. subst window.
           rewrite fm_find_update_eq, Hfind by exact Hsorted. simpl.
           intros [= <-]. specialize (Hcounts _ _ Hfind).
           pose proof (in_window_count_flag_le (sc_window ci) remove0 components i).
           lia.
        -- apply window_eqb_neq in Heq.
           rewrite fm_find_update_ne by (by intros ->). intros Hfind'.
           specialize (Hcounts _ _ Hfind').
           rewrite (in_window_count_flag_other window remove0 components i ci Hci);
             [exact Hcounts|].
           apply andb_false_iff. right. by apply window_eqb_neq.
      * intros window Hsome. by apply fm_find_is_Some_update, Hkeys.
    + simpl. destruct (CComponentErrors_remove _ _ ei); [|exact Hkeep].
      split; [exact Hsorted|]. split; [by rewrite length_insert|].
      split.
      { intros j Hj. rewrite list_lookup_insert_ne by lia. apply Hfalse. lia. }
      split; [|exact Hkeys].
      intros window count' Hfind'. specialize (Hcounts _ _ Hfind').
      rewrite (in_window_count_flag_other window remove0 components i ci Hci);
        [exact Hcounts|].
      apply andb_false_iff.
      destruct (window_eqb (sc_window ci) window) eqn:Heq; [|by right].
      apply window_eqb_eq in Heq. subst window. by rewrite Hfind in Hfind'.
  - (* a component of the window of [c] is left, and the shifts keep it *)
    destruct (Hkeys (sc_window c) (Hkeys0 c Hin Hwindowed)) as [count Hfind].
    specialize (Hcounts _ _ Hfind).
    destruct (in_window_count_pos (sc_window c) remove components Hlength
                ltac:(lia)) as (kept & Hkept).
    simpl.
    assert (Hstart : exists c', In c' (remove_flagged remove components)
                                /\ sc_windowed c' = true
                                /\ sc_window c' = sc_window c)
      by (by exists kept).
    clear Hkept. revert Hstart.
    generalize (remove_flagged remove components).
    induction shifts as [|[window shift] shifts IH]; intros l Hl; [exact Hl|].
    simpl. apply IH.
    destruct (fm_find window windowed).
    + by apply update_first_keeps_window.
    + pose proof (update_first_keeps_window (sc_window c)
                    (fun c => negb (sc_windowed c)) shift l Hl) as Hfirst.
      destruct (update_first _ _ l) as [l' found]. simpl in Hfirst.
      destruct found; [exact Hfirst|by apply map_shift_keeps_window].
Qed.

End ShiftLaws.

End PruneProofs.

(** ** The size of the store *)

(** The sum of the sizes, as [size] folds it. *)
Lemma fold_left_size {A : Type} (f : A -> nat) (l : list A) (n : nat) :
  fold_left (fun result x => (result + f x)%nat) l n
  = (n + sum_list_with f l)%nat.
Proof.
  revert n. induction l as [|x l IH]; intros n; simpl; [lia|]. rewrite IH. lia.
Qed.

Lemma sum_list_with_sublist {A : Type} (f : A -> nat) (l l' : list A) :
  sublist l' l -> (sum_list_with f l' <= sum_list_with f l)%nat.
Proof. induction 1; simpl; lia. Qed.

Lemma sum_list_with_map_kept {A : Type} (f : A -> nat) (g : A -> A) (l : list A) :
  (forall x, f (g x) = f x) -> sum_list_with f (map g l) = sum_list_with f l.
Proof.
  intros Hg. induction l as [|x l IH]; simpl; [reflexivity|]. by rewrite Hg, IH.
Qed.

Lemma sum_list_with_update_first {A : Type} (f : A -> nat) (p : A -> bool)
    (g : A -> A) (l : list A) :
  (forall x, f (g x) = f x) ->
  sum_list_with f (update_first p g l).1 = sum_list_with f l.
Proof.
  intros Hg. induction l as [|x l IH]; simpl; [reflexivity|].
  destruct (p x); simpl; [by rewrite Hg|].
  destruct (update_first p g l) as [l' found]. simpl in *. by rewrite IH.
Qed.

Section SizeProofs.
Context {D : Type} `{DoubleMath D} `{CBasicStatistics D} `{CComponentTypes D}.

Lemma size_sum (c : CComponents D) :
  size c = (sum_list_with sc_size (seasonalComponents c)
            + sum_list_with cc_size (calendarComponents c))%nat.
Proof.
  unfold size, seasonalComponents, calendarComponents, CSeasonal_size,
    CCalendar_size.
  destruct (m_Seasonal c), (m_Calendar c); rewrite ?fold_left_size; simpl; lia.
Qed.

Lemma sizes_within_size (seasonal calendar seasonalSize calendarSize : nat)
    (c : CComponents D) :
  sizes_within seasonal calendar seasonalSize calendarSize c ->
  (size c <= seasonal + calendar)%nat
  /\ maxSize c = (MAXIMUM_COMPONENTS * seasonalSize)%nat.
Proof.
  intros (Hs & Hk & Hss & _). rewrite size_sum. unfold maxSize. rewrite Hss.
  split; [lia|reflexivity].
Qed.

Lemma sizes_within_self (c : CComponents D) :
  sizes_within (sum_list_with sc_size (seasonalComponents c))
               (sum_list_with cc_size (calendarComponents c))
               (m_SeasonalComponentSize c) (m_CalendarComponentSize c) c.
Proof. by repeat split. Qed.

Lemma sizes_within_ext (seasonal calendar seasonalSize calendarSize : nat)
    (c c' : CComponents D) :
  m_Seasonal c' = m_Seasonal c -> m_Calendar c' = m_Calendar c ->
  m_SeasonalComponentSize c' = m_SeasonalComponentSize c ->
  m_CalendarComponentSize c' = m_CalendarComponentSize c ->
  sizes_within seasonal calendar seasonalSize calendarSize c ->
  sizes_within seasonal calendar seasonalSize calendarSize c'.
Proof.
  unfold sizes_within, seasonalComponents, calendarComponents.
  by intros -> -> -> ->.
Qed.

Section Laws.

(** The operations on a component leave its size alone. *)
Hypothesis shiftOrigin_size :
  forall (time : TTime) (component : CSeasonalComponent),
    sc_size (sc_shiftOrigin time component) = sc_size component.
Hypothesis shiftLevel_size :
  forall (shift : D) (component : CSeasonalComponent),
    sc_size (sc_shiftLevel shift component) = sc_size component.
Hypothesis shiftSlope_size :
  forall (time : TTime) (shift : D) (component : CSeasonalComponent),
    sc_size (sc_shiftSlope time shift component) = sc_size component.
Hypothesis interpolate_size :
  forall (time : TTime) (refine : bool) (component : CSeasonalComponent),
    sc_size (sc_interpolate time refine component) = sc_size component.
Hypothesis calendar_interpolate_size :
  forall (time : TTime) (refine : bool) (component : CCalendarComponent),
    cc_size (cc_interpolate time refine component) = cc_size component.

Lemma CSeasonal_prune_size (time bucketLength : TTime) (s : CSeasonal D) :
  (sum_list_with sc_size (m_Components (CSeasonal_prune time bucketLength s).1)
   <= sum_list_with sc_size (m_Components s))%nat.
Proof.
  unfold CSeasonal_prune. cbv zeta.
  destruct (1 <? length (m_Components s))%nat; [|reflexivity].
  destruct (for_loop _ _ _ _) as [[remove shifts] windowed]. simpl.
  pose proof (sum_list_with_sublist sc_size _ _
                (remove_flagged_sublist remove (m_Components s))) as Hkept.
  revert Hkept. generalize (remove_flagged remove (m_Components s)).
  induction shifts as [|[window shift] shifts IH]; intros l Hl; [exact Hl|].
  simpl. apply IH.
  destruct (fm_find window windowed).
  - by rewrite sum_list_with_update_first.
  - pose proof (sum_list_with_update_first sc_size
                  (fun c => negb (sc_windowed c)) (sc_shiftLevel shift) l
                  (shiftLevel_size shift)) as Hfirst.
    destruct (update_first _ _ l) as [l' found]. simpl in Hfirst.
    destruct found; [by rewrite Hfirst|].
    by rewrite sum_list_with_map_kept.
Qed.

Lemma CCalendar_prune_size (time bucketLength : TTime) (k : CCalendar D) :
  (sum_list_with cc_size
     (m_CalendarComponents (CCalendar_prune time bucketLength k).1)
   <= sum_list_with cc_size (m_CalendarComponents k))%nat.
Proof.
  unfold CCalendar_prune. cbv zeta. simpl.
  apply sum_list_with_sublist, remove_flagged_sublist.
Qed.

Lemma canonicalize_sizes (seasonal calendar seasonalSize calendarSize : nat)
    (time : TTime) (c : CComponents D) :
  sizes_within seasonal calendar seasonalSize calendarSize c ->
  sizes_within seasonal calendar seasonalSize calendarSize (canonicalize time c).
Proof.
  intros Hc. unfold canonicalize. cbv zeta.
  assert (Hshift : sizes_within seasonal calendar seasonalSize calendarSize
                     (shiftOrigin time c)).
  { destruct Hc as (Hs & Hk & Hss & Hks). repeat split; try assumption.
    unfold shiftOrigin, seasonalComponents in *. simpl.
    destruct (m_Seasonal c) as [s|]; simpl; [|exact Hs].
    by rewrite sum_list_with_map_kept. }
  set (shifted := shiftOrigin time c) in *. clearbody shifted. clear Hc.
  assert (Hseasonal : sizes_within seasonal calendar seasonalSize calendarSize
            match m_Seasonal shifted with
            | Some s =>
                let '(s, empty) := CSeasonal_prune time (m_BucketLength shifted) s in
                set_Seasonal (if empty then None else Some s) shifted
            | None => shifted
            end).
  { destruct (m_Seasonal shifted) as [s|] eqn:Hs0; [|exact Hshift].
    pose proof (CSeasonal_prune_size time (m_BucketLength shifted) s) as Hprune.
    destruct (CSeasonal_prune _ _ s) as [s' empty]. simpl in Hprune.
    destruct Hshift as (Hs & Hk & Hss & Hks). repeat split; try assumption.
    unfold seasonalComponents in *. rewrite Hs0 in Hs. simpl.
    destruct empty; simpl; lia. }
  match type of Hseasonal with sizes_within _ _ _ _ ?c1 => set (c1_ := c1) in * end.
  clearbody c1_. clear Hshift.
  assert (Hcalendar : sizes_within seasonal calendar seasonalSize calendarSize
            match m_Calendar c1_ with
            | Some k =>
                let '(k, empty) := CCalendar_prune time (m_BucketLength c1_) k in
                set_Calendar (if empty then None else Some k) c1_
            | None => c1_
            end).
  { destruct (m_Calendar c1_) as [k|] eqn:Hk0; [|exact Hseasonal].
    pose proof (CCalendar_prune_size time (m_BucketLength c1_) k) as Hprune.
    destruct (CCalendar_prune _ _ k) as [k' empty]. simpl in Hprune.
    destruct Hseasonal as (Hs & Hk & Hss & Hks). repeat split; try assumption.
    unfold calendarComponents in *. rewrite Hk0 in Hk. simpl.
    destruct empty; simpl; lia. }
  match type of Hcalendar with sizes_within _ _ _ _ ?c2 => set (pruned := c2) in * end.
  clearbody pruned. clear Hseasonal.
  destruct (m_Seasonal pruned) as [s|] eqn:Hs0; [|exact Hcalendar].
  destruct (fold_left _ (m_Components s) _)
    as [[[levels slopes] numberLevels] numberSlopes].
  destruct Hcalendar as (Hs & Hk & Hss & Hks).
  unfold seasonalComponents in Hs. rewrite Hs0 in Hs.
  assert (Hslope : forall (l : list CSeasonalComponent) (shift : CSeasonalComponent -> D),
             sum_list_with sc_size
               (map (fun component =>
                       if sc_slopeAccurate component time
                       then sc_shiftSlope time (shift component) component
                       else component) l)
             = sum_list_with sc_size l).
  { intros l shift. apply sum_list_with_map_kept. intros x.
    by destruct (sc_slopeAccurate x time). }
  assert (Hlevel : forall (l : list CSeasonalComponent) (shift : CSeasonalComponent -> D),
             sum_list_with sc_size
               (map (fun component => sc_shiftLevel (shift component) component) l)
             = sum_list_with sc_size l).
  { intros l shift. apply sum_list_with_map_kept. intros x. apply shiftLevel_size. }
  repeat (match goal with
          | |- context [if ?b then _ else _] => destruct b
          end);
    (split; [|split; [|split]]; [|exact Hk|exact Hss|exact Hks]);
    unfold seasonalComponents; simpl;
    rewrite ?(Hslope _ (fun component => _)), ?(Hlevel _ (fun component => _));
    exact Hs.
Qed.

Lemma interpolated_sizes (seasonal calendar seasonalSize calendarSize : nat)
    (time : TTime) (c : CComponents D) :
  sizes_within seasonal calendar seasonalSize calendarSize c ->
  sizes_within seasonal calendar seasonalSize calendarSize
    (let c1 :=
       match m_Seasonal c with
       | Some s =>
           let '(s, removed) := CSeasonal_removeComponentsWithBadValues time s in
           let c' := if removed then emit (ComponentChange []) c else c in
           set_Seasonal (Some (CSeasonal_interpolate time true s)) c'
       | None => c
       end in
     match m_Calendar c1 with
     | Some k =>
         let '(k, removed) := CCalendar_removeComponentsWithBadValues time k in
         let c' := if removed then emit (ComponentChange []) c1 else c1 in
         set_Calendar (Some (CCalendar_interpolate time true k)) c'
     | None => c1
     end).
Proof.
  intros Hc. cbv zeta.
  match goal with
  | |- sizes_within _ _ _ _ (match m_Calendar ?c1 with _ => _ end) =>
      assert (Hfirst : sizes_within seasonal calendar seasonalSize calendarSize c1);
        [|set (c1_ := c1) in *; clearbody c1_]
  end.
  { destruct (m_Seasonal c) as [s|] eqn:Hs0; [|exact Hc].
    destruct Hc as (Hs & Hk & Hss & Hks).
    unfold seasonalComponents in Hs. rewrite Hs0 in Hs.
    unfold CSeasonal_removeComponentsWithBadValues. cbv zeta.
    assert (Hmap : forall l : list CSeasonalComponent,
               sum_list_with sc_size
                 (map (fun component =>
                         if sc_shouldInterpolate component time
                         then sc_interpolate time true component else component) l)
               = sum_list_with sc_size l).
    { intros l. apply sum_list_with_map_kept. intros x.
      by destruct (sc_shouldInterpolate x time). }
    destruct (existsb _ _); (split; [|split; [|split]]; [|exact Hk|exact Hss|exact Hks]);
      unfold seasonalComponents; simpl; rewrite Hmap; [|exact Hs].
    etransitivity; [|exact Hs].
    apply sum_list_with_sublist, remove_flagged_sublist. }
  destruct (m_Calendar c1_) as [k|] eqn:Hk0; [|exact Hfirst].
  destruct Hfirst as (Hs & Hk & Hss & Hks).
  unfold calendarComponents in Hk. rewrite Hk0 in Hk.
  unfold CCalendar_removeComponentsWithBadValues. cbv zeta.
  assert (Hmap : forall l : list CCalendarComponent,
             sum_list_with cc_size
               (map (fun component =>
                       if cc_shouldInterpolate component time
                       then cc_interpolate time true component else component) l)
             = sum_list_with cc_size l).
  { intros l. apply sum_list_with_map_kept. intros x.
    by destruct (cc_shouldInterpolate x time). }
  destruct (existsb _ _); (split; [|split; [|split]]; [exact Hs| |exact Hss|exact Hks]);
    unfold calendarComponents; simpl; rewrite Hmap; [|exact Hk].
  etransitivity; [|exact Hk].
  apply sum_list_with_sublist, remove_flagged_sublist.
Qed.

Lemma clearComponents_sizes (seasonal calendar seasonalSize calendarSize : nat)
    (c : CComponents D) :
  sizes_within seasonal calendar seasonalSize calendarSize c ->
  sizes_within seasonal calendar seasonalSize calendarSize (clearComponents c).
Proof.
  intros (Hs & Hk & Hss & Hks). repeat split; try assumption; simpl; lia.
Qed.

Lemma apply_fuel_sizes (seasonal calendar seasonalSize calendarSize : nat)
    (message : SMessage) (fuel : nat) :
  forall (symbol : SC_Symbol) (c c' : CComponents D),
    sizes_within seasonal calendar seasonalSize calendarSize c ->
    apply_fuel fuel symbol message c = Some c' ->
    sizes_within seasonal calendar seasonalSize calendarSize c'.
Proof.
  induction fuel as [|fuel IH]; intros symbol c c' Hc Happly; [discriminate|].
  assert (Hinterpolate : forall c0 c1 : CComponents D,
             sizes_within seasonal calendar seasonalSize calendarSize c0 ->
             interpolate_with (apply_fuel fuel) message c0 = Some c1 ->
             sizes_within seasonal calendar seasonalSize calendarSize c1).
  { intros c0 c1 Hc0. unfold interpolate_with. cbv zeta.
    pose proof (canonicalize_sizes _ _ _ _ (s_Time message) c0 Hc0) as Hcanonical.
    destruct (m_Machine c0).
    1, 2: destruct (shouldInterpolate _ _);
      [apply IH, (interpolated_sizes _ _ _ _ (s_Time message) _ Hcanonical)
      |by intros [= <-]].
    - by intros [= <-].
    - by apply IH. }
  simpl in Happly.
  set (c0 := match symbol with SC_RESET => clearComponents c | _ => c end) in *.
  assert (Hc0 : sizes_within seasonal calendar seasonalSize calendarSize c0)
    by (unfold c0; destruct symbol; try exact Hc; by apply clearComponents_sizes).
  clearbody c0.
  assert (Hset : forall state,
             sizes_within seasonal calendar seasonalSize calendarSize
               (set_Machine state c0)) by (intros state; exact Hc0).
  destruct (negb _); [|injection Happly as <-; apply Hset].
  destruct (SC_TRANSITION_FUNCTION symbol (m_Machine c0)).
  - eapply Hinterpolate; [|exact Happly]. apply Hset.
  - eapply Hinterpolate; [|exact Happly]. apply Hset.
  - injection Happly as <-. apply clearComponents_sizes, Hset.
  - eapply IH; [|exact Happly]. apply Hset.
Qed.

Lemma apply_sizes (seasonal calendar seasonalSize calendarSize : nat)
    (symbol : SC_Symbol) (message : SMessage) (c : CComponents D) :
  sizes_within seasonal calendar seasonalSize calendarSize c ->
  sizes_within seasonal calendar seasonalSize calendarSize (apply symbol message c).
Proof.
  intros Hc. apply (apply_fuel_sizes _ _ _ _ message 4 symbol c); [exact Hc|].
  apply (apply_total symbol message c 1).
Qed.

Lemma interpolate_sizes (seasonal calendar seasonalSize calendarSize : nat)
    (message : SMessage) (c : CComponents D) :
  sizes_within seasonal calendar seasonalSize calendarSize c ->
  sizes_within seasonal calendar seasonalSize calendarSize (interpolate message c).
Proof.
  intros Hc. unfold interpolate.
  destruct (interpolate_with (apply_fuel 4) message c) as [c'|] eqn:Hi;
    [|exact Hc].
  revert Hi. unfold interpolate_with. cbv zeta.
  pose proof (canonicalize_sizes _ _ _ _ (s_Time message) c Hc) as Hcanonical.
  destruct (m_Machine c).
  1, 2: destruct (shouldInterpolate _ _);
    [apply apply_fuel_sizes,
       (interpolated_sizes _ _ _ _ (s_Time message) _ Hcanonical)
    |by intros [= <-]].
  - by intros [= <-].
  - by apply apply_fuel_sizes.
Qed.

(** A new calendar component has the size it was made with. *)
Hypothesis make_size :
  forall (feature : CCalendarFeature) (timeZoneOffset : TTime) (size : nat)
      (decayRate bucketLength : D),
    cc_size (cc_make feature timeZoneOffset size decayRate bucketLength) = size.

Lemma addCalendarComponent_sizes (seasonal calendar seasonalSize calendarSize : nat)
    (feature : CCalendarFeature) (allocationsAllowed : bool)
    (timeZoneOffset : TTime) (c : CComponents D) :
  sizes_within seasonal calendar seasonalSize calendarSize c ->
  sizes_within seasonal (calendar + calendarSize) seasonalSize calendarSize
    (addCalendarComponent feature allocationsAllowed timeZoneOffset c).
Proof.
  intros (Hs & Hk & Hss & Hks). unfold addCalendarComponent.
  destruct (negb allocationsAllowed); [repeat split; try assumption; lia|].
  cbv zeta. unfold calendarComponents in *.
  destruct (m_Calendar c) as [k|] eqn:Hk0;
    [|repeat split; try assumption; unfold calendarComponents; rewrite ?Hk0; simpl; lia].
  unfold sizes_within, seasonalComponents, calendarComponents, emit,
    set_Calendar, CCalendar_add.
  cbn [m_Seasonal m_Calendar m_SeasonalComponentSize m_CalendarComponentSize
       m_CalendarComponents].
  simpl in Hk.
  split; [exact Hs|]. split; [|by split].
  rewrite sum_list_with_app. simpl. rewrite make_size. lia.
Qed.

(** C2, amended.  The store does not bound the number of its components;
    it checks once for each message that there is room for one component.
    A detected seasonality is ignored when the sizes of all components plus
    the size of one seasonal component exceed [MAXIMUM_COMPONENTS] times
    the size of a seasonal component, and a detected calendar feature when
    they exceed it with the size of one calendar component.  A detected
    calendar feature adds at most one component of that size: after it, the
    size of the store is at most the larger of the size before and the
    bound, which stays the same; [interpolate] and [apply] do not raise the
    size.  So the total size stays within the bound as long as no detected
    seasonality takes it beyond.  (Where the operations on a component
    leave its size alone and a new calendar component has the size it was
    made with.) *)
Theorem store_keeps_size_bound (message : SMessage) (c : CComponents D) :
  (forall (feature : CCalendarFeature) (timeZoneOffset : TTime),
      let c' := handle_SDetectedCalendar message feature timeZoneOffset c in
      maxSize c' = maxSize c /\ (size c' <= Nat.max (size c) (maxSize c))%nat)
  /\ (maxSize (interpolate message c) = maxSize c
      /\ (size (interpolate message c) <= size c)%nat)
  /\ (forall symbol : SC_Symbol,
        maxSize (apply symbol message c) = maxSize c
        /\ (size (apply symbol message c) <= size c)%nat)
  /\ (forall components : CSeasonalDecomposition D,
        (maxSize c < size c + m_SeasonalComponentSize c)%nat ->
        handle_SDetectedSeasonal message components c = c)
  /\ (forall (feature : CCalendarFeature) (timeZoneOffset : TTime),
        (maxSize c < size c + m_CalendarComponentSize c)%nat ->
        handle_SDetectedCalendar message feature timeZoneOffset c = c).
Proof.
  pose proof (sizes_within_self c) as Hself.
  assert (Hbound : forall (seasonal calendar : nat) (c' : CComponents D),
             sizes_within seasonal calendar (m_SeasonalComponentSize c)
                          (m_CalendarComponentSize c) c' ->
             maxSize c' = maxSize c /\ (size c' <= seasonal + calendar)%nat).
  { intros seasonal calendar c' Hc'.
    destruct (sizes_within_size _ _ _ _ c' Hc') as [Hsize ->]. by split. }
  split; [|split; [|split; [|split]]].
  - intros feature timeZoneOffset. cbv zeta. unfold handle_SDetectedCalendar.
    destruct (Nat.ltb_spec (maxSize c) (size c + m_CalendarComponentSize c))
      as [Hfull|Hroom]; [split; [reflexivity|lia]|].
    destruct (m_Machine c).
    3: split; [reflexivity|lia].
    3: destruct (Hbound _ _ _ (apply_sizes _ _ _ _ SC_RESET message c Hself))
         as [-> Hsize]; rewrite <- size_sum in Hsize; split; [reflexivity|lia].
    all: cbv zeta.
    all: match goal with
         | |- context [addCalendarComponent _ _ _ ?c0] =>
             assert (Hwith : sizes_within
                               (sum_list_with sc_size (seasonalComponents c))
                               (sum_list_with cc_size (calendarComponents c))
                               (m_SeasonalComponentSize c)
                               (m_CalendarComponentSize c) c0)
               by (unfold sizes_within, seasonalComponents, calendarComponents;
                   destruct (m_Calendar c) eqn:Hcalendar; simpl;
                   rewrite ?Hcalendar; by repeat split);
             set (with_calendar := c0) in *; clearbody with_calendar
         end.
    all: destruct (match m_Calendar with_calendar with
                   | Some k => CCalendar_haveComponent feature k
                   | None => false
                   end);
      [destruct (Hbound _ _ _ Hwith) as [-> Hsize];
       rewrite <- size_sum in Hsize; split; [reflexivity|lia]|].
    all: destruct (Hbound _ _ _
                     (apply_sizes _ _ _ _ SC_ADDED_COMPONENTS message _
                        (addCalendarComponent_sizes _ _ _ _ feature
                           (s_AllocationsAllowed message) timeZoneOffset _ Hwith)))
           as [-> Hsize].
    all: rewrite Nat.add_assoc, <- size_sum in Hsize; split; [reflexivity|lia].
  - destruct (Hbound _ _ _ (interpolate_sizes _ _ _ _ message c Hself))
      as [-> Hsize].
    rewrite <- size_sum in Hsize. by split.
  - intros symbol.
    destruct (Hbound _ _ _ (apply_sizes _ _ _ _ symbol message c Hself))
      as [-> Hsize].
    rewrite <- size_sum in Hsize. by split.
  - intros components Hfull. unfold handle_SDetectedSeasonal.
    apply Nat.ltb_lt in Hfull. by rewrite Hfull.
  - intros feature timeZoneOffset Hfull. unfold handle_SDetectedCalendar.
    apply Nat.ltb_lt in Hfull. by rewrite Hfull.
Qed.

End Laws.
End SizeProofs.

(** C2 as stated fails, on calendar components and on seasonal ones.  A
    store whose seasonal components have 36 buckets gives 12 to a calendar
    component and bounds its size by 8 times 36: after nine detected
    calendar features it holds nine components, of size 108 together.  And
    a detected seasonality which passes the check is not bounded by the
    store: the empty store has room for one seasonal component, and adds
    the nine daily components of one proposal, of size 324 together against
    the bound 288. *)
Lemma components_exceed_the_cap :
  ((length (seasonalComponents (Inputs.with_calendar_features 9))
    + length (calendarComponents (Inputs.with_calendar_features 9)) = 9)%nat
   /\ size (Inputs.with_calendar_features 9) = 108%nat
   /\ maxSize (Inputs.with_calendar_features 9) = 288%nat
   /\ MAXIMUM_COMPONENTS = 8%nat)
  /\ ((size Inputs.hourly_store + m_SeasonalComponentSize Inputs.hourly_store
       <= maxSize Inputs.hourly_store)%nat
      /\ length (seasonalComponents
                   (handle_SDetectedSeasonal (Inputs.message_at DAY)
                      Inputs.nine_daily_proposal Inputs.hourly_store)) = 9%nat
      /\ size (handle_SDetectedSeasonal (Inputs.message_at DAY)
                 Inputs.nine_daily_proposal Inputs.hourly_store) = 324%nat
      /\ maxSize (handle_SDetectedSeasonal (Inputs.message_at DAY)
                    Inputs.nine_daily_proposal Inputs.hourly_store) = 288%nat).
Proof. vm_compute. repeat split. lia. Qed.

(** The store with 23 calendar components of 12 buckets has room for one
    more, which fills it: the next detected feature is ignored. *)
Lemma store_keeps_size_bound_witness :
  (size (handle_SDetectedCalendar (Inputs.message_at 0%Z) Inputs.day_25 0%Z
           (Inputs.with_calendar_features 23))
   <= Nat.max (size (Inputs.with_calendar_features 23))
              (maxSize (Inputs.with_calendar_features 23)))%nat
  /\ length (calendarComponents
               (handle_SDetectedCalendar (Inputs.message_at 0%Z) Inputs.day_25 0%Z
                  (Inputs.with_calendar_features 23))) = 24%nat
  /\ handle_SDetectedCalendar (Inputs.message_at 0) Inputs.day_25 0
       (Inputs.with_calendar_features 24)
     = Inputs.with_calendar_features 24.
Proof.
  pose proof (fun shiftOrigin shiftLevel shiftSlope interpolate
                  calendar_interpolate make =>
                store_keeps_size_bound (D:=float) shiftOrigin shiftLevel
                  shiftSlope interpolate calendar_interpolate make
                  (Inputs.message_at 0) (Inputs.with_calendar_features 24))
    as Hlaws.
  destruct (Hlaws (fun time component => eq_refl)
                  (fun shift component => eq_refl)
                  (fun time shift component => eq_refl)
                  (fun time refine component => eq_refl)
                  (fun time refine component => eq_refl)
                  (fun feature timeZoneOffset size decayRate bucketLength =>
                     eq_refl))
    as (_ & _ & _ & _ & Hfull).
  clear Hlaws.
  pose proof (fun shiftOrigin shiftLevel shiftSlope interpolate
                  calendar_interpolate make =>
                store_keeps_size_bound (D:=float) shiftOrigin shiftLevel
                  shiftSlope interpolate calendar_interpolate make
                  (Inputs.message_at 0) (Inputs.with_calendar_features 23))
    as Hlaws.
  destruct (Hlaws (fun time component => eq_refl)
                  (fun shift component => eq_refl)
                  (fun time shift component => eq_refl)
                  (fun time refine component => eq_refl)
                  (fun time refine component => eq_refl)
                  (fun feature timeZoneOffset size decayRate bucketLength =>
                     eq_refl))
    as [Hcalendar _].
  clear Hlaws.
  split; [apply Hcalendar|]. split; [vm_compute; reflexivity|].
  apply Hfull. vm_compute. lia.
Defined.

(** ** The properties on concrete inputs *)

(** Of three components, the mask which flags the second leaves the daily
    and the weekly one, each with the errors of a week. *)
Lemma CSeasonal_remove_keeps_unflagged_witness :
  CSeasonal_remove [false; true; false] Inputs.three_seasonal
  = ({| m_Components :=
          [Inputs.component_of_period DAY; Inputs.component_of_period WEEK];
        m_PredictionErrors :=
          [Inputs.errors_after_a_week; Inputs.errors_after_a_week] |}, true).
Proof.
  rewrite (CSeasonal_remove_keeps_unflagged [false; true; false]
             Inputs.three_seasonal eq_refl eq_refl).
  reflexivity.
Defined.

(** A new store is in [SC_NORMAL], and is again after the daily component
    was added to it. *)
Lemma store_returns_to_normal_witness :
  m_Machine Inputs.daily_store = SC_NORMAL.
Proof.
  exact (proj1 (store_returns_to_normal (Inputs.message_at DAY)
                  Inputs.hourly_store eq_refl) Inputs.daily_proposal).
Defined.


(** The calendar test for hourly buckets after an observation at time 0,
    a detected seasonality, and an observation ninety days later. *)
Lemma calendar_test_never_fails_witness :
  CCalendarTest_invariant
    (fold_left CCalendarTest_handle
       [AddValue (Inputs.observation 0 1%float);
        DetectedSeasonal (Inputs.message_at (45 * DAY));
        AddValue (Inputs.observation (90 * DAY) 1%float)]
       Inputs.new_calendar_test).
Proof.
  apply (calendar_test_never_fails
           (CCalendarTestTypes0 := Reference.calendarTest Inputs.found_features)).
  intros time. apply Z.mod_pos_bound. reflexivity.
Defined.

(** The change point test for hourly buckets after one observation. *)
Lemma change_point_window_is_full_witness :
  CChangePointTest_window_invariant Inputs.change_point_test_after_one.
Proof.
  apply change_point_window_is_full, reachable_SAddValue, reachable_new.
Defined.

(** The same test: its bucket length is an hour. *)
Lemma large_error_fraction_bounds_witness :
  (0 <= m_LargeErrorFraction Inputs.change_point_test_after_one <= 1)%R.
Proof.
  apply large_error_fraction_bounds.
  - apply reachable_SAddValue, reachable_new.
  - unfold Inputs.change_point_test_after_one.
    rewrite handle_SAddValue_bucketLength. reflexivity.
Defined.

(** With hourly buckets and half of the buckets empty, the minimum length
    of a change is 60 hours. *)
Lemma minimum_change_length_bounds_witness :
  (3600 | minimumChangeLength (1 / 2)%R (Inputs.tested_at_0 (D:=R)))
  /\ 108000 <= minimumChangeLength (1 / 2)%R (Inputs.tested_at_0 (D:=R))
     < 2 * 108000 + 3600
  /\ minimumChangeLength (1 / 2)%R (Inputs.tested_at_0 (D:=R))
     <= maximumIntervalToDetectChange (1 / 2)%R (Inputs.tested_at_0 (D:=R)).
Proof.
  apply (minimum_change_length_bounds (1 / 2)%R (Inputs.tested_at_0 (D:=R)));
    [reflexivity|lra].
Defined.


(** The bad component goes, with its errors; the daily and the weekly one
    stay with theirs. *)
Lemma CSeasonal_removeComponentsWithBadValues_filter_witness :
  CSeasonal_removeComponentsWithBadValues 0 Inputs.seasonal_with_bad
  = ({| m_Components :=
          [Inputs.component_of_period DAY; Inputs.component_of_period WEEK];
        m_PredictionErrors :=
          [Inputs.errors_after_a_week; Inputs.errors_after_a_week] |}, true).
Proof.
  rewrite (proj1 (CSeasonal_removeComponentsWithBadValues_filter 0
                    Inputs.seasonal_with_bad eq_refl)).
  reflexivity.
Defined.

(** With buckets of two hours the errors of 168 observations span two
    weeks and ask for the removal of the first component; the second, which
    has no errors yet, stays. *)
Lemma CCalendar_prune_filter_witness :
  CCalendar_prune 0 (2 * HOUR) Inputs.calendar_of_two
  = ({| m_CalendarComponents := [Inputs.calendar_component 14];
        m_CalendarPredictionErrors := [CComponentErrors_new] |}, false).
Proof.
  rewrite (CCalendar_prune_filter 0 (2 * HOUR) Inputs.calendar_of_two eq_refl).
  cbn [Inputs.calendar_of_two m_CalendarComponents m_CalendarPredictionErrors
       zip zip_with List.filter fst snd].
  match goal with
  | |- context [CComponentErrors_remove ?b ?p ?e] =>
      assert (Hfirst : CComponentErrors_remove b p e = true)
        by (vm_compute; reflexivity);
      rewrite Hfirst
  end.
  match goal with
  | |- context [CComponentErrors_remove ?b ?p ?e] =>
      assert (Hsecond : CComponentErrors_remove b p e = false)
        by (vm_compute; reflexivity);
      rewrite Hsecond
  end.
  reflexivity.
Defined.

(** The seasonality test for hourly buckets after its first observation. *)
Lemma seasonality_test_windows_witness :
  match pt_Machine Inputs.seasonality_test_after_one with
  | PT_INITIAL => pt_BucketLength Inputs.seasonality_test_after_one <= 604800
  | PT_TEST =>
      pt_BucketLength Inputs.seasonality_test_after_one <= 604800
      /\ m_LongWindow Inputs.seasonality_test_after_one <> None
      /\ (m_ShortWindow Inputs.seasonality_test_after_one <> None
          <-> pt_BucketLength Inputs.seasonality_test_after_one <= 86400)
  | PT_NOT_TESTING =>
      604800 < pt_BucketLength Inputs.seasonality_test_after_one
      /\ m_ShortWindow Inputs.seasonality_test_after_one = None
      /\ m_LongWindow Inputs.seasonality_test_after_one = None
  | PT_ERROR => False
  end.
Proof.
  apply seasonality_test_windows, PT_reachable_SAddValue, PT_reachable_new.
Defined.

(** At time 0 the three components are in their window. *)
Lemma componentsErrorsAndDeltas_pairs_witness :
  zip (CSeasonal_componentsErrorsAndDeltas 0 Inputs.three_seasonal).1.1
      (CSeasonal_componentsErrorsAndDeltas 0 Inputs.three_seasonal).1.2
  = [(Inputs.component_of_period DAY, Inputs.errors_after_a_week);
     (Inputs.component_of_period (2 * DAY), CComponentErrors_new);
     (Inputs.component_of_period WEEK, Inputs.errors_after_a_week)].
Proof.
  rewrite (componentsErrorsAndDeltas_pairs 0 Inputs.three_seasonal eq_refl).
  reflexivity.
Defined.

(** The fifteenth day of the month is in the window of the second
    component only. *)
Lemma componentsAndErrors_pairs_witness :
  zip (CCalendar_componentsAndErrors (14 * DAY) Inputs.calendar_of_two).1
      (CCalendar_componentsAndErrors (14 * DAY) Inputs.calendar_of_two).2
  = [(Inputs.calendar_component 14, CComponentErrors_new)].
Proof.
  rewrite (componentsAndErrors_pairs (14 * DAY) Inputs.calendar_of_two eq_refl).
  reflexivity.
Defined.

(** The proposal which removes the second of three components and adds a
    daily one leaves three components. *)
Lemma addSeasonalComponents_adds_witness :
  exists s',
    m_Seasonal (addSeasonalComponents Inputs.proposal_for_three true
                                      Inputs.store_of_three) = Some s'
    /\ Permutation (m_Components s')
         (remove_flagged (seasonalToRemoveMask Inputs.proposal_for_three)
                         (m_Components Inputs.three_seasonal)
          ++ map (fun component =>
                    createSeasonalComponent component
                      (m_DecayRate Inputs.store_of_three)
                      (of_TTime (m_BucketLength Inputs.store_of_three)))
                 (seasonal Inputs.proposal_for_three))
    /\ m_PredictionErrors s'
       = replicate (length (m_Components s')) CComponentErrors_new
    /\ m_UsingTrendForPrediction
         (addSeasonalComponents Inputs.proposal_for_three true
                                Inputs.store_of_three) = true.
Proof.
  apply (addSeasonalComponents_adds Inputs.proposal_for_three true
           Inputs.store_of_three Inputs.three_seasonal);
    [reflexivity|reflexivity|reflexivity|by left].
Defined.


(** With hourly buckets none of the three components is asked to go. *)
Lemma CSeasonal_prune_nothing_to_remove_witness :
  CSeasonal_prune 0 HOUR Inputs.three_seasonal = (Inputs.three_seasonal, false).
Proof.
  rewrite (CSeasonal_prune_nothing_to_remove 0 HOUR Inputs.three_seasonal).
  - reflexivity.
  - intros i c e Hc He.
    destruct i as [|i].
    { injection Hc as <-.
      change (Some Inputs.errors_after_a_week = Some e) in He.
      apply (inj Some) in He. subst e.
      vm_compute.
      reflexivity. }
    destruct i as [|i].
    { injection Hc as <-.
      change (Some CComponentErrors_new = Some e) in He.
      apply (inj Some) in He. subst e.
      vm_compute.
      reflexivity. }
    destruct i as [|i].
    { injection Hc as <-.
      change (Some Inputs.errors_after_a_week = Some e) in He.
      apply (inj Some) in He. subst e.
      vm_compute.
      reflexivity. }
    discriminate Hc.
  - reflexivity.
Defined.

(** With buckets of two hours the errors ask for both components; each is
    the last one of its window. *)
Lemma CSeasonal_prune_windows_witness :
  exists c',
    In c' (m_Components (CSeasonal_prune 0 (2 * HOUR) Inputs.weekend_and_weekdays).1)
    /\ sc_windowed c' = true
    /\ sc_window c' = sc_window Inputs.weekend_component.
Proof.
  apply (CSeasonal_prune_windows (D:=float)).
  - intros shift component. reflexivity.
  - intros shift component. reflexivity.
  - left. reflexivity.
  - reflexivity.
Defined.
